(** * SorobanService: the smart-contract invocation orchestrator

    A shallow embedding of [soroban.service.ts] (class [SorobanService]) and
    of the JavaScript and Stellar SDK notions it relies on, followed by the
    properties of the embedding.

    - JavaScript values are an inductive type with the language's truthiness
      ([!v], [a || b]), [String(v)] and [BigInt(s)].
    - [async] methods are computations over an explicit [World]: a
      millisecond clock ([Date.now()]) and the chronological history of the
      remote calls issued and of the sleeps taken.  A computation completes
      by returning, by throwing, or by exhausting the fuel that bounds the
      polling loop.
    - The RPC server is a record of capabilities; each answers with a latency
      and a settlement, and may depend on the whole world (so a capability
      can count calls or look at the clock). *)

From Stdlib Require Import ZArith NArith Bool List String Ascii Floats Lia.
From Stdlib Require Import DecimalString DecimalZ.
Import ListNotations.

Local Open Scope string_scope.
Local Open Scope Z_scope.
Local Set Warnings "-register-all".

(** ** JavaScript values *)

(** An in-memory [xdr.ScVal] instance, identified by its XDR serialisation. *)
Record ScVal : Type := mkScVal { xdr_bytes : list Byte.byte }.

Inductive JsValue : Type :=
| JUndefined
| JNull
| JBool (b : bool)
| JNumber (x : float)
| JBigInt (z : Z)
| JString (s : string)
| JScVal (v : ScVal)                          (* value instanceof xdr.ScVal *)
| JArray (items : list JsValue)
| JObject (props : list (string * JsValue)).  (* any other object *)

(** [ToBoolean]: the falsy values are undefined, null, false, +0, -0, NaN,
    0n and the empty string; every object is truthy. *)
Definition truthy (v : JsValue) : bool :=
  match v with
  | JUndefined | JNull => false
  | JBool b => b
  | JNumber x => negb (PrimFloat.is_zero x || PrimFloat.is_nan x)
  | JBigInt z => negb (z =? 0)
  | JString s => negb (s =? "")%string
  | JScVal _ | JArray _ | JObject _ => true
  end.

(** [a || b] *)
Definition js_or (a b : JsValue) : JsValue := if truthy a then a else b.

(** Truthiness of a [string | undefined] and of a [number | undefined]. *)
Definition truthy_string (o : option string) : option string :=
  match o with
  | Some s => if (s =? "")%string then None else Some s
  | None => None
  end.

Definition truthy_number (o : option Z) : option Z :=
  match o with
  | Some n => if n =? 0 then None else Some n
  | None => None
  end.

(** [a || b] with [a : T | undefined] and [b : T]. *)
Definition or_else {A} (a : option A) (b : A) : A :=
  match a with Some x => x | None => b end.

(** Property lookup [obj.key] on the own properties of an object. *)
Fixpoint get_prop (key : string) (props : list (string * JsValue)) : option JsValue :=
  match props with
  | [] => None
  | (k, v) :: rest => if (k =? key)%string then Some v else get_prop key rest
  end.

(** [Array.isArray(v)] paired with the elements. *)
Definition as_array (v : JsValue) : option (list JsValue) :=
  match v with JArray items => Some items | _ => None end.

(** Decimal rendering of an integer: [BigInt.prototype.toString()], and
    [String(n)] for an integral number of milliseconds. *)
Definition Z_to_string (z : Z) : string := NilZero.string_of_int (Z.to_int z).

Fixpoint join_comma (parts : list string) : string :=
  match parts with
  | [] => ""
  | [p] => p
  | p :: rest => p ++ "," ++ join_comma rest
  end.

(** ** StringToBigInt, the parser behind [BigInt(string)] *)

(** Texts are held in UTF-8.  A [StrWhiteSpaceChar] of ECMAScript is a
    WhiteSpace (TAB, VT, FF, SP, NBSP, ZWNBSP or a space separator) or a
    LineTerminator (LF, CR, LS, PS); encoded, it has one, two or three
    bytes. *)

(** U+0009 to U+000D, and U+0020. *)
Definition white_space_1 (a : ascii) : bool :=
  let n := N_of_ascii a in
  ((9 <=? n) && (n <=? 13) || (n =? 32))%N.

(** U+00A0, that is C2 A0. *)
Definition white_space_2 (a b : ascii) : bool :=
  ((N_of_ascii a =? 194) && (N_of_ascii b =? 160))%N.

(** U+1680 (E1 9A 80); U+2000 to U+200A, U+2028, U+2029 and U+202F
    (E2 80 80 to 8A, A8, A9, AF); U+205F (E2 81 9F); U+3000 (E3 80 80);
    U+FEFF (EF BB BF). *)
Definition white_space_3 (a b c : ascii) : bool :=
  let x := N_of_ascii a in
  let y := N_of_ascii b in
  let z := N_of_ascii c in
  ((x =? 225) && (y =? 154) && (z =? 128)
   || (x =? 226) && (y =? 128)
      && ((128 <=? z) && (z <=? 138) || (z =? 168) || (z =? 169) || (z =? 175))
   || (x =? 226) && (y =? 129) && (z =? 159)
   || (x =? 227) && (y =? 128) && (z =? 128)
   || (x =? 239) && (y =? 187) && (z =? 191))%N.

Fixpoint trim_start (s : string) : string :=
  match s with
  | String a r1 =>
      if white_space_1 a then trim_start r1
      else
        match r1 with
        | String b r2 =>
            if white_space_2 a b then trim_start r2
            else
              match r2 with
              | String c r3 => if white_space_3 a b c then trim_start r3 else s
              | EmptyString => s
              end
        | EmptyString => s
        end
  | EmptyString => EmptyString
  end.

(** White space only. *)
Definition blank (s : string) : bool :=
  match trim_start s with
  | EmptyString => true
  | String _ _ => false
  end.

Fixpoint trim_end (s : string) : string :=
  match s with
  | String a rest => if blank s then EmptyString else String a (trim_end rest)
  | EmptyString => EmptyString
  end.

Definition trim (s : string) : string := trim_end (trim_start s).

Definition digit_value (c : ascii) : option Z :=
  let n := Z.of_N (N_of_ascii c) in
  if (48 <=? n) && (n <=? 57) then Some (n - 48)
  else if (97 <=? n) && (n <=? 102) then Some (n - 87)
  else if (65 <=? n) && (n <=? 70) then Some (n - 55)
  else None.

Fixpoint parse_digits (radix acc : Z) (s : string) : option Z :=
  match s with
  | EmptyString => Some acc
  | String c rest =>
      match digit_value c with
      | Some d => if d <? radix then parse_digits radix (radix * acc + d) rest else None
      | None => None
      end
  end.

(** At least one digit is required. *)
Definition parse_nat (radix : Z) (s : string) : option Z :=
  match s with
  | EmptyString => None
  | _ => parse_digits radix 0 s
  end.

(** The radix announced by the letter after a leading zero. *)
Definition radix_of_prefix (p : ascii) : option Z :=
  if (p =? "x")%char || (p =? "X")%char then Some 16
  else if (p =? "o")%char || (p =? "O")%char then Some 8
  else if (p =? "b")%char || (p =? "B")%char then Some 2
  else None.

(** [None] stands for the [SyntaxError] that [BigInt] throws.  Only a
    decimal literal may carry a sign; the empty text reads as zero. *)
Definition StringToBigInt (s : string) : option Z :=
  let text := trim s in
  match text with
  | EmptyString => Some 0
  | String c rest =>
      if (c =? "-")%char then option_map Z.opp (parse_nat 10 rest)
      else if (c =? "+")%char then parse_nat 10 rest
      else
        match (if (c =? "0")%char
               then match rest with
                    | String p ds => option_map (fun radix => (radix, ds)) (radix_of_prefix p)
                    | EmptyString => None
                    end
               else None) with
        | Some (radix, ds) => parse_nat radix ds
        | None => parse_nat 10 text
        end
  end.

(** ** Stellar SDK objects, as far as the service handles them *)

Record Keypair : Type := mkKeypair { kp_publicKey : string; kp_secret : string }.

Record Account : Type := mkAccount { accountId : string; sequence : Z }.

(** The operation built by [contract.call(method, ...args)]. *)
Record Operation : Type := mkOperation
  { op_contract : string; op_method : string; op_args : list ScVal }.

Record Transaction : Type := mkTransaction
  { tx_source : Account;
    tx_fee : string;
    tx_networkPassphrase : string;
    tx_operations : list Operation;
    tx_timeout : Z;
    tx_signatures : list string }.

(** [new TransactionBuilder(account, {fee, networkPassphrase})
      .addOperation(operation).setTimeout(timeout).build()] *)
Definition TransactionBuilder_build
    (account : Account) (fee passphrase : string) (operation : Operation)
    (timeout : Z) : Transaction :=
  {| tx_source := {| accountId := accountId account; sequence := sequence account + 1 |};
     tx_fee := fee;
     tx_networkPassphrase := passphrase;
     tx_operations := [operation];
     tx_timeout := timeout;
     tx_signatures := [] |}.

(** [tx.sign(keypair)] *)
Definition sign (tx : Transaction) (kp : Keypair) : Transaction :=
  {| tx_source := tx_source tx;
     tx_fee := tx_fee tx;
     tx_networkPassphrase := tx_networkPassphrase tx;
     tx_operations := tx_operations tx;
     tx_timeout := tx_timeout tx;
     tx_signatures := tx_signatures tx ++ [kp_publicKey kp] |}.

(** ** RPC responses *)

Record SimulationResult : Type := mkSimulationResult { retval : JsValue }.

(** [SorobanRpc.Api.isSimulationError] holds of the first constructor. *)
Inductive SimulateTransactionResponse : Type :=
| SimulationError (error : string)
| SimulationSuccess (result : option SimulationResult) (minResourceFee : option string).

Record SendTransactionResponse : Type := mkSendResponse
  { send_status : string; send_hash : option string }.

(** The properties of a raw event that [parseEvents] reads; a property that
    is not there reads as [JUndefined]. *)
Record RawEvent : Type := mkRawEvent
  { ev_type : JsValue;
    ev_contractId : JsValue;
    ev_contract_id : JsValue;
    ev_topic : JsValue;
    ev_topics : JsValue;
    ev_data : JsValue;
    ev_value : JsValue }.

Record GetTransactionResponse : Type := mkGetTransactionResponse
  { resp_status : option string;
    resp_feeCharged : JsValue;
    resp_events : option (list RawEvent);
    resp_errorResultXdr : JsValue;
    resp_resultXdr : JsValue }.

(** One fee-class bucket of the fee statistics. *)
Record FeeDistribution : Type := mkFeeDistribution
  { fee_p95 : JsValue; fee_max : JsValue; fee_mode : JsValue; fee_min : JsValue }.

Record FeeStats : Type := mkFeeStats
  { stats_sorobanInclusionFee : option FeeDistribution;
    stats_inclusionFee : option FeeDistribution;
    stats_feeCharged : option FeeDistribution }.

(** The empty object [{}]. *)
Definition empty_stats : FeeStats :=
  {| stats_sorobanInclusionFee := None;
     stats_inclusionFee := None;
     stats_feeCharged := None |}.

(** ** Thrown values *)

(** Modelled from the spec: the class [SorobanException] of
    [common/exceptions], whose declaration is not part of the sources read
    here.  Errors "carry contractId and method for attribution": an exception
    is the four arguments its constructor is given at the call sites of the
    service, [(message, contractId?, method?, details?)]. *)
Inductive JsError : Type :=
| SorobanException (message : string) (contractId method : option string)
                   (details : option JsDetails)
| GenericError (message : string)      (* any other instance of Error *)
| ThrownValue (v : JsValue)            (* a thrown value that is no Error *)
with JsDetails : Type :=
| DetailsResponse (r : SendTransactionResponse)
| DetailsCause (e : JsError).

Definition is_SorobanException (e : JsError) : bool :=
  match e with SorobanException _ _ _ _ => true | _ => false end.

(** ** The world: clock and history *)

Inductive RemoteCall : Type :=
| GetAccount (address : string)
| SimulateTransaction (tx : Transaction)
| PrepareTransaction (tx : Transaction)
| SendTransaction (tx : Transaction)
| GetTransaction (hash : string)
| GetFeeStats.

Inductive Response : Type :=
| RAccount (a : Account)
| RSimulation (s : SimulateTransactionResponse)
| RPrepared (t : Transaction)
| RSent (s : SendTransactionResponse)
| RTransaction (g : GetTransactionResponse)
| RFeeStats (f : option FeeStats).

(** How the race between a remote call and its timer ended. *)
Inductive Raced : Type :=
| Fulfilled (r : Response)
| Rejected (e : JsError)
| TimedOut.

Inductive Event : Type :=
| Remote (at_ms : Z) (call : RemoteCall) (outcome : Raced)
| Sleep (at_ms : Z) (ms : Z).

Record World : Type := mkWorld { now : Z; history : list Event }.

(** ** The RPC server *)

(** What a remote call will do: settle after [latency] milliseconds, either
    rejecting ([inl]) or fulfilling ([inr]). *)
Record Reply (A : Type) : Type := mkReply { latency : N; settlement : JsError + A }.
Arguments mkReply {A}.
Arguments latency {A}.
Arguments settlement {A}.

(** [SorobanRpc.Server].  [getFeeStats] may be missing from the client. *)
Record Server : Type := mkServer
  { getAccount : string -> World -> Reply Account;
    srv_simulateTransaction : Transaction -> World -> Reply SimulateTransactionResponse;
    prepareTransaction : Transaction -> World -> Reply Transaction;
    sendTransaction : Transaction -> World -> Reply SendTransactionResponse;
    getTransaction : string -> World -> Reply GetTransactionResponse;
    getFeeStats : option (World -> Reply (option FeeStats)) }.

(** Modelled from the spec: [StellarConfigService] of [config/stellar.service],
    whose declaration is not part of the sources read here, by the fields the
    service reads: the RPC endpoint, the network passphrase and the default
    timeout of remote calls. *)
Record StellarConfigService : Type := mkConfig
  { sorobanRpcUrl : string; networkPassphrase : string; apiTimeout : Z }.

(** The functions of the runtime and of the Stellar SDK that the service
    calls and whose algorithms lie outside it.  A function that may throw
    returns the message of its [Error] on the left: [Keypair.fromSecret],
    [new Contract(id)], [nativeToScVal]; [xdr.ScVal.fromXDR(text, 'base64')]
    returns [None] when it throws.  [scValToNative] is total: it decodes every
    in-memory [xdr.ScVal].  [BASE_FEE] is the SDK's base fee, a decimal
    text. *)
Class Host : Type := mkHost
  { Number_toString : float -> string;
    Keypair_fromSecret : string -> string + Keypair;
    Contract_new : string -> string + string;
    nativeToScVal : JsValue -> string + ScVal;
    scValToNative : ScVal -> JsValue;
    ScVal_fromXDR_base64 : string -> option ScVal;
    BASE_FEE : string }.

(** ** The interfaces of [contract-result.interface.ts] and [FeeEstimate] *)

Record ContractEvent : Type := mkContractEvent
  { type : string;
    contractId : JsValue;
    topics : option (list JsValue);
    data : JsValue }.

Record ContractResult : Type := mkContractResult
  { success : bool;
    hash : option string;
    status : option string;
    result : JsValue;
    events : list ContractEvent;
    feeCharged : option string;
    error : option string }.

Record FeeEstimate : Type := mkFeeEstimate
  { inclusionFee : string; resourceFee : string; totalFee : string }.

Record InvokeOptions : Type := mkInvokeOptions
  { sourceSecret : option string;
    sourceAccount : option string;
    timeoutMs : option Z }.

(** ** Asynchronous computations *)

Inductive Completion (A : Type) : Type :=
| Returned (a : A)
| Threw (e : JsError)
| OutOfFuel.
Arguments Returned {A}.
Arguments Threw {A}.
Arguments OutOfFuel {A}.

Definition Async (A : Type) : Type := World -> Completion A * World.

Definition ret {A} (a : A) : Async A := fun w => (Returned a, w).

Definition throw {A} (e : JsError) : Async A := fun w => (Threw e, w).

Definition bind {A B} (c : Async A) (k : A -> Async B) : Async B :=
  fun w =>
    match c w with
    | (Returned a, w') => k a w'
    | (Threw e, w') => (Threw e, w')
    | (OutOfFuel, w') => (OutOfFuel, w')
    end.

(** [try { c } catch (error) { handler }] *)
Definition try_catch {A} (c : Async A) (handler : JsError -> Async A) : Async A :=
  fun w =>
    match c w with
    | (Threw e, w') => handler e w'
    | done => done
    end.

Notation "x <- c ;; k" := (bind c (fun x => k))
  (at level 61, c at next level, right associativity).

(** Synchronous code that may throw. *)
Definition Result (A : Type) : Type := (JsError + A)%type.

Definition lift {A} (r : Result A) : Async A :=
  match r with inl e => throw e | inr a => ret a end.

(** A call into the SDK: [inl msg] is [throw new Error(msg)]. *)
Definition sdk {A} (r : string + A) : Result A :=
  match r with inl msg => inl (GenericError msg) | inr a => inr a end.

Fixpoint map_result {A B} (f : A -> Result B) (xs : list A) : Result (list B) :=
  match xs with
  | [] => inr []
  | x :: rest =>
      match f x with
      | inl e => inl e
      | inr y =>
          match map_result f rest with
          | inl e => inl e
          | inr ys => inr (y :: ys)
          end
      end
  end.

(** [Date.now()] *)
Definition Date_now : Async Z := fun w => (Returned (now w), w).

(** The delay Node gives a timer: a delay below 1 or above 2^31-1 is 1. *)
Definition timer_delay (ms : Z) : Z :=
  if (ms <? 1) || (2147483647 <? ms) then 1 else ms.

(** [await new Promise((resolve) => setTimeout(resolve, ms))] *)
Definition sleep (ms : Z) : Async unit :=
  fun w =>
    (Returned tt,
     {| now := now w + timer_delay ms; history := history w ++ [Sleep (now w) ms] |}).

(** A promise at the moment it is created: the remote call behind it, if
    any, and how it will settle. *)
Record Promise (A : Type) : Type := mkPromise
  { request : option (RemoteCall * (A -> Response)); reply : Reply A }.
Arguments mkPromise {A}.
Arguments request {A}.
Arguments reply {A}.

(** [Promise.resolve(a)] *)
Definition Promise_resolve {A} (a : A) : World -> Promise A :=
  fun _ => {| request := None; reply := {| latency := 0; settlement := inr a |} |}.

Definition remote {A} (call : RemoteCall) (view : A -> Response)
    (capability : World -> Reply A) : World -> Promise A :=
  fun w => {| request := Some (call, view); reply := capability w |}.

(** The history entry of a promise raced at [at_ms]. *)
Definition logged {A} (p : Promise A) (at_ms : Z) (timed_out : bool) : list Event :=
  match request p with
  | None => []
  | Some (call, view) =>
      [Remote at_ms call
         (if timed_out then TimedOut
          else match settlement (reply p) with
               | inl e => Rejected e
               | inr a => Fulfilled (view a)
               end)]
  end.

(** ** Reading a history *)

Inductive Capability : Type :=
| CapGetAccount | CapSimulateTransaction | CapPrepareTransaction
| CapSendTransaction | CapGetTransaction | CapGetFeeStats.

Definition capability_of (call : RemoteCall) : Capability :=
  match call with
  | GetAccount _ => CapGetAccount
  | SimulateTransaction _ => CapSimulateTransaction
  | PrepareTransaction _ => CapPrepareTransaction
  | SendTransaction _ => CapSendTransaction
  | GetTransaction _ => CapGetTransaction
  | GetFeeStats => CapGetFeeStats
  end.

Definition Capability_eqb (a b : Capability) : bool :=
  match a, b with
  | CapGetAccount, CapGetAccount
  | CapSimulateTransaction, CapSimulateTransaction
  | CapPrepareTransaction, CapPrepareTransaction
  | CapSendTransaction, CapSendTransaction
  | CapGetTransaction, CapGetTransaction
  | CapGetFeeStats, CapGetFeeStats => true
  | _, _ => false
  end.

(** The outcomes of the calls made to one capability, in order. *)
Definition outcomes_of (cap : Capability) (h : list Event) : list Raced :=
  flat_map (fun e =>
              match e with
              | Remote _ call o =>
                  if Capability_eqb (capability_of call) cap then [o] else []
              | Sleep _ _ => []
              end) h.

(** How many times a capability was invoked: the call counter of a fake
    endpoint. *)
Definition calls_to (cap : Capability) (h : list Event) : nat :=
  List.length (outcomes_of cap h).

(** ** The service *)

Section SorobanService.

Context {host : Host}.
Variable stellarConfig : StellarConfigService.
Variable server : Server.

(** [String(v)] *)
Fixpoint js_String (v : JsValue) : string :=
  match v with
  | JUndefined => "undefined"
  | JNull => "null"
  | JBool true => "true"
  | JBool false => "false"
  | JNumber x => Number_toString x
  | JBigInt z => Z_to_string z
  | JString s => s
  | JScVal _ | JObject _ => "[object Object]"
  | JArray items =>
      join_comma
        (map (fun item =>
                match item with
                | JUndefined | JNull => ""
                | _ => js_String item
                end) items)
  end.

(** [v?.toString()] *)
Definition opt_toString (v : JsValue) : option string :=
  match v with
  | JUndefined | JNull => None
  | _ => Some (js_String v)
  end.

(** The exceptions the helper methods raise; none is given a contract id or
    a method. *)
Definition timeout_exception (label : string) (timeout : Z) : JsError :=
  SorobanException
    ("Soroban " ++ label ++ " timed out after " ++ Z_to_string timeout ++ "ms")
    None None None.

Definition simulation_failed (diagnostic : string) : JsError :=
  SorobanException ("Simulation failed: " ++ diagnostic) None None None.

Definition confirmation_timeout : JsError :=
  SorobanException "Timed out waiting for Soroban transaction" None None None.

(** [timeoutMs || this.stellarConfig.apiTimeout] *)
Definition effective_timeout (timeoutMs : option Z) : Z :=
  or_else (truthy_number timeoutMs) (apiTimeout stellarConfig).

(** [withTimeout(promise, label, timeoutMs)]: the promise races a timer of
    [timeoutMs || apiTimeout] milliseconds; the timer is cleared either way. *)
Definition withTimeout {A} (promise : World -> Promise A) (label : string)
    (timeoutMs : option Z) : Async A :=
  fun w =>
    let timeout := effective_timeout timeoutMs in
    let p := promise w in
    let wait := Z.of_N (latency (reply p)) in
    if wait <? timer_delay timeout then
      (match settlement (reply p) with
       | inl e => Threw e
       | inr a => Returned a
       end,
       {| now := now w + wait; history := history w ++ logged p (now w) false |})
    else
      (Threw (timeout_exception label timeout),
       {| now := now w + timer_delay timeout;
          history := history w ++ logged p (now w) true |}).

Definition toScVal (param : JsValue) : Result ScVal :=
  match param with
  | JScVal v => inr v
  | _ =>
      match (if truthy param
             then match param with
                  | JObject props => get_prop "scVal" props
                  | _ => None
                  end
             else None) with
      | Some (JScVal v) => inr v
      | _ =>
          match nativeToScVal param with
          | inr v => inr v
          | inl errorMessage => inl (SorobanException errorMessage None None None)
          end
      end
  end.

Definition buildContractOperation (contractId method : string)
    (params : list JsValue) : Result Operation :=
  match sdk (Contract_new contractId) with
  | inl e => inl e
  | inr contract =>
      match map_result toScVal params with
      | inl e => inl e
      | inr scVals => inr (mkOperation contract method scVals)
      end
  end.

Definition parseScVal (value : JsValue) : JsValue :=
  if negb (truthy value) then JUndefined
  else
    match value with
    | JScVal v => scValToNative v
    | JString s =>
        match ScVal_fromXDR_base64 s with
        | Some v => scValToNative v
        | None => value
        end
    | _ => value
    end.

Definition parseEvents (events : list RawEvent) : list ContractEvent :=
  map (fun event =>
         {| type := js_String (js_or (ev_type event) (JString "unknown"));
            contractId := js_or (ev_contractId event) (ev_contract_id event);
            topics :=
              match as_array (js_or (ev_topic event) (ev_topics event)) with
              | Some items => Some (map parseScVal items)
              | None => None
              end;
            data := parseScVal (js_or (ev_data event) (ev_value event)) |})
      events.

Definition simulateTransaction (transaction : Transaction)
    : Async SimulateTransactionResponse :=
  simulation <- withTimeout
                  (remote (SimulateTransaction transaction) RSimulation
                          (srv_simulateTransaction server transaction))
                  "simulateTransaction" None ;;
  match simulation with
  | SimulationError error => throw (simulation_failed error)
  | SimulationSuccess _ _ => ret simulation
  end.

Definition status_is (response : GetTransactionResponse) (s : string) : bool :=
  match resp_status response with
  | Some st => (st =? s)%string
  | None => false
  end.

Definition getContractEvents (txHash : string) : Async (list ContractEvent) :=
  if (txHash =? "")%string then ret []
  else
    transaction <- withTimeout
                     (remote (GetTransaction txHash) RTransaction
                             (getTransaction server txHash))
                     "getTransaction" None ;;
    if negb (status_is transaction "SUCCESS") then ret []
    else ret (parseEvents (or_else (resp_events transaction) [])).

Definition toBigInt (value : JsValue) : Result Z :=
  match value with
  | JBigInt z => inr z
  | _ =>
      match StringToBigInt (js_String value) with
      | Some z => inr z
      | None =>
          inl (GenericError ("Cannot convert " ++ js_String value ++ " to a BigInt"))
      end
  end.

(** [a || b] on buckets: a bucket that is there is an object, hence truthy. *)
Definition bucket_or (a b : option FeeDistribution) : option FeeDistribution :=
  match a with Some _ => a | None => b end.

(** [inclusionFee?.p95 || inclusionFee?.max || inclusionFee?.mode ||
     inclusionFee?.min] *)
Definition feeCandidate (inclusionFee : option FeeDistribution) : JsValue :=
  match inclusionFee with
  | None => JUndefined
  | Some b => js_or (js_or (js_or (fee_p95 b) (fee_max b)) (fee_mode b)) (fee_min b)
  end.

Definition resolveInclusionFee (feeStats : FeeStats) : Result Z :=
  let inclusionFee :=
    bucket_or (bucket_or (stats_sorobanInclusionFee feeStats)
                         (stats_inclusionFee feeStats))
              (stats_feeCharged feeStats) in
  match feeCandidate inclusionFee with
  | JUndefined => toBigInt (JString BASE_FEE)
  | candidate => toBigInt candidate
  end.

Definition getSimulationAccount : Account :=
  mkAccount "GAAAAAAAAAAAAAAAAAAAAAAAAAAAAAAAAAAAAAAAAAAAAAAAAAAAAWHF" 0.

(** [simulation.minResourceFee], a property of successful simulations. *)
Definition sim_minResourceFee (s : SimulateTransactionResponse) : option string :=
  match s with
  | SimulationSuccess _ fee => fee
  | SimulationError _ => None
  end.

(** [simulation?.result?.retval] *)
Definition sim_retval (s : SimulateTransactionResponse) : JsValue :=
  match s with
  | SimulationSuccess (Some r) _ => retval r
  | _ => JUndefined
  end.

Definition estimateFees (operation : Operation) : Async FeeEstimate :=
  let mockAccount := getSimulationAccount in
  let transaction :=
    TransactionBuilder_build mockAccount BASE_FEE
      (networkPassphrase stellarConfig) operation 30 in
  simulation <- simulateTransaction transaction ;;
  resourceFee <- lift (toBigInt
                         (JString (or_else (truthy_string (sim_minResourceFee simulation))
                                           "0"))) ;;
  feeStats <- withTimeout
                (match getFeeStats server with
                 | Some capability => remote GetFeeStats RFeeStats capability
                 | None => Promise_resolve (Some empty_stats)
                 end)
                "getFeeStats" None ;;
  inclusionFee <- lift (resolveInclusionFee (or_else feeStats empty_stats)) ;;
  let totalFee := inclusionFee + resourceFee in
  ret {| inclusionFee := Z_to_string inclusionFee;
         resourceFee := Z_to_string resourceFee;
         totalFee := Z_to_string totalFee |}.

(** [response.status && response.status !== 'PENDING'] *)
Definition settled (response : GetTransactionResponse) : bool :=
  match truthy_string (resp_status response) with
  | Some st => negb (st =? "PENDING")%string
  | None => false
  end.

Definition delayMs (attempt : Z) : Z := Z.min (2000 * (attempt + 1)) 8000.

(** The [while (Date.now() < deadline)] loop of [waitForTransaction]; one
    unit of fuel is spent per iteration. *)
Fixpoint poll (fuel : nat) (txHash : string) (timeoutMs : option Z)
    (deadline attempt : Z) : Async GetTransactionResponse :=
  t <- Date_now ;;
  if t <? deadline then
    match fuel with
    | O => fun w => (OutOfFuel, w)
    | S fuel' =>
        response <- withTimeout
                      (remote (GetTransaction txHash) RTransaction
                              (getTransaction server txHash))
                      "getTransaction" timeoutMs ;;
        if settled response then ret response
        else
          _ <- sleep (delayMs attempt) ;;
          poll fuel' txHash timeoutMs deadline (attempt + 1)
    end
  else throw confirmation_timeout.

Definition waitForTransaction (fuel : nat) (txHash : string) (timeoutMs : option Z)
    : Async GetTransactionResponse :=
  t <- Date_now ;;
  let deadline := t + effective_timeout timeoutMs in
  poll fuel txHash timeoutMs deadline 0.

(** The [error] field of an unsuccessful result:
    [errorResultXdr?.toString() || resultXdr?.toString() || status]. *)
Definition failure_text (confirmed : GetTransactionResponse) : option string :=
  match truthy_string (opt_toString (resp_errorResultXdr confirmed)) with
  | Some s => Some s
  | None =>
      match truthy_string (opt_toString (resp_resultXdr confirmed)) with
      | Some s => Some s
      | None => resp_status confirmed
      end
  end.

(** The [try] block of [invokeContract]. *)
Definition invokeContract_try (fuel : nat) (contractId method : string)
    (params : list JsValue) (options : InvokeOptions) (secret : string)
    : Async ContractResult :=
  sourceKeypair <- lift (sdk (Keypair_fromSecret secret)) ;;
  let sourceAccount :=
    or_else (truthy_string (sourceAccount options)) (kp_publicKey sourceKeypair) in
  account <- withTimeout
               (remote (GetAccount sourceAccount) RAccount
                       (getAccount server sourceAccount))
               "getAccount" (timeoutMs options) ;;
  operation <- lift (buildContractOperation contractId method params) ;;
  let transaction :=
    TransactionBuilder_build account BASE_FEE
      (networkPassphrase stellarConfig) operation 30 in
  simulation <- simulateTransaction transaction ;;
  prepared <- withTimeout
                (remote (PrepareTransaction transaction) RPrepared
                        (prepareTransaction server transaction))
                "prepareTransaction" (timeoutMs options) ;;
  let prepared := sign prepared sourceKeypair in
  sendResponse <- withTimeout
                    (remote (SendTransaction prepared) RSent
                            (sendTransaction server prepared))
                    "sendTransaction" (timeoutMs options) ;;
  if (send_status sendResponse =? "ERROR")%string then
    throw (SorobanException "Soroban transaction rejected"
             (Some contractId) (Some method) (Some (DetailsResponse sendResponse)))
  else
    match truthy_string (send_hash sendResponse) with
    | None =>
        throw (SorobanException "Soroban transaction did not return a hash"
                 (Some contractId) (Some method)
                 (Some (DetailsResponse sendResponse)))
    | Some txHash =>
        confirmed <- waitForTransaction fuel txHash (timeoutMs options) ;;
        events <- getContractEvents txHash ;;
        let result := parseScVal (sim_retval simulation) in
        let success := status_is confirmed "SUCCESS" in
        ret {| success := success;
               hash := Some txHash;
               status := resp_status confirmed;
               result := result;
               events := events;
               feeCharged := opt_toString (resp_feeCharged confirmed);
               error := if success then None else failure_text confirmed |}
    end.

(** The [catch (error)] block of [invokeContract]; the logger's output is
    left out of the world. *)
Definition invokeContract_catch (contractId method : string) (error : JsError)
    : Async ContractResult :=
  let errorMessage :=
    match error with
    | SorobanException message _ _ _ | GenericError message => message
    | ThrownValue _ => "Unknown Soroban error"
    end in
  if is_SorobanException error then throw error
  else
    throw (SorobanException errorMessage (Some contractId) (Some method)
             (Some (DetailsCause error))).

Definition invokeContract (fuel : nat) (contractId method : string)
    (params : list JsValue) (options : InvokeOptions) : Async ContractResult :=
  if (contractId =? "")%string || (method =? "")%string then
    throw (SorobanException "Contract ID and method are required"
             (Some contractId) (Some method) None)
  else
    match truthy_string (sourceSecret options) with
    | None =>
        throw (SorobanException "Missing source secret for contract invocation"
                 (Some contractId) (Some method) None)
    | Some secret =>
        try_catch (invokeContract_try fuel contractId method params options secret)
                  (invokeContract_catch contractId method)
    end.

(** ** Notions used to state the properties *)

(** How the completion of a raced remote call and its history entry agree. *)
Definition raced_as {A} (view : A -> Response) (label : string) (timeout : Z)
    (c : Completion A) (o : Raced) : Prop :=
  match c with
  | Returned a => o = Fulfilled (view a)
  | Threw e => o = Rejected e \/ (o = TimedOut /\ e = timeout_exception label timeout)
  | OutOfFuel => False
  end.

(** The world after the sleep that follows a pending answer. *)
Definition after_sleep (w : World) (ms : Z) : World :=
  {| now := now w + timer_delay ms; history := history w ++ [Sleep (now w) ms] |}.

(** A status that is not there, or is empty, or is PENDING. *)
Definition absent_or_pending (response : GetTransactionResponse) : Prop :=
  resp_status response = None
  \/ resp_status response = Some ""%string
  \/ resp_status response = Some "PENDING"%string.

(** What a run of the loop from [attempt] leaves in the history: queries at
    the even positions, each followed by the sleep of its attempt when the
    answer was pending and by nothing when it was not. *)
Definition poll_schedule (txHash : string) (attempt : Z) (new : list Event)
    (c : Completion GetTransactionResponse) : Prop :=
  forall (n : nat) (e : Event),
    nth_error new (2 * n) = Some e ->
    exists t o,
      e = Remote t (GetTransaction txHash) o
      /\ forall response,
           o = Fulfilled (RTransaction response) ->
           (absent_or_pending response ->
            exists t', nth_error new (2 * n + 1)
                       = Some (Sleep t' (delayMs (attempt + Z.of_nat n))))
           /\ (~ absent_or_pending response ->
               nth_error new (2 * n + 1) = None /\ c = Returned response).

(** How a simulation that did not succeed shows in the history ([o]) and
    to the caller ([e]). *)
Definition sim_refused (o : Raced) (e : JsError) : Prop :=
  (exists d, o = Fulfilled (RSimulation (SimulationError d)) /\ e = simulation_failed d)
  \/ o = Rejected e
  \/ (o = TimedOut
      /\ e = timeout_exception "simulateTransaction" (apiTimeout stellarConfig)).

(** A stretch of history with status queries and sleeps only. *)
Definition only_polls (txHash : string) (h : list Event) : Prop :=
  forall t call o, In (Remote t call o) h -> call = GetTransaction txHash.

(** What the [catch] block throws for a caught [error]. *)
Definition surfaced (contractId method : string) (error : JsError) : JsError :=
  if is_SorobanException error then error
  else
    SorobanException
      match error with
      | SorobanException message _ _ _ | GenericError message => message
      | ThrownValue _ => "Unknown Soroban error"%string
      end
      (Some contractId) (Some method) (Some (DetailsCause error)).

(** The transaction that [estimateFees] simulates. *)
Definition estimate_transaction (operation : Operation) : Transaction :=
  TransactionBuilder_build getSimulationAccount BASE_FEE
    (networkPassphrase stellarConfig) operation 30.

(** The text of the resource fee: [simulation.minResourceFee || '0']. *)
Definition resource_fee_text (s : SimulateTransactionResponse) : string :=
  or_else (truthy_string (sim_minResourceFee s)) "0"%string.

(** Reading a decimal rendering back. *)
Definition Z_of_string (s : string) : option Z :=
  option_map Z.of_int (NilZero.int_of_string s).

(** A value converts to a negative bigint only if it is one, or if its text
    starts with a minus sign. *)
Definition reads_negative (v : JsValue) : Prop :=
  (exists z, v = JBigInt z /\ z < 0) \/ (exists ds, trim (js_String v) = String "-" ds).

(** A stretch of history where every status query was answered, and with
    a status that is absent, empty or PENDING. *)
Definition unsettled_polls (txHash : string) (h : list Event) : Prop :=
  forall t call o,
    In (Remote t call o) h ->
    call = GetTransaction txHash
    /\ exists response, o = Fulfilled (RTransaction response)
                        /\ absent_or_pending response.

(** The figure that [resolveInclusionFee] converts: the fee candidate of
    the chosen bucket, or the base fee when that is undefined. *)
Definition fee_figure (feeStats : FeeStats) : JsValue :=
  match feeCandidate
          (bucket_or (bucket_or (stats_sorobanInclusionFee feeStats)
                                (stats_inclusionFee feeStats))
                     (stats_feeCharged feeStats)) with
  | JUndefined => JString BASE_FEE
  | candidate => candidate
  end.

(** How a reply fares against a timer of [budget] milliseconds: it is
    passed on when it settles before the timer fires, and lost otherwise. *)
Definition race {A} (view : A -> Response) (r : Reply A) (budget : Z) : Raced :=
  if Z.of_N (latency r) <? timer_delay budget then
    match settlement r with
    | inl e => Rejected e
    | inr a => Fulfilled (view a)
    end
  else TimedOut.

(** The world in which the [n]-th event of a run took place, at time [t]:
    the run began in [w] and has logged [new] since. *)
Definition world_at (w : World) (new : list Event) (n : nat) (t : Z) : World :=
  {| now := t; history := history w ++ firstn n new |}.

(** ** The caller: [TradeExecutorContract] *)

(** [options: InvokeOptions = {}], the default of [invokeContract]. *)
Definition no_options : InvokeOptions :=
  {| sourceSecret := None; sourceAccount := None; timeoutMs := None |}.

(** [TradeExecutorContract.invoke(method, params = [], options?)], for the
    contract bound at [contractId]; an argument left out is [None]. *)
Definition TradeExecutorContract_invoke (fuel : nat) (contractId method : string)
    (params : option (list JsValue)) (options : option InvokeOptions)
    : Async ContractResult :=
  invokeContract fuel contractId method (or_else params []) (or_else options no_options).

(** ** Notions used to describe whole runs *)

(** The capabilities a history invoked, in order. *)
Definition capabilities (h : list Event) : list Capability :=
  flat_map (fun e =>
              match e with
              | Remote _ call _ => [capability_of call]
              | Sleep _ _ => []
              end) h.

(** A computation that takes at most [bound] milliseconds and never turns
    the clock back. *)
Definition elapses {A} (c : Async A) (bound : Z) : Prop :=
  forall w r w', c w = (r, w') -> now w <= now w' <= now w + bound.

(** The account an invocation runs on:
    [options.sourceAccount || sourceKeypair.publicKey()]. *)
Definition invocation_address (options : InvokeOptions) (kp : Keypair) : string :=
  or_else (truthy_string (sourceAccount options)) (kp_publicKey kp).

(** The transaction an invocation builds. *)
Definition invocation_transaction (account : Account) (operation : Operation)
    : Transaction :=
  TransactionBuilder_build account BASE_FEE (networkPassphrase stellarConfig)
    operation 30.

(** The result an invocation returns. *)
Definition contract_result (txHash : string) (simulation : SimulateTransactionResponse)
    (confirmed : GetTransactionResponse) (evs : list ContractEvent) : ContractResult :=
  {| success := status_is confirmed "SUCCESS";
     hash := Some txHash;
     status := resp_status confirmed;
     result := parseScVal (sim_retval simulation);
     events := evs;
     feeCharged := opt_toString (resp_feeCharged confirmed);
     error := if status_is confirmed "SUCCESS" then None else failure_text confirmed |}.

(** The four calls of an invocation that got as far as submitting. *)
Definition submission (options : InvokeOptions) (kp : Keypair) (account : Account)
    (operation : Operation) (simulation : SimulateTransactionResponse)
    (prepared : Transaction) (o4 : Raced) (t1 t2 t3 t4 : Z) : list Event :=
  [Remote t1 (GetAccount (invocation_address options kp)) (Fulfilled (RAccount account));
   Remote t2 (SimulateTransaction (invocation_transaction account operation))
     (Fulfilled (RSimulation simulation));
   Remote t3 (PrepareTransaction (invocation_transaction account operation))
     (Fulfilled (RPrepared prepared));
   Remote t4 (SendTransaction (sign prepared kp)) o4].

(** What the final [getContractEvents] query yields. *)
Definition events_of (o : Raced) : list ContractEvent :=
  match o with
  | Fulfilled (RTransaction transaction) =>
      if status_is transaction "SUCCESS"
      then parseEvents (or_else (resp_events transaction) [])
      else []
  | _ => []
  end.

(** The ways a run of the [try] block ends, each with the stretch of history
    it leaves and what it hands to the caller. *)
Inductive TryRun (contractId method : string) (params : list JsValue)
    (options : InvokeOptions) (secret : string)
    : list Event -> Completion ContractResult -> Prop :=
| Run_bad_secret msg :
    Keypair_fromSecret secret = inl msg ->
    TryRun contractId method params options secret [] (Threw (GenericError msg))
| Run_no_account kp t1 o1 e :
    Keypair_fromSecret secret = inr kp ->
    raced_as RAccount "getAccount" (effective_timeout (timeoutMs options))
      (@Threw Account e) o1 ->
    TryRun contractId method params options secret
      [Remote t1 (GetAccount (invocation_address options kp)) o1] (Threw e)
| Run_no_operation kp t1 account e :
    Keypair_fromSecret secret = inr kp ->
    buildContractOperation contractId method params = inl e ->
    TryRun contractId method params options secret
      [Remote t1 (GetAccount (invocation_address options kp))
         (Fulfilled (RAccount account))]
      (Threw e)
| Run_no_simulation kp t1 account operation t2 o2 e :
    Keypair_fromSecret secret = inr kp ->
    buildContractOperation contractId method params = inr operation ->
    sim_refused o2 e ->
    TryRun contractId method params options secret
      [Remote t1 (GetAccount (invocation_address options kp))
         (Fulfilled (RAccount account));
       Remote t2 (SimulateTransaction (invocation_transaction account operation)) o2]
      (Threw e)
| Run_not_prepared kp t1 account operation t2 simulation t3 o3 e :
    Keypair_fromSecret secret = inr kp ->
    buildContractOperation contractId method params = inr operation ->
    (forall d, simulation <> SimulationError d) ->
    raced_as RPrepared "prepareTransaction" (effective_timeout (timeoutMs options))
      (@Threw Transaction e) o3 ->
    TryRun contractId method params options secret
      [Remote t1 (GetAccount (invocation_address options kp))
         (Fulfilled (RAccount account));
       Remote t2 (SimulateTransaction (invocation_transaction account operation))
         (Fulfilled (RSimulation simulation));
       Remote t3 (PrepareTransaction (invocation_transaction account operation)) o3]
      (Threw e)
| Run_not_sent kp t1 account operation t2 simulation t3 prepared t4 o4 e :
    Keypair_fromSecret secret = inr kp ->
    buildContractOperation contractId method params = inr operation ->
    (forall d, simulation <> SimulationError d) ->
    raced_as RSent "sendTransaction" (effective_timeout (timeoutMs options))
      (@Threw SendTransactionResponse e) o4 ->
    TryRun contractId method params options secret
      (submission options kp account operation simulation prepared o4 t1 t2 t3 t4)
      (Threw e)
| Run_rejected kp t1 account operation t2 simulation t3 prepared t4 sendResponse :
    Keypair_fromSecret secret = inr kp ->
    buildContractOperation contractId method params = inr operation ->
    (forall d, simulation <> SimulationError d) ->
    send_status sendResponse = "ERROR" ->
    TryRun contractId method params options secret
      (submission options kp account operation simulation prepared
         (Fulfilled (RSent sendResponse)) t1 t2 t3 t4)
      (Threw (SorobanException "Soroban transaction rejected"
                (Some contractId) (Some method) (Some (DetailsResponse sendResponse))))
| Run_no_hash kp t1 account operation t2 simulation t3 prepared t4 sendResponse :
    Keypair_fromSecret secret = inr kp ->
    buildContractOperation contractId method params = inr operation ->
    (forall d, simulation <> SimulationError d) ->
    send_status sendResponse <> "ERROR" ->
    truthy_string (send_hash sendResponse) = None ->
    TryRun contractId method params options secret
      (submission options kp account operation simulation prepared
         (Fulfilled (RSent sendResponse)) t1 t2 t3 t4)
      (Threw (SorobanException "Soroban transaction did not return a hash"
                (Some contractId) (Some method) (Some (DetailsResponse sendResponse))))
| Run_unconfirmed kp t1 account operation t2 simulation t3 prepared t4 sendResponse
    txHash polls c :
    Keypair_fromSecret secret = inr kp ->
    buildContractOperation contractId method params = inr operation ->
    (forall d, simulation <> SimulationError d) ->
    send_status sendResponse <> "ERROR" ->
    truthy_string (send_hash sendResponse) = Some txHash ->
    only_polls txHash polls ->
    (forall cr, c <> Returned cr) ->
    TryRun contractId method params options secret
      (submission options kp account operation simulation prepared
         (Fulfilled (RSent sendResponse)) t1 t2 t3 t4 ++ polls)%list
      c
| Run_confirmed kp t1 account operation t2 simulation t3 prepared t4 sendResponse
    txHash polls tq confirmed te oe c :
    Keypair_fromSecret secret = inr kp ->
    buildContractOperation contractId method params = inr operation ->
    (forall d, simulation <> SimulationError d) ->
    send_status sendResponse <> "ERROR" ->
    truthy_string (send_hash sendResponse) = Some txHash ->
    only_polls txHash polls ->
    settled confirmed = true ->
    match c with
    | Returned cr =>
        (exists transaction, oe = Fulfilled (RTransaction transaction))
        /\ cr = contract_result txHash simulation confirmed (events_of oe)
    | Threw e =>
        raced_as RTransaction "getTransaction" (effective_timeout None)
          (@Threw GetTransactionResponse e) oe
    | OutOfFuel => False
    end ->
    TryRun contractId method params options secret
      (submission options kp account operation simulation prepared
         (Fulfilled (RSent sendResponse)) t1 t2 t3 t4
       ++ polls
       ++ [Remote tq (GetTransaction txHash) (Fulfilled (RTransaction confirmed));
           Remote te (GetTransaction txHash) oe])%list
      c.

(** What [estimateFees] hands back once the resource fee [r] is read and
    the statistics are there. *)
Definition priced (r : Z) (stats : FeeStats) : Completion FeeEstimate :=
  match resolveInclusionFee stats with
  | inl e => Threw e
  | inr i => Returned {| inclusionFee := Z_to_string i;
                         resourceFee := Z_to_string r;
                         totalFee := Z_to_string (i + r) |}
  end.

(** The ways a run of [estimateFees] ends, each with the stretch of history
    it leaves. *)
Inductive EstimateRun (operation : Operation)
    : list Event -> Completion FeeEstimate -> Prop :=
| Estimate_no_simulation t o e :
    sim_refused o e ->
    EstimateRun operation
      [Remote t (SimulateTransaction (estimate_transaction operation)) o] (Threw e)
| Estimate_no_resource_fee t s e :
    (forall d, s <> SimulationError d) ->
    toBigInt (JString (resource_fee_text s)) = inl e ->
    EstimateRun operation
      [Remote t (SimulateTransaction (estimate_transaction operation))
         (Fulfilled (RSimulation s))]
      (Threw e)
| Estimate_no_stats t s r t' o e :
    (forall d, s <> SimulationError d) ->
    toBigInt (JString (resource_fee_text s)) = inr r ->
    getFeeStats server <> None ->
    raced_as RFeeStats "getFeeStats" (effective_timeout None)
      (@Threw (option FeeStats) e) o ->
    EstimateRun operation
      [Remote t (SimulateTransaction (estimate_transaction operation))
         (Fulfilled (RSimulation s));
       Remote t' GetFeeStats o]
      (Threw e)
| Estimate_fetched t s r t' fs :
    (forall d, s <> SimulationError d) ->
    toBigInt (JString (resource_fee_text s)) = inr r ->
    getFeeStats server <> None ->
    EstimateRun operation
      [Remote t (SimulateTransaction (estimate_transaction operation))
         (Fulfilled (RSimulation s));
       Remote t' GetFeeStats (Fulfilled (RFeeStats fs))]
      (priced r (or_else fs empty_stats))
| Estimate_default t s r :
    (forall d, s <> SimulationError d) ->
    toBigInt (JString (resource_fee_text s)) = inr r ->
    getFeeStats server = None ->
    EstimateRun operation
      [Remote t (SimulateTransaction (estimate_transaction operation))
         (Fulfilled (RSimulation s))]
      (priced r empty_stats).

End SorobanService.

(** ** A fake host and a scripted RPC endpoint, for concrete runs *)

Module Fake.

Definition bytes_of (s : string) : ScVal := mkScVal (list_byte_of_string s).

(** A toy codec: a one-byte value decodes to that integer, any other to
    its text; only text starting with "AAAA" is an encoded value. *)
Definition decode (v : ScVal) : JsValue :=
  match xdr_bytes v with
  | [b] => JBigInt (Z.of_N (Byte.to_N b))
  | bs => JString (string_of_list_byte bs)
  end.

#[export] Instance host : Host :=
  {| Number_toString := fun x => if PrimFloat.is_zero x then "0" else "NaN";
     Keypair_fromSecret := fun s =>
       if String.prefix "S" s then inr (mkKeypair ("G" ++ s) s)
       else inl "invalid encoded string";
     Contract_new := fun c =>
       if String.prefix "C" c then inr c else inl ("Invalid contract ID: " ++ c);
     nativeToScVal := fun v =>
       match v with
       | JString s => inr (bytes_of s)
       | JBigInt z => inr (mkScVal [Byte.x2a])
       | _ => inl "unsupported native value"
       end;
     scValToNative := decode;
     ScVal_fromXDR_base64 := fun s =>
       if String.prefix "AAAA" s then Some (bytes_of s) else None;
     BASE_FEE := "100" |}.

Definition config : StellarConfigService :=
  {| sorobanRpcUrl := "https://rpc.example"; networkPassphrase := "Test Network";
     apiTimeout := 30000 |}.

(** The call counter for status queries. *)
Definition polls (h : list Event) : nat := calls_to CapGetTransaction h.

Definition pending : GetTransactionResponse :=
  mkGetTransactionResponse (Some "PENDING") JUndefined None JUndefined JUndefined.

Definition raw_event : RawEvent :=
  {| ev_type := JUndefined;
     ev_contractId := JString "C1";
     ev_contract_id := JUndefined;
     ev_topic := JString "transfer";
     ev_topics := JArray [JString "transfer"; JNumber 0%float];
     ev_data := JNumber 0%float;
     ev_value := JString "" |}.

Definition confirmed_ok : GetTransactionResponse :=
  mkGetTransactionResponse (Some "SUCCESS") (JString "100") (Some [raw_event])
    JUndefined JUndefined.

Definition generic_stats : FeeStats :=
  {| stats_sorobanInclusionFee := None;
     stats_inclusionFee :=
       Some (mkFeeDistribution (JString "250") (JString "900") (JString "100")
                               (JString "100"));
     stats_feeCharged := None |}.

(** A simulation that previews [preview] and quotes [fee]. *)
Definition simulated (preview : JsValue) (fee : string) : SimulateTransactionResponse :=
  SimulationSuccess (Some (mkSimulationResult preview)) (Some fee).

Definition returns_42 : SimulateTransactionResponse :=
  simulated (JScVal (mkScVal [Byte.x2a])) "1000".

(** An endpoint that answers simulation with [simulation], reports the
    transaction pending to the first [pending_polls] status queries and
    successful afterwards, and serves [feeStats]. *)
Definition endpoint (pending_polls : nat) (simulation : SimulateTransactionResponse)
    (feeStats : option FeeStats) : Server :=
  {| getAccount := fun address _ => mkReply 5 (inr (mkAccount address 7));
     srv_simulateTransaction := fun _ _ => mkReply 10 (inr simulation);
     prepareTransaction := fun tx _ => mkReply 3 (inr tx);
     sendTransaction := fun _ _ => mkReply 4 (inr (mkSendResponse "PENDING" (Some "abc")));
     getTransaction := fun _ w =>
       mkReply 1 (inr (if (polls (history w) <? pending_polls)%nat
                       then pending else confirmed_ok));
     getFeeStats := Some (fun _ => mkReply 2 (inr feeStats)) |}.

Definition start : World := {| now := 1000000; history := [] |}.

Definition options : InvokeOptions :=
  {| sourceSecret := Some "SECRET"; sourceAccount := None; timeoutMs := Some 20000 |}.

Definition no_secret : InvokeOptions :=
  {| sourceSecret := None; sourceAccount := None; timeoutMs := Some 20000 |}.

Definition swap : Operation := mkOperation "C1" "swap" [].

(** An invocation whose simulation fails with "host trap". *)
Definition failed_invocation : Completion ContractResult * World :=
  invokeContract config (endpoint 0 (SimulationError "host trap") None)
    10 "C1" "swap" [JBigInt 100; JString "USDC"] options start.

(** An invocation confirmed at the third status query. *)
Definition confirmed_invocation : Completion ContractResult * World :=
  invokeContract config (endpoint 2 returns_42 None)
    10 "C1" "swap" [JBigInt 100; JString "USDC"] options start.

(** An invocation whose simulation previews the number 0. *)
Definition zero_invocation : Completion ContractResult * World :=
  invokeContract config (endpoint 0 (simulated (JNumber 0%float) "1000") None)
    10 "C1" "swap" [] options start.

(** A wait that sees PENDING twice. *)
Definition wait : Completion GetTransactionResponse * World :=
  waitForTransaction config (endpoint 2 returns_42 None) 10 "abc" (Some 20000) start.

(** An estimate against generic statistics, and one against a simulation
    quoting a negative resource fee. *)
Definition estimate : Completion FeeEstimate * World :=
  estimateFees config (endpoint 0 returns_42 (Some generic_stats)) swap start.

Definition negative_estimate : Completion FeeEstimate * World :=
  estimateFees config (endpoint 0 (simulated JUndefined "-5") None) swap start.

(** An endpoint that answers at once and confirms at the first query. *)
Definition instant : Server :=
  {| getAccount := fun address _ => mkReply 0 (inr (mkAccount address 7));
     srv_simulateTransaction := fun _ _ => mkReply 0 (inr returns_42);
     prepareTransaction := fun tx _ => mkReply 0 (inr tx);
     sendTransaction := fun _ _ => mkReply 0 (inr (mkSendResponse "PENDING" (Some "abc")));
     getTransaction := fun _ _ => mkReply 0 (inr confirmed_ok);
     getFeeStats := None |}.

(** An endpoint whose [sendTransaction] refuses the transaction. *)
Definition rejecting : Server :=
  {| getAccount := getAccount instant;
     srv_simulateTransaction := srv_simulateTransaction instant;
     prepareTransaction := prepareTransaction instant;
     sendTransaction := fun _ _ => mkReply 4 (inr (mkSendResponse "ERROR" None));
     getTransaction := getTransaction instant;
     getFeeStats := None |}.

(** An endpoint whose [simulateTransaction] and [prepareTransaction] take
    25 seconds each. *)
Definition slow : Server :=
  {| getAccount := getAccount instant;
     srv_simulateTransaction := fun _ _ => mkReply 25000 (inr returns_42);
     prepareTransaction := fun tx _ => mkReply 25000 (inr tx);
     sendTransaction := sendTransaction instant;
     getTransaction := getTransaction instant;
     getFeeStats := None |}.

(** Options with no time to wait, on an account of their own. *)
Definition hurried : InvokeOptions :=
  {| sourceSecret := Some "SECRET"; sourceAccount := Some "GOTHER";
     timeoutMs := Some (-1) |}.

Definition brisk : InvokeOptions :=
  {| sourceSecret := Some "SECRET"; sourceAccount := None; timeoutMs := Some 10 |}.

Definition bad_secret : InvokeOptions :=
  {| sourceSecret := Some "BAD"; sourceAccount := None; timeoutMs := None |}.

(** What [confirmed_invocation] returns. *)
Definition confirmed_result : ContractResult :=
  {| success := true;
     hash := Some "abc";
     status := Some "SUCCESS";
     result := JBigInt 42;
     events := [{| type := "unknown";
                   contractId := JString "C1";
                   topics := None;
                   data := JUndefined |}];
     feeCharged := Some "100";
     error := None |}.

Definition rejected_invocation : Completion ContractResult * World :=
  invokeContract config rejecting 10 "C1" "swap" [] options start.

Definition slow_invocation : Completion ContractResult * World :=
  invokeContract config slow 10 "C1" "swap" [] options start.

Definition hurried_invocation : Completion ContractResult * World :=
  invokeContract config instant 10 "C1" "swap" [] hurried start.

Definition brisk_invocation : Completion ContractResult * World :=
  invokeContract config instant 10 "C1" "swap" [] brisk start.



(** An estimate against a simulation that quotes a fee that is no integer. *)
Definition broken_estimate : Completion FeeEstimate * World :=
  estimateFees config (endpoint 0 (simulated JUndefined "1.5") None) swap start.

(** A wait on a transaction that stays pending. *)
Definition expired_wait : Completion GetTransactionResponse * World :=
  waitForTransaction config (endpoint 100 returns_42 None) 10 "abc" (Some 20000) start.

(** Statistics whose only bucket has nothing but nulls, and nothing but
    empty texts. *)
Definition null_stats : FeeStats :=
  {| stats_sorobanInclusionFee := Some (mkFeeDistribution JNull JNull JNull JNull);
     stats_inclusionFee := None;
     stats_feeCharged := None |}.

Definition blank_stats : FeeStats :=
  {| stats_sorobanInclusionFee :=
       Some (mkFeeDistribution (JString "") (JString "") (JString "") (JString ""));
     stats_inclusionFee := None;
     stats_feeCharged := None |}.

Definition null_estimate : Completion FeeEstimate * World :=
  estimateFees config (endpoint 0 returns_42 (Some null_stats)) swap start.

(** A raw event with a type and an array of topics. *)
Definition typed_event : RawEvent :=
  {| ev_type := JString "contract";
     ev_contractId := JString "C1";
     ev_contract_id := JUndefined;
     ev_topic := JUndefined;
     ev_topics := JArray [JString "transfer"; JString ""];
     ev_data := JString "payload";
     ev_value := JUndefined |}.

(** U+00A0 and U+2028, encoded. *)
Definition nbsp : string := String (ascii_of_N 194) (String (ascii_of_N 160) "").

Definition line_separator : string :=
  String (ascii_of_N 226) (String (ascii_of_N 128) (String (ascii_of_N 168) "")).

End Fake.

(** * Properties *)

Section Properties.

Local Open Scope list_scope.

Context {host : Host}.
Variable stellarConfig : StellarConfigService.
Variable server : Server.

(** ** Computations step by step *)

Lemma bind_inv {A B} (c : Async A) (k : A -> Async B) w r w' :
  bind c k w = (r, w') ->
  (exists a w1, c w = (Returned a, w1) /\ k a w1 = (r, w'))
  \/ (exists e, c w = (Threw e, w') /\ r = Threw e)
  \/ (c w = (OutOfFuel, w') /\ r = OutOfFuel).
Proof.
  unfold bind. destruct (c w) as [[a | e |] w1]; intros H.
  - left. eauto.
  - right; left. inversion H; subst. eauto.
  - right; right. inversion H; subst. auto.
Qed.

(** Splits a [bind] into its three ways of completing. *)
Ltac bind_cases H a w1 Hc Hk e :=
  apply bind_inv in H;
  destruct H as [(a & w1 & Hc & Hk) | [(e & Hc & ->) | (Hc & ->)]].

Lemma timer_delay_pos ms : 1 <= timer_delay ms.
Proof.
  unfold timer_delay.
  destruct (ms <? 1) eqn:E1; simpl; [lia |].
  destruct (2147483647 <? ms); lia.
Qed.

Lemma withTimeout_remote {A} call (view : A -> Response) capability label timeoutMs
    w c w' :
  withTimeout stellarConfig (remote call view capability) label timeoutMs w = (c, w') ->
  exists o,
    history w' = history w ++ [Remote (now w) call o]
    /\ now w <= now w'
    /\ raced_as view label (effective_timeout stellarConfig timeoutMs) c o.
Proof.
  unfold withTimeout, remote, logged; cbn [request reply].
  destruct (capability w) as [lat [e | a]]; cbn [latency settlement];
    match goal with |- context [if ?b then _ else _] => destruct b end;
    intros H; inversion H; subst; clear H; cbn [now history];
    eexists; (split; [reflexivity |]); split;
    try (pose proof (timer_delay_pos (effective_timeout stellarConfig timeoutMs)); lia);
    cbn; auto.
Qed.


(** ** The polling loop *)

(** One iteration of the loop. *)
Lemma poll_step fuel txHash timeoutMs deadline attempt w c w' :
  poll stellarConfig server fuel txHash timeoutMs deadline attempt w = (c, w') ->
  (deadline <= now w /\ c = Threw confirmation_timeout /\ w' = w)
  \/ (now w < deadline /\ fuel = O /\ c = OutOfFuel /\ w' = w)
  \/ (now w < deadline /\
      exists fuel' o w1,
        fuel = S fuel'
        /\ history w1 = history w ++ [Remote (now w) (GetTransaction txHash) o]
        /\ now w <= now w1
        /\ ((exists e, c = Threw e /\ w' = w1
                       /\ raced_as RTransaction "getTransaction"
                            (effective_timeout stellarConfig timeoutMs)
                            (@Threw GetTransactionResponse e) o)
            \/ (exists response, o = Fulfilled (RTransaction response)
                                 /\ settled response = true
                                 /\ c = Returned response /\ w' = w1)
            \/ (exists response, o = Fulfilled (RTransaction response)
                                 /\ settled response = false
                                 /\ poll stellarConfig server fuel' txHash timeoutMs
                                      deadline (attempt + 1)
                                      (after_sleep w1 (delayMs attempt)) = (c, w')))).
Proof.
  intros H.
  destruct fuel as [| fuel']; cbn [poll] in H;
    unfold bind at 1 in H; unfold Date_now in H;
    destruct (Z.ltb_spec (now w) deadline) as [Hlt | Hge].
  - right; left. inversion H; subst; repeat split; auto.
  - left. unfold throw in H. inversion H; subst; repeat split; auto.
  - right; right. split; [assumption |].
    apply bind_inv in H.
    destruct H as [(response & w1 & Hq & Hk) | [(e & Hq & ->) | (Hq & ->)]];
      apply withTimeout_remote in Hq; destruct Hq as (o & Hh & Hn & Ho).
    + exists fuel', o, w1. repeat split; try assumption.
      cbn in Ho. destruct (settled response) eqn:Es.
      * right; left. exists response. unfold ret in Hk. inversion Hk; subst. auto.
      * right; right. exists response. repeat split; try assumption.
    + exists fuel', o, w'. repeat split; try assumption.
      left. exists e. auto.
    + contradiction.
  - left. unfold throw in H. inversion H; subst; repeat split; auto.
Qed.


Lemma settled_false response :
  settled response = false <-> absent_or_pending response.
Proof.
  unfold settled, absent_or_pending, truthy_string.
  destruct (resp_status response) as [s |]; [| intuition].
  destruct (String.eqb_spec s "") as [-> | Hne].
  - intuition.
  - destruct (String.eqb_spec s "PENDING") as [-> | Hnp]; cbn.
    + intuition.
    + split; [discriminate |].
      intros [H | [H | H]]; inversion H; contradiction.
Qed.

Lemma settled_true response :
  settled response = true <-> ~ absent_or_pending response.
Proof.
  rewrite <- settled_false. destruct (settled response); intuition congruence.
Qed.

Lemma poll_schedule_nil txHash attempt c : poll_schedule txHash attempt [] c.
Proof. intros n e H. destruct n; discriminate H. Qed.

Lemma nth_error_single_tail {A} (x : A) n : nth_error [x] (S n) = None.
Proof. destruct n; reflexivity. Qed.

Lemma poll_run fuel : forall txHash timeoutMs deadline attempt w c w',
  poll stellarConfig server fuel txHash timeoutMs deadline attempt w = (c, w') ->
  exists new,
    history w' = history w ++ new
    /\ now w <= now w'
    /\ (forall t call o, In (Remote t call o) new ->
                         now w <= t < deadline /\ call = GetTransaction txHash)
    /\ poll_schedule txHash attempt new c
    /\ ((Z.to_nat (deadline - now w) <= fuel)%nat -> c <> OutOfFuel).
Proof.
  induction fuel as [| fuel IH]; intros txHash timeoutMs deadline attempt w c w' H;
    apply poll_step in H;
    destruct H as [(Hd & -> & ->) | [(Hd & Hf & -> & ->) | (Hd & f & o & w1 & Hf & Hh & Hn & Hcase)]];
    try (exists []; rewrite app_nil_r;
         repeat split; try lia; try contradiction; try discriminate;
         try apply poll_schedule_nil; intros; lia).
  injection Hf as <-.
  destruct Hcase as [(e & -> & -> & Ho) | [(response & -> & Hs & -> & ->) | (response & -> & Hs & Hrest)]].
  + exists [Remote (now w) (GetTransaction txHash) o].
    repeat split; try assumption; try discriminate.
    * destruct H as [H | []]. inversion H; subst. lia.
    * destruct H as [H | []]. inversion H; subst. assumption.
    * destruct H as [H | []]. inversion H; subst. reflexivity.
    * intros n e0 Hnth. destruct n as [| n].
      -- cbn in Hnth. injection Hnth as <-. do 2 eexists. split; [reflexivity |].
         intros response ->. cbn in Ho. destruct Ho as [Ho | [Ho _]]; discriminate Ho.
      -- replace (2 * S n)%nat with (S (S (2 * n))) in Hnth by lia.
         rewrite nth_error_single_tail in Hnth. discriminate Hnth.
  + exists [Remote (now w) (GetTransaction txHash) (Fulfilled (RTransaction response))].
    repeat split; try assumption; try discriminate.
    * destruct H as [H | []]. inversion H; subst. lia.
    * destruct H as [H | []]. inversion H; subst. assumption.
    * destruct H as [H | []]. inversion H; subst. reflexivity.
    * intros n e0 Hnth. destruct n as [| n].
      -- cbn in Hnth. injection Hnth as <-. do 2 eexists. split; [reflexivity |].
         intros r Hr. injection Hr as <-. split.
         ++ intros Hp. apply settled_false in Hp. congruence.
         ++ intros _. split; reflexivity.
      -- replace (2 * S n)%nat with (S (S (2 * n))) in Hnth by lia.
         rewrite nth_error_single_tail in Hnth. discriminate Hnth.
  + apply IH in Hrest.
    destruct Hrest as (new & Hh' & Hn' & Hin & Hsched & Hfuel).
    pose proof (timer_delay_pos (delayMs attempt)) as Hpos.
    unfold after_sleep in Hh', Hn', Hfuel. cbn [now history] in Hh', Hn', Hfuel.
    exists (Remote (now w) (GetTransaction txHash) (Fulfilled (RTransaction response))
              :: Sleep (now w1) (delayMs attempt) :: new).
    split; [| split; [| split; [| split]]].
    * rewrite Hh', Hh, <- !app_assoc. reflexivity.
    * lia.
    * intros t call o [H | [H | H]].
      -- inversion H; subst. split; [lia | reflexivity].
      -- discriminate H.
      -- apply Hin in H. unfold after_sleep in H. cbn [now] in H.
         split; [lia | apply H].
    * intros n e0 Hnth. destruct n as [| n].
      -- cbn in Hnth. injection Hnth as <-. do 2 eexists. split; [reflexivity |].
         intros r Hr. injection Hr as <-. split.
         ++ intros _. exists (now w1). cbn. rewrite Z.add_0_r. reflexivity.
         ++ intros Hp. apply settled_true in Hp. congruence.
      -- replace (2 * S n)%nat with (S (S (2 * n))) in Hnth by lia.
         cbn [nth_error] in Hnth.
         destruct (Hsched n e0 Hnth) as (t & o & -> & Hresp).
         exists t, o. split; [reflexivity |].
         intros r Hr. specialize (Hresp r Hr).
         replace (2 * S n + 1)%nat with (S (S (2 * n + 1))) by lia.
         cbn [nth_error].
         replace (attempt + Z.of_nat (S n)) with (attempt + 1 + Z.of_nat n) by lia.
         exact Hresp.
    * intros Hle. apply Hfuel. lia.
Qed.


Lemma waitForTransaction_poll fuel txHash timeoutMs w :
  waitForTransaction stellarConfig server fuel txHash timeoutMs w
  = poll stellarConfig server fuel txHash timeoutMs
      (now w + effective_timeout stellarConfig timeoutMs) 0 w.
Proof. reflexivity. Qed.

(** C3. In a run of the confirmation wait loop the history alternates
    queries and sleeps.  For every attempt index [n] (from 0): the [n]-th
    query is a [getTransaction] of the awaited hash; when its answer carries
    no status (or an empty one) or PENDING, the loop next sleeps exactly
    [min (2000 * (n + 1)) 8000] milliseconds, that is 2000, 4000, 6000, then
    8000 for good, a capped linear ramp, and the timer lasts exactly that
    long; when the status is any other value nothing follows the query: the
    response is returned without sleeping. *)
Theorem waitForTransaction_backoff fuel txHash timeoutMs w c w' :
  waitForTransaction stellarConfig server fuel txHash timeoutMs w = (c, w') ->
  exists new,
    history w' = history w ++ new
    /\ (forall (n : nat) (e : Event),
          nth_error new (2 * n) = Some e ->
          exists t o,
            e = Remote t (GetTransaction txHash) o
            /\ forall response,
                 o = Fulfilled (RTransaction response) ->
                 ((resp_status response = None
                   \/ resp_status response = Some ""%string
                   \/ resp_status response = Some "PENDING"%string) ->
                  exists t', nth_error new (2 * n + 1)
                             = Some (Sleep t' (Z.min (2000 * (Z.of_nat n + 1)) 8000)))
                 /\ (forall s, resp_status response = Some s ->
                               s <> ""%string -> s <> "PENDING"%string ->
                               nth_error new (2 * n + 1) = None
                               /\ c = Returned response))
    /\ delayMs 0 = 2000 /\ delayMs 1 = 4000 /\ delayMs 2 = 6000
    /\ (forall k, 3 <= k -> delayMs k = 8000)
    /\ (forall k, 0 <= k -> timer_delay (delayMs k) = delayMs k).
Proof.
  rewrite waitForTransaction_poll. intros H.
  apply poll_run in H. destruct H as (new & Hh & _ & _ & Hsched & _).
  exists new. split; [assumption |]. split.
  - intros n e Hnth. destruct (Hsched n e Hnth) as (t & o & -> & Hresp).
    exists t, o. split; [reflexivity |].
    intros response Ho. destruct (Hresp response Ho) as [Hp Hs]. split.
    + intros Habs. destruct (Hp Habs) as (t' & Ht'). exists t'.
      rewrite Ht'. unfold delayMs. rewrite Z.add_0_l. reflexivity.
    + intros s Hst Hne Hnp. apply Hs.
      intros [Ha | [Ha | Ha]]; rewrite Hst in Ha; inversion Ha; contradiction.
  - unfold delayMs. repeat split; try reflexivity.
    + intros k Hk. lia.
    + intros k Hk. unfold timer_delay.
      destruct (Z.ltb_spec (Z.min (2000 * (k + 1)) 8000) 1); [lia |].
      destruct (Z.ltb_spec 2147483647 (Z.min (2000 * (k + 1)) 8000)); [lia |].
      reflexivity.
Qed.

(** Where the loop stands at the top of a turn, and after each sleep. *)
Lemma poll_turns fuel : forall txHash timeoutMs deadline attempt w c w',
  poll stellarConfig server fuel txHash timeoutMs deadline attempt w = (c, w') ->
  exists new,
    history w' = history w ++ new
    /\ ((deadline <= now w /\ new = [] /\ c = Threw confirmation_timeout
         /\ now w' = now w)
        \/ (now w < deadline /\ fuel = O /\ new = [] /\ c = OutOfFuel)
        \/ (now w < deadline
            /\ exists o rest, new = Remote (now w) (GetTransaction txHash) o :: rest))
    /\ forall n t ms,
         nth_error new n = Some (Sleep t ms) ->
         (t + timer_delay ms < deadline ->
          (exists o, nth_error new (S n)
                     = Some (Remote (t + timer_delay ms) (GetTransaction txHash) o))
          \/ (nth_error new (S n) = None /\ c = OutOfFuel))
         /\ (deadline <= t + timer_delay ms ->
             nth_error new (S n) = None /\ c = Threw confirmation_timeout
             /\ now w' = t + timer_delay ms).
Proof.
  induction fuel as [| fuel IH]; intros txHash timeoutMs deadline attempt w c w' H;
    apply poll_step in H;
    destruct H as [(Hd & -> & ->) | [(Hd & Hf & -> & ->)
                                    | (Hd & f & o & w1 & Hf & Hh & Hn & Hcase)]];
    try (exists []; rewrite app_nil_r; split; [reflexivity |];
         split; [auto 10 | intros [| n] t ms Hnth; discriminate Hnth]);
    try discriminate Hf.
  injection Hf as <-.
  assert (Hone : forall q n t ms,
             q = Remote (now w) (GetTransaction txHash) o ->
             nth_error [q] n = Some (Sleep t ms) -> False).
  { intros q [| [| n]] t ms -> Hnth; discriminate Hnth. }
  destruct Hcase as [(e & -> & -> & _) | [(r & Ho & _ & -> & ->) | (r & Ho & _ & Hrest)]].
  - eexists. split; [exact Hh |]. split; [right; right; eauto |].
    intros n t ms Hnth. exfalso. eapply Hone; [reflexivity | exact Hnth].
  - eexists. split; [exact Hh |]. split; [right; right; eauto |].
    intros n t ms Hnth. exfalso. eapply Hone; [reflexivity | exact Hnth].
  - apply IH in Hrest. destruct Hrest as (new & Hh' & Hstart & Hsleeps).
    unfold after_sleep in Hh', Hstart. cbn [now history] in Hh', Hstart.
    exists (Remote (now w) (GetTransaction txHash) o
              :: Sleep (now w1) (delayMs attempt) :: new).
    split; [rewrite Hh', Hh, <- !app_assoc; reflexivity |].
    split; [right; right; eauto |].
    intros [| [| n]] t ms Hnth; cbn [nth_error] in Hnth |- *.
    + discriminate Hnth.
    + injection Hnth as <- <-.
      destruct Hstart as [(Hge & -> & -> & Hnow) | [(Hlt & _ & -> & ->)
                                                   | (Hlt & o' & rest & ->)]].
      * split; [intros; lia | intros _; auto].
      * split; [intros _; right; split; reflexivity | intros; lia].
      * split; [intros _; left; exists o'; reflexivity | intros; lia].
    + apply (Hsleeps n t ms Hnth).
Qed.

(** C4. The deadline of a confirmation wait is fixed when the wait starts,
    as the clock then plus the caller's [timeoutMs] (the configured
    [apiTimeout] when there is none, or when it is 0), and every turn of the
    loop is measured against that one deadline.  A wait that starts before
    it does query, at once; every status query of the run, whatever the
    number of retries, is issued strictly before it; after every sleep the
    loop queries again, at the moment it wakes, if and only if that moment
    is before the deadline, and otherwise throws the confirmation timeout
    there and then, with no further query; and the loop does complete. *)
Theorem waitForTransaction_deadline fuel txHash timeoutMs w c w' :
  waitForTransaction stellarConfig server fuel txHash timeoutMs w = (c, w') ->
  exists deadline new,
    history w' = history w ++ new
    /\ (forall t, timeoutMs = Some t -> t <> 0 -> deadline = now w + t)
    /\ (timeoutMs = None \/ timeoutMs = Some 0 ->
        deadline = now w + apiTimeout stellarConfig)
    /\ (forall t call o, In (Remote t call o) new ->
                         call = GetTransaction txHash /\ now w <= t < deadline)
    /\ (forall fuel1 attempt w1,
          deadline <= now w1 ->
          poll stellarConfig server fuel1 txHash timeoutMs deadline attempt w1
          = (Threw confirmation_timeout, w1))
    /\ (deadline <= now w -> c = Threw confirmation_timeout /\ w' = w)
    /\ ((Z.to_nat (deadline - now w) <= fuel)%nat -> c <> OutOfFuel)
    /\ (now w < deadline -> fuel <> O ->
        exists o rest, new = Remote (now w) (GetTransaction txHash) o :: rest)
    /\ (forall n t ms,
          nth_error new n = Some (Sleep t ms) ->
          (t + timer_delay ms < deadline ->
           (exists o, nth_error new (S n)
                      = Some (Remote (t + timer_delay ms) (GetTransaction txHash) o))
           \/ (nth_error new (S n) = None /\ c = OutOfFuel))
          /\ (deadline <= t + timer_delay ms ->
              nth_error new (S n) = None /\ c = Threw confirmation_timeout
              /\ now w' = t + timer_delay ms)).
Proof.
  rewrite waitForTransaction_poll. intros H.
  assert (Hexpired : forall fuel1 attempt w1,
             now w + effective_timeout stellarConfig timeoutMs <= now w1 ->
             poll stellarConfig server fuel1 txHash timeoutMs
               (now w + effective_timeout stellarConfig timeoutMs) attempt w1
             = (Threw confirmation_timeout, w1)).
  { intros fuel1 attempt w1 Hle.
    destruct fuel1; cbn [poll]; unfold bind, Date_now, throw;
      destruct (Z.ltb_spec (now w1) (now w + effective_timeout stellarConfig timeoutMs));
      solve [reflexivity | lia]. }
  pose proof H as Hrun. apply poll_run in Hrun.
  destruct Hrun as (new & Hh & _ & Hin & _ & Hfuel).
  pose proof H as Hturns. apply poll_turns in Hturns.
  destruct Hturns as (new' & Hh' & Hstart & Hsleeps).
  assert (new' = new) as -> by (apply (app_inv_head (history w)); congruence).
  exists (now w + effective_timeout stellarConfig timeoutMs), new.
  split; [assumption |].
  split.
  { intros t -> Hne. unfold effective_timeout, truthy_number.
    destruct (Z.eqb_spec t 0); [contradiction | reflexivity]. }
  split; [intros [-> | ->]; reflexivity |].
  split.
  { intros t call o Hi. destruct (Hin t call o Hi) as [Ht Hcall]. auto. }
  split; [exact Hexpired |].
  split.
  { intros Hle. rewrite Hexpired in H by assumption. split; congruence. }
  split; [exact Hfuel |].
  split; [| exact Hsleeps].
  intros Hlt Hne.
  destruct Hstart as [(Hge & _) | [(_ & Hf & _) | (_ & Hq)]];
    [lia | contradiction | exact Hq].
Qed.


(** ** The invocation pipeline *)

Lemma lift_inv {A} (r : Result A) w c w' :
  lift r w = (c, w') ->
  w' = w /\ match r with inl e => c = Threw e | inr a => c = Returned a end.
Proof. destruct r; cbn; intros H; inversion H; auto. Qed.

Lemma simulateTransaction_run tx w c w' :
  simulateTransaction stellarConfig server tx w = (c, w') ->
  exists o,
    history w' = history w ++ [Remote (now w) (SimulateTransaction tx) o]
    /\ match c with
       | Returned s => o = Fulfilled (RSimulation s) /\ forall d, s <> SimulationError d
       | Threw e => sim_refused stellarConfig o e
       | OutOfFuel => False
       end.
Proof.
  unfold simulateTransaction. intros H. apply bind_inv in H.
  destruct H as [(s & w1 & Hq & Hk) | [(e & Hq & ->) | (Hq & ->)]];
    apply withTimeout_remote in Hq; destruct Hq as (o & Hh & _ & Ho); cbn in Ho.
  - destruct s as [d | r m]; cbn in Hk; inversion Hk; subst; eexists;
      (split; [eassumption |]).
    + left. eauto.
    + split; [reflexivity | discriminate].
  - exists o. split; [assumption |]. right. exact Ho.
  - contradiction.
Qed.

Lemma outcomes_of_app cap (h1 h2 : list Event) :
  outcomes_of cap (h1 ++ h2) = outcomes_of cap h1 ++ outcomes_of cap h2.
Proof. apply flat_map_app. Qed.

Lemma in_outcomes_of t call o h :
  In (Remote t call o) h -> In o (outcomes_of (capability_of call) h).
Proof.
  intros H. unfold outcomes_of. apply in_flat_map.
  exists (Remote t call o). split; [assumption |].
  destruct call; cbn; auto.
Qed.

Lemma outcomes_of_only_polls txHash cap h :
  only_polls txHash h -> cap <> CapGetTransaction -> outcomes_of cap h = [].
Proof.
  intros Hp Hc. unfold outcomes_of.
  induction h as [| e h IH]; [reflexivity |].
  cbn [flat_map].
  rewrite IH by (intros t call o Hin; apply (Hp t call o); right; assumption).
  destruct e as [t call o | t ms]; [| reflexivity].
  rewrite (Hp t call o) by (left; reflexivity). cbn.
  destruct cap; try reflexivity. contradiction.
Qed.

Lemma waitForTransaction_run fuel txHash timeoutMs w c w' :
  waitForTransaction stellarConfig server fuel txHash timeoutMs w = (c, w') ->
  exists new, history w' = history w ++ new /\ only_polls txHash new.
Proof.
  rewrite waitForTransaction_poll. intros H. apply poll_run in H.
  destruct H as (new & Hh & _ & Hin & _). exists new. split; [assumption |].
  intros t call o Hi. apply (Hin t call o Hi).
Qed.

Lemma getContractEvents_run txHash w c w' :
  getContractEvents stellarConfig server txHash w = (c, w') ->
  exists new, history w' = history w ++ new /\ only_polls txHash new.
Proof.
  unfold getContractEvents. destruct (txHash =? "")%string.
  - intros H. inversion H; subst. exists []. rewrite app_nil_r.
    split; [reflexivity | intros t call o []].
  - intros H. apply bind_inv in H.
    assert (Hone : forall o, only_polls txHash [Remote (now w) (GetTransaction txHash) o]).
    { intros o t call o' [Hi | []]. inversion Hi. reflexivity. }
    destruct H as [(r & w1 & Hq & Hk) | [(e & Hq & ->) | (Hq & ->)]];
      apply withTimeout_remote in Hq; destruct Hq as (o & Hh & _ & Ho).
    + destruct (negb (status_is r "SUCCESS")); inversion Hk; subst; eauto.
    + eauto.
    + eauto.
Qed.

Lemma getContractEvents_completes txHash w c w' :
  getContractEvents stellarConfig server txHash w = (c, w') -> c <> OutOfFuel.
Proof.
  unfold getContractEvents. destruct (txHash =? "")%string.
  - intros H. inversion H. discriminate.
  - intros H. apply bind_inv in H.
    destruct H as [(r & w1 & Hq & Hk) | [(e & Hq & ->) | (Hq & ->)]].
    + destruct (negb (status_is r "SUCCESS")); inversion Hk; discriminate.
    + discriminate.
    + apply withTimeout_remote in Hq. destruct Hq as (? & _ & _ & []).
Qed.

(** Where a run of the [try] block stands with respect to simulation. *)
Lemma invokeContract_try_run fuel contractId method params options secret w c w' :
  invokeContract_try stellarConfig server fuel contractId method params options secret w
  = (c, w') ->
  exists new,
    history w' = history w ++ new
    /\ ((outcomes_of CapSimulateTransaction new = []
         /\ calls_to CapPrepareTransaction new = O
         /\ calls_to CapSendTransaction new = O
         /\ exists e, c = Threw e)
        \/ (exists o e,
              outcomes_of CapSimulateTransaction new = [o]
              /\ calls_to CapPrepareTransaction new = O
              /\ calls_to CapSendTransaction new = O
              /\ c = Threw e /\ sim_refused stellarConfig o e)
        \/ (exists s,
              outcomes_of CapSimulateTransaction new = [Fulfilled (RSimulation s)]
              /\ (forall d, s <> SimulationError d)
              /\ forall cr, c = Returned cr -> result cr = parseScVal (sim_retval s))).
Proof.
  unfold invokeContract_try. intros H.
  (* Keypair.fromSecret *)
  bind_cases H kp w0 Hc Hk e; apply lift_inv in Hc; destruct Hc as [-> Hc];
    [clear Hc | exists []; rewrite app_nil_r; split; [reflexivity |]; left; cbn; eauto
     | destruct (sdk (Keypair_fromSecret secret)); discriminate Hc].
  (* getAccount *)
  bind_cases Hk account w1 Hc Hk1 e;
    apply withTimeout_remote in Hc; destruct Hc as (o1 & Hh1 & _ & Ho1);
    [ | eexists; split; [eassumption |]; left; cbn; eauto | contradiction].
  (* buildContractOperation *)
  bind_cases Hk1 operation w1' Hc Hk2 e; apply lift_inv in Hc; destruct Hc as [-> Hc];
    [clear Hc | eexists; split; [eassumption |]; left; cbn; eauto
     | destruct (buildContractOperation contractId method params); discriminate Hc].
  (* simulateTransaction *)
  bind_cases Hk2 simulation w2 Hc Hk3 e;
    apply simulateTransaction_run in Hc; destruct Hc as (o2 & Hh2 & Ho2);
    [ | eexists; split; [rewrite Hh2, Hh1, <- app_assoc; reflexivity |];
        right; left; exists o2, e; cbn; auto
      | contradiction].
  destruct Ho2 as [-> Hsuccess].
  assert (Hgoal : forall new',
             history w' = history w2 ++ new' ->
             outcomes_of CapSimulateTransaction new' = [] ->
             (forall cr, c = Returned cr -> result cr = parseScVal (sim_retval simulation)) ->
             exists new,
               history w' = history w ++ new
               /\ ((outcomes_of CapSimulateTransaction new = []
                    /\ calls_to CapPrepareTransaction new = O
                    /\ calls_to CapSendTransaction new = O
                    /\ exists e, c = Threw e)
                   \/ (exists o e,
                         outcomes_of CapSimulateTransaction new = [o]
                         /\ calls_to CapPrepareTransaction new = O
                         /\ calls_to CapSendTransaction new = O
                         /\ c = Threw e /\ sim_refused stellarConfig o e)
                   \/ (exists s,
                         outcomes_of CapSimulateTransaction new
                         = [Fulfilled (RSimulation s)]
                         /\ (forall d, s <> SimulationError d)
                         /\ forall cr, c = Returned cr ->
                                       result cr = parseScVal (sim_retval s)))).
  { intros new' Hh' Hnone Hres. eexists. split.
    - rewrite Hh', Hh2, Hh1, <- !app_assoc. reflexivity.
    - right; right. exists simulation. split; [| split; assumption].
      rewrite !outcomes_of_app, Hnone. reflexivity. }
  (* prepareTransaction *)
  bind_cases Hk3 prepared w3 Hc Hk4 e;
    apply withTimeout_remote in Hc; destruct Hc as (o3 & Hh3 & _ & Ho3);
    [ | apply (Hgoal _ Hh3); [reflexivity | discriminate] | contradiction].
  (* sendTransaction *)
  bind_cases Hk4 sendResponse w4 Hc Hk5 e;
    apply withTimeout_remote in Hc; destruct Hc as (o4 & Hh4 & _ & Ho4);
    [ | eapply Hgoal; [rewrite Hh4, Hh3, <- app_assoc; reflexivity
                      | reflexivity | discriminate]
      | contradiction].
  assert (Hh43 : history w4 = history w2 ++ [Remote (now w2)
                    (PrepareTransaction
                       (TransactionBuilder_build account BASE_FEE
                          (networkPassphrase stellarConfig) operation 30)) o3;
                    Remote (now w3)
                      (SendTransaction (sign prepared kp)) o4]).
  { rewrite Hh4, Hh3, <- app_assoc. reflexivity. }
  destruct (send_status sendResponse =? "ERROR")%string.
  { inversion Hk5; subst. eapply Hgoal; [eassumption | reflexivity | discriminate]. }
  destruct (truthy_string (send_hash sendResponse)) as [txHash |].
  2: { inversion Hk5; subst. eapply Hgoal; [eassumption | reflexivity | discriminate]. }
  (* waitForTransaction *)
  bind_cases Hk5 confirmed w5 Hc Hk6 e;
    apply waitForTransaction_run in Hc; destruct Hc as (newp & Hh5 & Hp5);
    pose proof (outcomes_of_only_polls txHash CapSimulateTransaction newp Hp5
                  ltac:(discriminate)) as Hn5.
  2, 3: eapply Hgoal;
    [rewrite Hh5, Hh43, <- app_assoc; reflexivity
    | rewrite outcomes_of_app, Hn5; reflexivity
    | discriminate].
  (* getContractEvents *)
  bind_cases Hk6 evs w6 Hc Hk7 e;
    apply getContractEvents_run in Hc; destruct Hc as (newe & Hh6 & Hp6);
    pose proof (outcomes_of_only_polls txHash CapSimulateTransaction newe Hp6
                  ltac:(discriminate)) as Hn6.
  2, 3: eapply Hgoal;
    [rewrite Hh6, Hh5, Hh43, <- !app_assoc; reflexivity
    | rewrite !outcomes_of_app, Hn5, Hn6; reflexivity
    | discriminate].
  inversion Hk7; subst.
  eapply Hgoal;
    [rewrite Hh6, Hh5, Hh43, <- !app_assoc; reflexivity
    | rewrite !outcomes_of_app, Hn5, Hn6; reflexivity
    | intros cr Hcr; inversion Hcr; reflexivity].
Qed.


Lemma invokeContract_catch_run contractId method error w :
  invokeContract_catch contractId method error w
  = (Threw (surfaced contractId method error), w).
Proof.
  unfold invokeContract_catch, surfaced. destruct (is_SorobanException error); reflexivity.
Qed.

(** A run either stops at the precondition or is a run of the [try] block
    whose exception, if any, went through the [catch] block. *)
Lemma invokeContract_run fuel contractId method params options w c w' :
  invokeContract stellarConfig server fuel contractId method params options w = (c, w') ->
  (w' = w
   /\ exists message,
        c = Threw (SorobanException message (Some contractId) (Some method) None))
  \/ (exists secret ct,
        truthy_string (sourceSecret options) = Some secret
        /\ invokeContract_try stellarConfig server fuel contractId method params
             options secret w = (ct, w')
        /\ c = match ct with
               | Threw e => Threw (surfaced contractId method e)
               | _ => ct
               end).
Proof.
  unfold invokeContract.
  destruct ((contractId =? "")%string || (method =? "")%string).
  { intros H. inversion H; subst. left. eauto. }
  destruct (truthy_string (sourceSecret options)) as [secret |].
  2: { intros H. inversion H; subst. left. eauto. }
  unfold try_catch. intros H. right. exists secret.
  destruct (invokeContract_try stellarConfig server fuel contractId method params
              options secret w) as [[cr | e |] wt] eqn:Etry.
  - inversion H; subst. eauto.
  - rewrite invokeContract_catch_run in H. inversion H; subst. eauto.
  - inversion H; subst. eauto.
Qed.

(** With fuel for the whole timeout the invocation completes. *)
Lemma invokeContract_completes fuel contractId method params options w c w' :
  (Z.to_nat (effective_timeout stellarConfig (timeoutMs options)) <= fuel)%nat ->
  invokeContract stellarConfig server fuel contractId method params options w = (c, w') ->
  c <> OutOfFuel.
Proof.
  intros Hfuel H. apply invokeContract_run in H.
  destruct H as [(_ & message & ->) | (secret & ct & _ & Htry & ->)]; [discriminate |].
  assert (ct <> OutOfFuel); [| destruct ct; congruence].
  unfold invokeContract_try in Htry.
  bind_cases Htry kp w0 Hc Hk e; try discriminate;
    [| apply lift_inv in Hc; destruct Hc as [_ Hc];
       destruct (sdk (Keypair_fromSecret secret)); discriminate Hc].
  bind_cases Hk account w1 Hc1 Hk1 e; try discriminate;
    [| apply withTimeout_remote in Hc1; destruct Hc1 as (? & _ & _ & []) ].
  bind_cases Hk1 operation w1' Hc2 Hk2 e; try discriminate;
    [| apply lift_inv in Hc2; destruct Hc2 as [_ Hc2];
       destruct (buildContractOperation contractId method params); discriminate Hc2].
  bind_cases Hk2 simulation w2 Hc3 Hk3 e; try discriminate;
    [| apply simulateTransaction_run in Hc3; destruct Hc3 as (? & _ & []) ].
  bind_cases Hk3 prepared w3 Hc4 Hk4 e; try discriminate;
    [| apply withTimeout_remote in Hc4; destruct Hc4 as (? & _ & _ & []) ].
  bind_cases Hk4 sendResponse w4 Hc5 Hk5 e; try discriminate;
    [| apply withTimeout_remote in Hc5; destruct Hc5 as (? & _ & _ & []) ].
  destruct (send_status sendResponse =? "ERROR")%string;
    [inversion Hk5; discriminate |].
  destruct (truthy_string (send_hash sendResponse)) as [txHash |];
    [| inversion Hk5; discriminate].
  bind_cases Hk5 confirmed w5 Hc6 Hk6 e; try discriminate.
  - bind_cases Hk6 evs w6 Hc7 Hk7 e; try discriminate.
    + inversion Hk7. discriminate.
    + apply getContractEvents_completes in Hc7. contradiction.
  - rewrite waitForTransaction_poll in Hc6. apply poll_run in Hc6.
    destruct Hc6 as (new & _ & _ & _ & _ & Hdone).
    exfalso. apply Hdone; [| reflexivity]. lia.
Qed.

Lemma calls_to_zero_not_in cap h t call o :
  calls_to cap h = O -> capability_of call = cap -> ~ In (Remote t call o) h.
Proof.
  unfold calls_to. intros Hz <- Hin. apply in_outcomes_of in Hin.
  destruct (outcomes_of (capability_of call) h); [contradiction | discriminate].
Qed.

(** C1. Whenever the simulation step of an invocation answers with an
    error, [invokeContract] throws the simulation failure carrying the
    remote diagnostic, and neither [prepareTransaction] nor
    [sendTransaction] is invoked anywhere in the run. *)
Theorem invokeContract_simulation_error
    fuel contractId method params options w c w' :
  invokeContract stellarConfig server fuel contractId method params options w = (c, w') ->
  exists new,
    history w' = history w ++ new
    /\ forall t tx diagnostic,
         In (Remote t (SimulateTransaction tx)
               (Fulfilled (RSimulation (SimulationError diagnostic)))) new ->
         c = Threw (SorobanException ("Simulation failed: " ++ diagnostic)%string
                      None None None)
         /\ calls_to CapPrepareTransaction new = O
         /\ calls_to CapSendTransaction new = O
         /\ forall t' tx' o, ~ In (Remote t' (SendTransaction tx') o) new.
Proof.
  intros H. apply invokeContract_run in H.
  destruct H as [(-> & message & ->) | (secret & ct & _ & Htry & ->)].
  { exists []. rewrite app_nil_r. split; [reflexivity | intros t tx d []]. }
  apply invokeContract_try_run in Htry. destruct Htry as (new & Hh & Hcases).
  exists new. split; [assumption |].
  intros t tx d Hin. apply in_outcomes_of in Hin. cbn [capability_of] in Hin.
  destruct Hcases as [(Hnone & _) | [(o & e & Hone & Hprep & Hsend & -> & Href) | (s & Hone & Hok & _)]].
  - rewrite Hnone in Hin. contradiction.
  - rewrite Hone in Hin. destruct Hin as [-> | []].
    destruct Href as [(d' & Hd' & ->) | [Hrej | [Hto _]]]; try discriminate.
    injection Hd' as <-.
    repeat split; try assumption.
    intros t' tx' o'.
    apply (calls_to_zero_not_in CapSendTransaction); [assumption | reflexivity].
  - rewrite Hone in Hin. destruct Hin as [Heq | []].
    injection Heq as ->. exfalso. apply (Hok d). reflexivity.
Qed.

(** C2. When the contract id or the method is empty, or the source secret
    is absent (or empty), [invokeContract] throws a [SorobanException] at
    once and leaves the world untouched: the history gains no remote call of
    any capability and the clock does not move. *)
Theorem invokeContract_invalid_request fuel contractId method params options w :
  contractId = ""%string \/ method = ""%string
  \/ sourceSecret options = None \/ sourceSecret options = Some ""%string ->
  exists message,
    invokeContract stellarConfig server fuel contractId method params options w
    = (Threw (SorobanException message (Some contractId) (Some method) None), w).
Proof.
  unfold invokeContract. intros H.
  destruct ((contractId =? "")%string || (method =? "")%string) eqn:Eid.
  { eexists. reflexivity. }
  apply orb_false_iff in Eid. destruct Eid as [Ec Em].
  destruct H as [-> | [-> | [Hs | Hs]]]; try discriminate;
    rewrite Hs; cbn; eexists; reflexivity.
Qed.

(** C9, as the code has it.  Every error that [invokeContract] surfaces is a
    [SorobanException], of one of three kinds: a precondition failure, which
    carries the contract id and the method; an error raised inside the [try]
    block that was no [SorobanException], wrapped with the contract id, the
    method and the cause; or a [SorobanException] raised inside the [try]
    block, rethrown unchanged, with whatever attribution it was raised
    with. *)
Theorem invokeContract_error_attribution
    fuel contractId method params options w e w' :
  invokeContract stellarConfig server fuel contractId method params options w
  = (Threw e, w') ->
  is_SorobanException e = true
  /\ ((exists message,
         e = SorobanException message (Some contractId) (Some method) None)
      \/ (exists secret cause message,
            truthy_string (sourceSecret options) = Some secret
            /\ invokeContract_try stellarConfig server fuel contractId method params
                 options secret w = (Threw cause, w')
            /\ is_SorobanException cause = false
            /\ e = SorobanException message (Some contractId) (Some method)
                     (Some (DetailsCause cause)))
      \/ (exists secret,
            truthy_string (sourceSecret options) = Some secret
            /\ invokeContract_try stellarConfig server fuel contractId method params
                 options secret w = (Threw e, w'))).
Proof.
  intros H. apply invokeContract_run in H.
  destruct H as [(-> & message & He) | (secret & ct & Hs & Htry & He)].
  - injection He as ->. split; [reflexivity |]. left. eauto.
  - destruct ct as [cr | cause |]; try discriminate He.
    injection He as ->. unfold surfaced.
    destruct (is_SorobanException cause) eqn:Ecause.
    + split; [assumption |]. right; right. eauto.
    + split; [reflexivity |]. right; left. exists secret, cause. eauto.
Qed.


(** ** Decoding *)

Lemma parseScVal_not_truthy v : truthy v = false -> parseScVal v = JUndefined.
Proof. unfold parseScVal. intros ->. reflexivity. Qed.

Lemma truthy_nonempty s : s <> ""%string -> truthy (JString s) = true.
Proof. intros H. cbn. destruct (String.eqb_spec s ""); [contradiction | reflexivity]. Qed.

(** C7, as the code has it.  For every non-empty string: when it cannot be
    decoded as a base64 ledger value the decoder returns the string itself,
    unchanged and without raising; when it can, the decoder returns the
    decoded native value. *)
Theorem parseScVal_string s :
  s <> ""%string ->
  (ScVal_fromXDR_base64 s = None -> parseScVal (JString s) = JString s)
  /\ (forall v, ScVal_fromXDR_base64 s = Some v ->
                parseScVal (JString s) = scValToNative v).
Proof.
  intros Hne. unfold parseScVal. rewrite (truthy_nonempty s Hne). cbn [negb].
  split.
  - intros ->. reflexivity.
  - intros v ->. reflexivity.
Qed.

(** C8. Event decoding is total and works event by event: the decoded list
    has one event per raw event, in order; the type is the literal
    "unknown" when the raw type is absent (or otherwise falsy) and the text of
    the raw type in every other case, so a type that is a text is kept as it
    is; the topics are left out when the raw topic field is not an array,
    and are the decoded elements, possibly none, when it is one. *)
Theorem parseEvents_defaults (raw : list RawEvent) :
  List.length (parseEvents raw) = List.length raw
  /\ forall i event,
       nth_error raw i = Some event ->
       exists decoded,
         nth_error (parseEvents raw) i = Some decoded
         /\ (ev_type event = JUndefined -> type decoded = "unknown"%string)
         /\ (truthy (ev_type event) = false -> type decoded = "unknown"%string)
         /\ (truthy (ev_type event) = true ->
             type decoded = js_String (ev_type event))
         /\ (forall text, ev_type event = JString text -> text <> ""%string ->
                          type decoded = text)
         /\ (as_array (js_or (ev_topic event) (ev_topics event)) = None ->
             topics decoded = None)
         /\ (forall items,
               js_or (ev_topic event) (ev_topics event) = JArray items ->
               topics decoded = Some (map parseScVal items)).
Proof.
  unfold parseEvents. split; [apply length_map |].
  intros i event Hnth. eexists. split.
  - apply map_nth_error. exact Hnth.
  - cbn [type topics]. repeat split.
    + intros ->. reflexivity.
    + intros Hf. unfold js_or. rewrite Hf. reflexivity.
    + intros Ht. unfold js_or. rewrite Ht. reflexivity.
    + intros text -> Hne. unfold js_or. rewrite (truthy_nonempty text Hne).
      reflexivity.
    + intros ->. reflexivity.
    + intros items ->. reflexivity.
Qed.

(** C10. The decoder maps every falsy value (undefined, null, the empty
    string, the number 0, false) to undefined.  Hence an invocation that
    returns, and whose simulation put such a value in the return slot,
    reports an undefined result; and event data, and topic entries, holding
    such values decode to undefined. *)
Theorem parseScVal_falsy :
  (forall v, truthy v = false -> parseScVal v = JUndefined)
  /\ parseScVal JUndefined = JUndefined
  /\ parseScVal JNull = JUndefined
  /\ parseScVal (JString "") = JUndefined
  /\ parseScVal (JNumber 0%float) = JUndefined
  /\ parseScVal (JBool false) = JUndefined
  /\ (forall fuel contractId method params options w cr w' new t tx s,
        invokeContract stellarConfig server fuel contractId method params options w
        = (Returned cr, w') ->
        history w' = history w ++ new ->
        In (Remote t (SimulateTransaction tx) (Fulfilled (RSimulation s))) new ->
        truthy (sim_retval s) = false ->
        result cr = JUndefined)
  /\ (forall raw i event,
        nth_error raw i = Some event ->
        exists decoded,
          nth_error (parseEvents raw) i = Some decoded
          /\ (truthy (ev_data event) = false -> truthy (ev_value event) = false ->
              data decoded = JUndefined)
          /\ (forall items j v,
                js_or (ev_topic event) (ev_topics event) = JArray items ->
                nth_error items j = Some v ->
                truthy v = false ->
                exists decoded_topics,
                  topics decoded = Some decoded_topics
                  /\ nth_error decoded_topics j = Some JUndefined)).
Proof.
  split; [exact parseScVal_not_truthy |].
  do 5 (split; [reflexivity |]).
  split.
  - intros fuel contractId method params options w cr w' new t tx s Hrun Hh Hin Hf.
    apply invokeContract_run in Hrun.
    destruct Hrun as [(_ & message & Hc) | (secret & ct & _ & Htry & Hc)];
      [discriminate Hc |].
    destruct ct as [cr' | e |]; try discriminate Hc. injection Hc as <-.
    apply invokeContract_try_run in Htry. destruct Htry as (new' & Hh' & Hcases).
    rewrite Hh' in Hh. apply app_inv_head in Hh. subst new'.
    apply in_outcomes_of in Hin. cbn [capability_of] in Hin.
    destruct Hcases as [(_ & _ & _ & e & He) | [(o & e & _ & _ & _ & He & _) | (s' & Hone & _ & Hres)]];
      try discriminate He.
    rewrite Hone in Hin. destruct Hin as [Heq | []]. injection Heq as ->.
    rewrite (Hres cr eq_refl). apply parseScVal_not_truthy. assumption.
  - intros raw i event Hnth. unfold parseEvents. eexists. split.
    + apply map_nth_error. exact Hnth.
    + cbn [data topics]. split.
      * intros Hd Hv. apply parseScVal_not_truthy. unfold js_or. rewrite Hd. exact Hv.
      * intros items j v -> Hj Hf. cbn [as_array]. eexists. split; [reflexivity |].
        rewrite (map_nth_error parseScVal j items Hj).
        rewrite (parseScVal_not_truthy v Hf). reflexivity.
Qed.


(** ** Fee estimation *)

Lemma withTimeout_resolved {A} (a : A) label timeoutMs w :
  withTimeout stellarConfig (Promise_resolve a) label timeoutMs w
  = (Returned a, {| now := now w + 0; history := history w ++ [] |}).
Proof.
  unfold withTimeout, Promise_resolve, logged; cbn.
  pose proof (timer_delay_pos (effective_timeout stellarConfig timeoutMs)) as Hpos.
  destruct (Z.ltb_spec 0 (timer_delay (effective_timeout stellarConfig timeoutMs)));
    [reflexivity | lia].
Qed.

Lemma estimateFees_run operation w c w' :
  estimateFees stellarConfig server operation w = (c, w') ->
  forall est, c = Returned est ->
  exists new s r i stats,
    history w' = history w ++ new
    /\ outcomes_of CapSimulateTransaction new = [Fulfilled (RSimulation s)]
    /\ toBigInt (JString (resource_fee_text s)) = inr r
    /\ resolveInclusionFee stats = inr i
    /\ est = {| inclusionFee := Z_to_string i;
                resourceFee := Z_to_string r;
                totalFee := Z_to_string (i + r) |}
    /\ match getFeeStats server with
       | None => stats = empty_stats /\ calls_to CapGetFeeStats new = O
       | Some _ =>
           exists fs, outcomes_of CapGetFeeStats new = [Fulfilled (RFeeStats fs)]
                      /\ stats = or_else fs empty_stats
       end.
Proof.
  unfold estimateFees. intros H est Hest.
  bind_cases H s w1 Hc Hk e; try discriminate.
  apply simulateTransaction_run in Hc. destruct Hc as (o & Hh1 & -> & _).
  bind_cases Hk r w1' Hc Hk2 e; try discriminate.
  apply lift_inv in Hc. destruct Hc as [-> Hr].
  fold (resource_fee_text s) in Hr.
  destruct (toBigInt (JString (resource_fee_text s))) as [err | r'] eqn:Er;
    [discriminate Hr |]. injection Hr as <-.
  bind_cases Hk2 fs w2 Hc Hk3 e; try discriminate.
  bind_cases Hk3 i w2' Hc' Hk4 e; try discriminate.
  apply lift_inv in Hc'. destruct Hc' as [-> Hi].
  destruct (resolveInclusionFee (or_else fs empty_stats)) as [err | i'] eqn:Ei;
    [discriminate Hi |]. injection Hi as <-.
  unfold ret in Hk4. injection Hk4 as <- <-. injection Hest as <-.
  destruct (getFeeStats server) as [capability |].
  - apply withTimeout_remote in Hc. destruct Hc as (o2 & Hh2 & _ & Ho2). cbn in Ho2.
    subst o2.
    exists [Remote (now w) (SimulateTransaction (estimate_transaction stellarConfig operation))
              (Fulfilled (RSimulation s));
            Remote (now w1) GetFeeStats (Fulfilled (RFeeStats fs))],
      s, r, i, (or_else fs empty_stats).
    repeat split; try assumption; try reflexivity.
    + rewrite Hh2, Hh1, <- app_assoc. reflexivity.
    + exists fs. split; reflexivity.
  - rewrite withTimeout_resolved in Hc. injection Hc as <- <-.
    exists [Remote (now w) (SimulateTransaction (estimate_transaction stellarConfig operation))
              (Fulfilled (RSimulation s))],
      s, r, i, empty_stats.
    repeat split; try assumption; try reflexivity.
    cbn [history]. rewrite app_nil_r. exact Hh1.
Qed.


Lemma Z_of_to_string z : Z_of_string (Z_to_string z) = Some z.
Proof.
  unfold Z_of_string, Z_to_string.
  rewrite NilZero.isi.
  - cbn. rewrite DecimalZ.of_to. reflexivity.
  - destruct z; cbn; intros H; inversion H.
    apply (DecimalPos.Unsigned.to_uint_nonnil p). assumption.
  - destruct z; cbn; intros H; inversion H.
    apply (DecimalPos.Unsigned.to_uint_nonnil p). assumption.
Qed.

Lemma js_or_truthy a b : truthy a = true -> js_or a b = a.
Proof. unfold js_or. intros ->. reflexivity. Qed.

Lemma js_or_falsy a b : truthy a = false -> js_or a b = b.
Proof. unfold js_or. intros ->. reflexivity. Qed.

(** A candidate that is not [undefined] is what gets converted. *)
Lemma resolve_candidate b :
  feeCandidate (Some b) <> JUndefined ->
  resolveInclusionFee (mkFeeStats (Some b) None None) = toBigInt (feeCandidate (Some b)).
Proof.
  unfold resolveInclusionFee. cbn [stats_sorobanInclusionFee bucket_or].
  destruct (feeCandidate (Some b)); intros H; try reflexivity. contradiction.
Qed.

Lemma truthy_defined v : truthy v = true -> v <> JUndefined.
Proof. intros H ->. discriminate H. Qed.

(** C5. The inclusion fee is resolved bucket first, statistic second.  The
    soroban bucket, when there, decides alone; else the generic inclusion-fee
    bucket; else the feeCharged bucket.  Within the chosen bucket the choice
    is p95 when it is truthy, else max, else mode, else min whatever it
    holds; the result is the base fee only when that min is undefined (or
    there is no bucket at all).  So a bucket whose statistics are all falsy
    but whose min is there does not fall back: a null min, or a false one,
    makes the conversion fail, and an empty text reads as 0.
    In [estimateFees] the statistics come from [getFeeStats]; when the server
    has no such capability no call is made, no error arises from it, and the
    inclusion fee is the base fee. *)
Theorem resolveInclusionFee_priority :
  (forall b generic charged,
      resolveInclusionFee (mkFeeStats (Some b) generic charged)
      = resolveInclusionFee (mkFeeStats (Some b) None None))
  /\ (forall b charged,
        resolveInclusionFee (mkFeeStats None (Some b) charged)
        = resolveInclusionFee (mkFeeStats (Some b) None None))
  /\ (forall b,
        resolveInclusionFee (mkFeeStats None None (Some b))
        = resolveInclusionFee (mkFeeStats (Some b) None None))
  /\ (forall b,
        let chosen := resolveInclusionFee (mkFeeStats (Some b) None None) in
        (truthy (fee_p95 b) = true -> chosen = toBigInt (fee_p95 b))
        /\ (truthy (fee_p95 b) = false -> truthy (fee_max b) = true ->
            chosen = toBigInt (fee_max b))
        /\ (truthy (fee_p95 b) = false -> truthy (fee_max b) = false ->
            truthy (fee_mode b) = true -> chosen = toBigInt (fee_mode b))
        /\ (truthy (fee_p95 b) = false -> truthy (fee_max b) = false ->
            truthy (fee_mode b) = false -> fee_min b <> JUndefined ->
            chosen = toBigInt (fee_min b))
        /\ (truthy (fee_p95 b) = false -> truthy (fee_max b) = false ->
            truthy (fee_mode b) = false -> fee_min b = JUndefined ->
            chosen = toBigInt (JString BASE_FEE)))
  /\ resolveInclusionFee empty_stats = toBigInt (JString BASE_FEE)
  /\ (forall operation w est w',
        estimateFees stellarConfig server operation w = (Returned est, w') ->
        exists new stats i,
          history w' = history w ++ new
          /\ resolveInclusionFee stats = inr i
          /\ inclusionFee est = Z_to_string i
          /\ match getFeeStats server with
             | None => stats = empty_stats /\ calls_to CapGetFeeStats new = O
             | Some _ =>
                 exists fs,
                   outcomes_of CapGetFeeStats new = [Fulfilled (RFeeStats fs)]
                   /\ stats = or_else fs empty_stats
             end)
  /\ (getFeeStats server = None ->
      forall operation w s w1 r base,
        simulateTransaction stellarConfig server (estimate_transaction stellarConfig operation) w
        = (Returned s, w1) ->
        toBigInt (JString (resource_fee_text s)) = inr r ->
        toBigInt (JString BASE_FEE) = inr base ->
        exists w',
          estimateFees stellarConfig server operation w
          = (Returned {| inclusionFee := Z_to_string base;
                         resourceFee := Z_to_string r;
                         totalFee := Z_to_string (base + r) |}, w')
          /\ history w' = history w1)
  /\ (forall b,
        truthy (fee_p95 b) = false -> truthy (fee_max b) = false ->
        truthy (fee_mode b) = false ->
        let chosen := resolveInclusionFee (mkFeeStats (Some b) None None) in
        (fee_min b = JNull ->
         chosen = inl (GenericError "Cannot convert null to a BigInt"))
        /\ (fee_min b = JBool false ->
            chosen = inl (GenericError "Cannot convert false to a BigInt"))
        /\ (fee_min b = JString "" -> chosen = inr 0)).
Proof.
  split; [reflexivity |]. split; [reflexivity |]. split; [reflexivity |].
  split; [| split; [reflexivity | split]].
  - intros b chosen. subst chosen. repeat split.
    + intros H1. rewrite resolve_candidate; cbn [feeCandidate];
        rewrite !(js_or_truthy _ _ H1); auto using truthy_defined.
    + intros H1 H2. rewrite resolve_candidate; cbn [feeCandidate];
        rewrite (js_or_falsy _ _ H1), !(js_or_truthy _ _ H2); auto using truthy_defined.
    + intros H1 H2 H3. rewrite resolve_candidate; cbn [feeCandidate];
        rewrite (js_or_falsy _ _ H1), (js_or_falsy _ _ H2), !(js_or_truthy _ _ H3);
        auto using truthy_defined.
    + intros H1 H2 H3 H4. rewrite resolve_candidate; cbn [feeCandidate];
        rewrite (js_or_falsy _ _ H1), (js_or_falsy _ _ H2), (js_or_falsy _ _ H3);
        auto.
    + intros H1 H2 H3 H4. unfold resolveInclusionFee.
      cbn [stats_sorobanInclusionFee bucket_or feeCandidate].
      rewrite (js_or_falsy _ _ H1), (js_or_falsy _ _ H2), (js_or_falsy _ _ H3), H4.
      reflexivity.
  - intros operation w est w' H.
    destruct (estimateFees_run operation w _ w' H est eq_refl)
      as (new & s & r & i & stats & Hh & _ & _ & Hi & -> & Hstats).
    exists new, stats, i. repeat split; assumption.
  - split.
    2: { intros b H1 H2 H3 chosen. subst chosen.
         unfold resolveInclusionFee.
         cbn [stats_sorobanInclusionFee bucket_or feeCandidate].
         rewrite (js_or_falsy _ _ H1), (js_or_falsy _ _ H2), (js_or_falsy _ _ H3).
         repeat split; intros ->; reflexivity. }
    intros Hnone operation w s w1 r base Hsim Hr Hbase.
    unfold estimateFees. fold (estimate_transaction stellarConfig operation).
    unfold bind at 1. rewrite Hsim.
    unfold bind at 1. fold (resource_fee_text s). rewrite Hr. cbn [lift ret].
    rewrite Hnone. unfold bind at 1. rewrite withTimeout_resolved.
    cbn [or_else]. unfold bind at 1.
    replace (resolveInclusionFee empty_stats) with (@inr JsError Z base)
      by (symmetry; exact Hbase).
    cbn [lift ret]. eexists. split; [reflexivity |].
    cbn [history]. apply app_nil_r.
Qed.

(** Only a minus sign makes [BigInt(text)] negative. *)
Lemma digit_value_nonneg c d : digit_value c = Some d -> 0 <= d.
Proof.
  unfold digit_value.
  repeat match goal with
         | |- context [if ?b then _ else _] => destruct b eqn:?
         end; intros H; inversion H; subst; lia.
Qed.

Lemma parse_digits_nonneg radix s : forall acc z,
  0 <= radix -> 0 <= acc -> parse_digits radix acc s = Some z -> 0 <= z.
Proof.
  induction s as [| c rest IH]; intros acc z Hr Ha H; cbn in H.
  - inversion H; subst. assumption.
  - destruct (digit_value c) as [d |] eqn:Ed; [| discriminate H].
    destruct (d <? radix); [| discriminate H].
    apply digit_value_nonneg in Ed.
    apply (IH (radix * acc + d) z Hr); [nia | assumption].
Qed.

Lemma parse_nat_nonneg radix s z : 0 <= radix -> parse_nat radix s = Some z -> 0 <= z.
Proof.
  unfold parse_nat. destruct s; [discriminate |].
  intros Hr H. eapply parse_digits_nonneg; [exact Hr | | exact H]. lia.
Qed.

Lemma radix_of_prefix_nonneg p radix : radix_of_prefix p = Some radix -> 0 <= radix.
Proof.
  unfold radix_of_prefix.
  repeat match goal with
         | |- context [if ?b then _ else _] => destruct b
         end; intros H; inversion H; lia.
Qed.

Lemma StringToBigInt_negative s z :
  StringToBigInt s = Some z -> z < 0 -> exists ds, trim s = String "-" ds.
Proof.
  unfold StringToBigInt. destruct (trim s) as [| c rest] eqn:Et.
  - intros H. inversion H; subst. lia.
  - destruct (Ascii.eqb_spec c "-") as [-> | _]; [eauto |].
    intros H Hneg. exfalso.
    assert (0 <= z); [| lia].
    destruct (c =? "+")%char; [apply (parse_nat_nonneg 10 rest z); [lia | exact H] |].
    destruct (c =? "0")%char.
    + destruct rest as [| p ds].
      * eapply parse_nat_nonneg; [| exact H]. lia.
      * destruct (radix_of_prefix p) as [radix |] eqn:Er; cbn [option_map] in H.
        -- apply radix_of_prefix_nonneg in Er. apply (parse_nat_nonneg radix ds z Er H).
        -- eapply parse_nat_nonneg; [| exact H]. lia.
    + eapply parse_nat_nonneg; [| exact H]. lia.
Qed.

Lemma toBigInt_negative v z : toBigInt v = inr z -> z < 0 -> reads_negative v.
Proof.
  unfold toBigInt, reads_negative. intros H Hneg.
  destruct v;
    try (destruct (StringToBigInt _) as [z' |] eqn:Ez; [| discriminate H];
         injection H as ->; right; apply (StringToBigInt_negative _ z Ez Hneg)).
  injection H as ->. left. eauto.
Qed.

Lemma resolveInclusionFee_figure stats :
  resolveInclusionFee stats = toBigInt (fee_figure stats).
Proof.
  unfold resolveInclusionFee, fee_figure. destruct (feeCandidate _); reflexivity.
Qed.

(** C6, as the code has it.  The fees of a returned estimate are the decimal
    renderings of integers: the resource fee [r] converted from the
    simulation's [minResourceFee] ("0" when there is none), the inclusion fee
    [i] converted from the figure that the statistics of the run yield (the
    answer of [getFeeStats]; no statistics when the client has no such
    call), and their exact sum [i + r].  Nothing is clamped: a component is
    negative only when the figure it is converted from is (a negative bigint,
    or a text with a minus sign in front); when neither figure is negative,
    no component is. *)
Theorem estimateFees_total operation w est w' :
  estimateFees stellarConfig server operation w = (Returned est, w') ->
  exists new s stats i r,
    history w' = history w ++ new
    /\ outcomes_of CapSimulateTransaction new = [Fulfilled (RSimulation s)]
    /\ match getFeeStats server with
       | None => stats = empty_stats /\ calls_to CapGetFeeStats new = O
       | Some _ =>
           exists fs, outcomes_of CapGetFeeStats new = [Fulfilled (RFeeStats fs)]
                      /\ stats = or_else fs empty_stats
       end
    /\ toBigInt (JString (resource_fee_text s)) = inr r
    /\ toBigInt (fee_figure stats) = inr i
    /\ est = {| inclusionFee := Z_to_string i;
                resourceFee := Z_to_string r;
                totalFee := Z_to_string (i + r) |}
    /\ Z_of_string (inclusionFee est) = Some i
    /\ Z_of_string (resourceFee est) = Some r
    /\ Z_of_string (totalFee est) = Some (i + r)
    /\ (r < 0 -> exists ds, trim (resource_fee_text s) = String "-" ds)
    /\ (i < 0 -> reads_negative (fee_figure stats))
    /\ ((forall ds, trim (resource_fee_text s) <> String "-" ds) ->
        ~ reads_negative (fee_figure stats) ->
        0 <= i /\ 0 <= r /\ 0 <= i + r).
Proof.
  intros H.
  destruct (estimateFees_run operation w _ w' H est eq_refl)
    as (new & s & r & i & stats & Hh & Hsim & Hr & Hi & -> & Hstats).
  rewrite resolveInclusionFee_figure in Hi.
  assert (Hresource : r < 0 -> exists ds, trim (resource_fee_text s) = String "-" ds).
  { intros Hneg. destruct (toBigInt_negative _ r Hr Hneg) as [(z & Hz & _) | Hminus].
    - discriminate Hz.
    - exact Hminus. }
  assert (Hinclusion : i < 0 -> reads_negative (fee_figure stats)).
  { apply toBigInt_negative. exact Hi. }
  exists new, s, stats, i, r. cbn [inclusionFee resourceFee totalFee].
  rewrite !Z_of_to_string.
  repeat match goal with |- _ /\ _ => split end;
    try assumption; try reflexivity.
  intros Hplain Hfigure.
  assert (0 <= r).
  { destruct (Z.lt_ge_cases r 0) as [Hneg | Hok]; [| exact Hok].
    destruct (Hresource Hneg) as (ds & Hds). destruct (Hplain ds Hds). }
  assert (0 <= i).
  { destruct (Z.lt_ge_cases i 0) as [Hneg | Hok]; [| exact Hok].
    destruct (Hfigure (Hinclusion Hneg)). }
  lia.
Qed.

End Properties.

(** * Further properties of the service *)

Section Coverage.

Local Open Scope list_scope.

Context {host : Host}.
Variable stellarConfig : StellarConfigService.
Variable server : Server.

(** ** Whole runs of the [try] block *)

Ltac bind_stages H a w1 Hc Hk e :=
  apply bind_inv in H;
  destruct H as [(a & w1 & Hc & Hk) | [(e & Hc & ->) | (Hc & ->)]].

Lemma truthy_string_nonempty o s : truthy_string o = Some s -> o = Some s /\ s <> ""%string.
Proof.
  destruct o as [s' |]; cbn; [| discriminate].
  destruct (String.eqb_spec s' ""); [discriminate |].
  intros H. injection H as <-. auto.
Qed.

Lemma poll_returned fuel : forall txHash timeoutMs deadline attempt w response w',
  poll stellarConfig server fuel txHash timeoutMs deadline attempt w
  = (Returned response, w') ->
  exists pre tq,
    history w' = history w
                 ++ pre ++ [Remote tq (GetTransaction txHash)
                              (Fulfilled (RTransaction response))]
    /\ only_polls txHash pre
    /\ settled response = true.
Proof.
  induction fuel as [| fuel IH]; intros txHash timeoutMs deadline attempt w response w' H;
    apply poll_step in H;
    destruct H as [(_ & Hc & _) | [(_ & _ & Hc & _) | (_ & f & o & w1 & Hf & Hh & _ & Hcase)]];
    try discriminate.
  injection Hf as <-.
  destruct Hcase as [(e & Hc & _) | [(r & -> & Hs & Hc & ->) | (r & -> & Hs & Hrest)]];
    try discriminate.
  - injection Hc as <-. exists [], (now w). repeat split; try assumption.
    intros t call o [].
  - apply IH in Hrest. destruct Hrest as (pre & tq & Hh' & Hpre & Hset).
    unfold after_sleep in Hh'. cbn [history] in Hh'.
    exists (Remote (now w) (GetTransaction txHash) (Fulfilled (RTransaction r))
              :: Sleep (now w1) (delayMs attempt) :: pre), tq.
    repeat split; try assumption.
    + rewrite Hh', Hh, <- !app_assoc. reflexivity.
    + intros t call o [Hi | [Hi | Hi]].
      * inversion Hi. reflexivity.
      * discriminate Hi.
      * apply (Hpre t call o Hi).
Qed.

Lemma getContractEvents_stage txHash w c w' :
  txHash <> ""%string ->
  getContractEvents stellarConfig server txHash w = (c, w') ->
  exists oe,
    history w' = history w ++ [Remote (now w) (GetTransaction txHash) oe]
    /\ match c with
       | Returned evs =>
           (exists transaction, oe = Fulfilled (RTransaction transaction))
           /\ evs = events_of oe
       | Threw e =>
           raced_as RTransaction "getTransaction" (effective_timeout stellarConfig None)
             (@Threw GetTransactionResponse e) oe
       | OutOfFuel => False
       end.
Proof.
  intros Hne. unfold getContractEvents.
  destruct (String.eqb_spec txHash ""); [contradiction |].
  intros H. apply bind_inv in H.
  destruct H as [(r & w1 & Hq & Hk) | [(e & Hq & ->) | (Hq & ->)]];
    apply withTimeout_remote in Hq; destruct Hq as (oe & Hh & _ & Ho); cbn in Ho.
  - exists oe. subst oe. cbn [events_of].
    destruct (status_is r "SUCCESS"); cbn [negb] in Hk; inversion Hk; subst;
      (split; [assumption |]); split; eauto.
  - exists oe. split; assumption.
  - contradiction.
Qed.

Lemma invokeContract_try_stages fuel contractId method params options secret w c w' :
  invokeContract_try stellarConfig server fuel contractId method params options secret w
  = (c, w') ->
  exists new,
    history w' = history w ++ new
    /\ TryRun stellarConfig contractId method params options secret new c.
Proof.
  unfold invokeContract_try. intros H.
  (* Keypair.fromSecret *)
  bind_stages H kp w0 Hc Hk e; apply lift_inv in Hc; destruct Hc as [-> Hc];
    destruct (Keypair_fromSecret secret) as [msg | kp'] eqn:Ekp; cbn in Hc;
    try discriminate Hc.
  2: { injection Hc as ->. exists []. rewrite app_nil_r. split; [reflexivity |].
       apply Run_bad_secret. assumption. }
  injection Hc as <-.
  fold (invocation_address options kp) in Hk.
  (* getAccount *)
  bind_stages Hk account w1 Hc Hk1 e;
    apply withTimeout_remote in Hc; destruct Hc as (o1 & Hh1 & _ & Ho1);
    [ | eexists; split; [eassumption |]; eapply Run_no_account; eassumption
      | contradiction].
  cbn in Ho1. subst o1.
  (* buildContractOperation *)
  bind_stages Hk1 operation w1' Hc Hk2 e; apply lift_inv in Hc; destruct Hc as [-> Hc];
    destruct (buildContractOperation contractId method params) as [err | op] eqn:Eop;
    try discriminate Hc.
  2: { injection Hc as ->. eexists. split; [eassumption |].
       eapply Run_no_operation; eassumption. }
  injection Hc as <-.
  fold (invocation_transaction stellarConfig account operation) in Hk2.
  (* simulateTransaction *)
  bind_stages Hk2 simulation w2 Hc Hk3 e;
    apply simulateTransaction_run in Hc; destruct Hc as (o2 & Hh2 & Ho2);
    [ | eexists; split; [rewrite Hh2, Hh1, <- app_assoc; reflexivity |];
        eapply Run_no_simulation; eassumption
      | contradiction].
  destruct Ho2 as [-> Hsuccess].
  (* prepareTransaction *)
  bind_stages Hk3 prepared w3 Hc Hk4 e;
    apply withTimeout_remote in Hc; destruct Hc as (o3 & Hh3 & _ & Ho3);
    [ | eexists; split; [rewrite Hh3, Hh2, Hh1, <- !app_assoc; reflexivity |];
        eapply Run_not_prepared; eassumption
      | contradiction].
  cbn in Ho3. subst o3.
  (* sendTransaction *)
  bind_stages Hk4 sendResponse w4 Hc Hk5 e;
    apply withTimeout_remote in Hc; destruct Hc as (o4 & Hh4 & _ & Ho4).
  3: contradiction.
  2: { eexists. split; [rewrite Hh4, Hh3, Hh2, Hh1, <- !app_assoc; reflexivity |].
       apply (Run_not_sent stellarConfig contractId method params options secret
                kp (now w) account operation (now w1) simulation (now w2) prepared
                (now w3) o4 e); assumption. }
  cbn in Ho4. subst o4.
  assert (Hh : history w4
               = history w ++ submission stellarConfig options kp account operation
                                simulation prepared (Fulfilled (RSent sendResponse))
                                (now w) (now w1) (now w2) (now w3)).
  { rewrite Hh4, Hh3, Hh2, Hh1, <- !app_assoc. reflexivity. }
  destruct (String.eqb_spec (send_status sendResponse) "ERROR") as [Herr | Herr].
  { inversion Hk5; subst c w'. eexists. split; [exact Hh |].
    apply Run_rejected; assumption. }
  destruct (truthy_string (send_hash sendResponse)) as [txHash |] eqn:Ehash.
  2: { inversion Hk5; subst c w'. eexists. split; [exact Hh |].
       apply Run_no_hash; assumption. }
  destruct (truthy_string_nonempty _ _ Ehash) as [_ Hne].
  (* waitForTransaction *)
  destruct (waitForTransaction stellarConfig server fuel txHash (timeoutMs options) w4)
    as [cw w5] eqn:Ewait.
  unfold bind at 1 in Hk5. rewrite Ewait in Hk5.
  destruct cw as [confirmed | e |].
  2, 3: inversion Hk5; subst c w';
    apply waitForTransaction_run in Ewait; destruct Ewait as (polls & Hh5 & Hp5);
    eexists; (split; [rewrite Hh5, Hh, <- app_assoc; reflexivity |]);
    eapply Run_unconfirmed; try eassumption; discriminate.
  rewrite waitForTransaction_poll in Ewait. apply poll_returned in Ewait.
  destruct Ewait as (polls & tq & Hh5 & Hp5 & Hset).
  (* getContractEvents *)
  destruct (getContractEvents stellarConfig server txHash w5) as [ce w6] eqn:Eev.
  unfold bind at 1 in Hk5. rewrite Eev in Hk5.
  apply (getContractEvents_stage txHash w5 ce w6 Hne) in Eev.
  destruct Eev as (oe & Hh6 & Hoe).
  assert (Hfinal : history w6
                   = history w
                     ++ (submission stellarConfig options kp account operation
                           simulation prepared (Fulfilled (RSent sendResponse))
                           (now w) (now w1) (now w2) (now w3)
                         ++ polls
                         ++ [Remote tq (GetTransaction txHash)
                               (Fulfilled (RTransaction confirmed));
                             Remote (now w5) (GetTransaction txHash) oe])).
  { rewrite Hh6, Hh5, Hh, <- !app_assoc. reflexivity. }
  destruct ce as [evs | e |]; [| | contradiction].
  - destruct Hoe as [Htr ->]. unfold ret in Hk5. inversion Hk5; subst c w'.
    eexists. split; [exact Hfinal |].
    eapply Run_confirmed; try eassumption. cbn. split; [exact Htr | reflexivity].
  - inversion Hk5; subst c w'. eexists. split; [exact Hfinal |].
    eapply Run_confirmed; try eassumption.
Qed.


(** A run of [invokeContract]: a failed precondition, or a run of the [try]
    block seen through the [catch] block. *)
Lemma invokeContract_stages fuel contractId method params options w c w' :
  invokeContract stellarConfig server fuel contractId method params options w = (c, w') ->
  (w' = w
   /\ exists message,
        c = Threw (SorobanException message (Some contractId) (Some method) None))
  \/ (exists secret new ct,
        truthy_string (sourceSecret options) = Some secret
        /\ history w' = history w ++ new
        /\ TryRun stellarConfig contractId method params options secret new ct
        /\ c = match ct with
               | Threw e => Threw (surfaced contractId method e)
               | _ => ct
               end).
Proof.
  intros H. apply invokeContract_run in H.
  destruct H as [Hpre | (secret & ct & Hs & Htry & Hc)]; [left; assumption |].
  right. apply invokeContract_try_stages in Htry. destruct Htry as (new & Hh & Hrun).
  exists secret, new, ct. auto.
Qed.

Lemma capabilities_app h1 h2 :
  capabilities (h1 ++ h2) = capabilities h1 ++ capabilities h2.
Proof. apply flat_map_app. Qed.

Lemma capabilities_only_polls txHash h :
  only_polls txHash h -> exists j, capabilities h = repeat CapGetTransaction j.
Proof.
  intros Hp. induction h as [| e h IH]; [exists O; reflexivity |].
  destruct IH as (j & Hj).
  { intros t call o Hin. apply (Hp t call o). right. assumption. }
  destruct e as [t call o | t ms].
  - exists (S j). rewrite (Hp t call o) by (left; reflexivity).
    change (capabilities (Remote t (GetTransaction txHash) o :: h))
      with (CapGetTransaction :: capabilities h).
    rewrite Hj. reflexivity.
  - exists j. exact Hj.
Qed.

Lemma calls_to_only_polls txHash cap h :
  only_polls txHash h -> cap <> CapGetTransaction -> calls_to cap h = O.
Proof.
  intros Hp Hc. unfold calls_to.
  rewrite (outcomes_of_only_polls txHash cap h Hp Hc). reflexivity.
Qed.

Lemma calls_to_app cap h1 h2 : calls_to cap (h1 ++ h2) = (calls_to cap h1 + calls_to cap h2)%nat.
Proof. unfold calls_to. rewrite outcomes_of_app. apply length_app. Qed.

(** X1. An invocation calls the capabilities in one fixed order and never
    twice: [getAccount], [simulateTransaction], [prepareTransaction],
    [sendTransaction], each at most once and only after the one before, and
    then status queries only; no status query is made before all four. *)
Theorem invokeContract_call_order fuel contractId method params options w c w' :
  invokeContract stellarConfig server fuel contractId method params options w = (c, w') ->
  exists new k j,
    history w' = history w ++ new
    /\ capabilities new
       = firstn k [CapGetAccount; CapSimulateTransaction; CapPrepareTransaction;
                   CapSendTransaction]
         ++ repeat CapGetTransaction j
    /\ (k <= 4)%nat
    /\ ((0 < j)%nat -> k = 4%nat).
Proof.
  intros H. apply invokeContract_stages in H.
  destruct H as [(-> & _) | (secret & new & ct & _ & Hh & Hrun & _)].
  { exists [], O, O. rewrite app_nil_r. repeat split; try lia. }
  exists new.
  destruct Hrun.
  - exists 0%nat, 0%nat. repeat split; try assumption; try reflexivity; lia.
  - exists 1%nat, 0%nat. repeat split; try assumption; try reflexivity; lia.
  - exists 1%nat, 0%nat. repeat split; try assumption; try reflexivity; lia.
  - exists 2%nat, 0%nat. repeat split; try assumption; try reflexivity; lia.
  - exists 3%nat, 0%nat. repeat split; try assumption; try reflexivity; lia.
  - exists 4%nat, 0%nat. repeat split; try assumption; try reflexivity; lia.
  - exists 4%nat, 0%nat. repeat split; try assumption; try reflexivity; lia.
  - exists 4%nat, 0%nat. repeat split; try assumption; try reflexivity; lia.
  - destruct (capabilities_only_polls txHash polls) as (j & Hj); [assumption |].
    exists 4%nat, j.
    split; [assumption |]. split; [| split; [lia | reflexivity]].
    rewrite capabilities_app, Hj. reflexivity.
  - destruct (capabilities_only_polls txHash polls) as (j & Hj); [assumption |].
    exists 4%nat, (j + 2)%nat.
    split; [assumption |]. split; [| split; [lia | reflexivity]].
    rewrite !capabilities_app, repeat_app, Hj. reflexivity.
Qed.

Lemma in_submission options kp account operation simulation prepared o4 t1 t2 t3 t4
    t tx o :
  In (Remote t (SendTransaction tx) o)
     (submission stellarConfig options kp account operation simulation prepared o4
        t1 t2 t3 t4) ->
  tx = sign prepared kp /\ o = o4.
Proof.
  unfold submission. intros [H | [H | [H | [H | []]]]]; try discriminate H.
  inversion H. auto.
Qed.

Lemma not_in_polls txHash polls t call o :
  only_polls txHash polls -> capability_of call <> CapGetTransaction ->
  ~ In (Remote t call o) polls.
Proof. intros Hp Hc Hin. apply Hp in Hin. subst call. apply Hc. reflexivity. Qed.

(** X2. When [sendTransaction] answers with status ERROR, or without a
    (non-empty) hash, the invocation throws a [SorobanException] that carries
    the contract id, the method and that very response, and no status query
    is made: polling is never attempted. *)
Theorem invokeContract_submission_rejected
    fuel contractId method params options w c w' :
  invokeContract stellarConfig server fuel contractId method params options w = (c, w') ->
  exists new,
    history w' = history w ++ new
    /\ forall t tx sendResponse,
         In (Remote t (SendTransaction tx) (Fulfilled (RSent sendResponse))) new ->
         send_status sendResponse = "ERROR"%string
         \/ send_hash sendResponse = None
         \/ send_hash sendResponse = Some ""%string ->
         (exists message,
            c = Threw (SorobanException message (Some contractId) (Some method)
                         (Some (DetailsResponse sendResponse))))
         /\ calls_to CapGetTransaction new = O.
Proof.
  intros H. apply invokeContract_stages in H.
  destruct H as [(-> & _) | (secret & new & ct & _ & Hh & Hrun & ->)].
  { exists []. rewrite app_nil_r. split; [reflexivity | intros t tx r []]. }
  exists new. split; [assumption |].
  intros t tx r Hin Hbad.
  destruct Hrun;
    try (cbn in Hin; repeat (destruct Hin as [Hin | Hin]; try discriminate Hin);
         contradiction).
  - apply in_submission in Hin. destruct Hin as [_ <-].
    cbn in H2. destruct H2 as [H2 | [H2 _]]; discriminate H2.
  - apply in_submission in Hin. destruct Hin as [_ Heq]. injection Heq as ->.
    split; [eexists; reflexivity | reflexivity].
  - apply in_submission in Hin. destruct Hin as [_ Heq]. injection Heq as ->.
    split; [eexists; reflexivity | reflexivity].
  - exfalso. apply in_app_or in Hin. destruct Hin as [Hin | Hin].
    + apply in_submission in Hin. destruct Hin as [_ Heq]. injection Heq as ->.
      destruct Hbad as [Hb | [Hb | Hb]]; [contradiction | |];
        rewrite Hb in H3; discriminate H3.
    + revert Hin. apply (not_in_polls txHash); [assumption | discriminate].
  - exfalso. apply in_app_or in Hin. destruct Hin as [Hin | Hin].
    + apply in_submission in Hin. destruct Hin as [_ Heq]. injection Heq as ->.
      destruct Hbad as [Hb | [Hb | Hb]]; [contradiction | |];
        rewrite Hb in H3; discriminate H3.
    + apply in_app_or in Hin. destruct Hin as [Hin | Hin].
      * revert Hin. apply (not_in_polls txHash); [assumption | discriminate].
      * destruct Hin as [Hin | [Hin | []]]; discriminate Hin.
Qed.


(** ** The result of an invocation that returns *)

Lemma invokeContract_returned fuel contractId method params options w cr w' :
  invokeContract stellarConfig server fuel contractId method params options w
  = (Returned cr, w') ->
  exists pre txHash simulation confirmed transaction tq te,
    history w' = history w
                 ++ pre
                 ++ [Remote tq (GetTransaction txHash) (Fulfilled (RTransaction confirmed));
                     Remote te (GetTransaction txHash)
                       (Fulfilled (RTransaction transaction))]
    /\ txHash <> ""%string
    /\ settled confirmed = true
    /\ cr = contract_result txHash simulation confirmed
              (events_of (Fulfilled (RTransaction transaction))).
Proof.
  intros H. apply invokeContract_stages in H.
  destruct H as [(_ & message & Hc) | (secret & new & ct & _ & Hh & Hrun & Hc)];
    [discriminate Hc |].
  destruct ct as [cr' | e |]; try discriminate Hc. injection Hc as <-.
  inversion Hrun; subst.
  - exfalso. match goal with H : forall cr0, Returned cr <> Returned cr0 |- _ =>
                             apply (H cr); reflexivity end.
  - match goal with H : _ /\ cr = _ |- _ => destruct H as [(transaction & ->) ->] end.
    match goal with H : truthy_string _ = Some txHash |- _ =>
                      apply truthy_string_nonempty in H; destruct H as [_ Hne] end.
    exists (submission stellarConfig options kp account operation simulation prepared
              (Fulfilled (RSent sendResponse)) t1 t2 t3 t4 ++ polls),
      txHash, simulation, confirmed, transaction, tq, te.
    split; [| split; [exact Hne | split; [assumption | reflexivity]]].
    rewrite Hh, <- !app_assoc. reflexivity.
Qed.

Lemma settled_status response :
  settled response = true ->
  exists s, resp_status response = Some s /\ s <> ""%string /\ s <> "PENDING"%string.
Proof.
  unfold settled. destruct (truthy_string (resp_status response)) as [s |] eqn:Es;
    [| discriminate].
  apply truthy_string_nonempty in Es. destruct Es as [Hs Hne].
  destruct (String.eqb_spec s "PENDING"); [discriminate |]. eauto.
Qed.

Lemma failure_text_nonempty response :
  settled response = true ->
  exists text, failure_text response = Some text /\ text <> ""%string.
Proof.
  intros Hs. unfold failure_text.
  destruct (truthy_string (opt_toString (resp_errorResultXdr response))) as [a |] eqn:Ea.
  { apply truthy_string_nonempty in Ea. exists a. split; [reflexivity | apply Ea]. }
  destruct (truthy_string (opt_toString (resp_resultXdr response))) as [b |] eqn:Eb.
  { apply truthy_string_nonempty in Eb. exists b. split; [reflexivity | apply Eb]. }
  destruct (settled_status response Hs) as (s & Hst & Hne & _). eauto.
Qed.

(** X3. A result that [invokeContract] returns always names the (non-empty)
    hash and a final status, one that is neither empty nor PENDING; it is a
    success exactly when that status is SUCCESS; a success carries no error
    and anything else carries a non-empty error text. *)
Theorem invokeContract_result_status fuel contractId method params options w cr w' :
  invokeContract stellarConfig server fuel contractId method params options w
  = (Returned cr, w') ->
  exists txHash s,
    hash cr = Some txHash /\ txHash <> ""%string
    /\ status cr = Some s /\ s <> ""%string /\ s <> "PENDING"%string
    /\ (success cr = true <-> s = "SUCCESS"%string)
    /\ (success cr = true -> error cr = None)
    /\ (success cr = false -> exists text, error cr = Some text /\ text <> ""%string).
Proof.
  intros H. apply invokeContract_returned in H.
  destruct H as (pre & txHash & simulation & confirmed & transaction & tq & te
                 & _ & Hne & Hset & ->).
  destruct (settled_status confirmed Hset) as (s & Hst & Hs1 & Hs2).
  exists txHash, s. cbn [contract_result hash status success error].
  unfold status_is. rewrite Hst.
  repeat split; try assumption; try reflexivity.
  - intros E. apply String.eqb_eq. exact E.
  - intros ->. reflexivity.
  - intros ->. reflexivity.
  - intros ->. apply failure_text_nonempty. assumption.
Qed.

(** X4. The status, the charged fee and the error of a returned result are
    read from the answer to the last status query of the wait, the last call
    but one of the run.  For an unsuccessful result the error is the text of
    [errorResultXdr] when that is there and not empty, else the text of
    [resultXdr] when that is there and not empty, else the bare status. *)
Theorem invokeContract_result_source fuel contractId method params options w cr w' :
  invokeContract stellarConfig server fuel contractId method params options w
  = (Returned cr, w') ->
  exists pre txHash confirmed tq last,
    history w' = history w
                 ++ pre
                 ++ [Remote tq (GetTransaction txHash) (Fulfilled (RTransaction confirmed));
                     last]
    /\ status cr = resp_status confirmed
    /\ feeCharged cr = opt_toString (resp_feeCharged confirmed)
    /\ (resp_feeCharged confirmed = JUndefined -> feeCharged cr = None)
    /\ (success cr = false ->
        (forall text,
            opt_toString (resp_errorResultXdr confirmed) = Some text ->
            text <> ""%string -> error cr = Some text)
        /\ (truthy_string (opt_toString (resp_errorResultXdr confirmed)) = None ->
            forall text,
              opt_toString (resp_resultXdr confirmed) = Some text ->
              text <> ""%string -> error cr = Some text)
        /\ (truthy_string (opt_toString (resp_errorResultXdr confirmed)) = None ->
            truthy_string (opt_toString (resp_resultXdr confirmed)) = None ->
            error cr = status cr)).
Proof.
  intros H. apply invokeContract_returned in H.
  destruct H as (pre & txHash & simulation & confirmed & transaction & tq & te
                 & Hh & _ & _ & ->).
  exists pre, txHash, confirmed, tq,
    (Remote te (GetTransaction txHash) (Fulfilled (RTransaction transaction))).
  cbn [contract_result status feeCharged success error].
  split; [exact Hh |]. split; [reflexivity |]. split; [reflexivity |].
  split; [intros ->; reflexivity |].
  intros ->. unfold failure_text. repeat split.
  - intros text -> Hne. cbn [truthy_string].
    destruct (String.eqb_spec text ""); [contradiction | reflexivity].
  - intros -> text -> Hne. cbn [truthy_string].
    destruct (String.eqb_spec text ""); [contradiction | reflexivity].
  - intros -> ->. reflexivity.
Qed.

(** X5. The events of a returned result come from one further status query,
    the last call of the run, made once the wait is over: when its answer is
    SUCCESS there is one decoded event per raw event of that answer (none
    when it lists none), and when it is not, the result has no events,
    whatever the status the wait ended on. *)
Theorem invokeContract_result_events fuel contractId method params options w cr w' :
  invokeContract stellarConfig server fuel contractId method params options w
  = (Returned cr, w') ->
  exists earlier txHash transaction te,
    history w' = history w
                 ++ earlier
                 ++ [Remote te (GetTransaction txHash)
                       (Fulfilled (RTransaction transaction))]
    /\ hash cr = Some txHash
    /\ (resp_status transaction <> Some "SUCCESS"%string -> events cr = [])
    /\ (resp_status transaction = Some "SUCCESS"%string ->
        events cr = parseEvents (or_else (resp_events transaction) [])
        /\ List.length (events cr)
           = List.length (or_else (resp_events transaction) [])).
Proof.
  intros H. apply invokeContract_returned in H.
  destruct H as (pre & txHash & simulation & confirmed & transaction & tq & te
                 & Hh & _ & _ & ->).
  exists (pre ++ [Remote tq (GetTransaction txHash) (Fulfilled (RTransaction confirmed))]),
    txHash, transaction, te.
  cbn [contract_result events hash events_of].
  split; [rewrite Hh, <- !app_assoc; reflexivity |]. split; [reflexivity |].
  unfold status_is. split.
  - intros Hn. destruct (resp_status transaction) as [s |]; [| reflexivity].
    destruct (String.eqb_spec s "SUCCESS"); [| reflexivity].
    subst s. contradiction.
  - intros ->. cbn. split; [reflexivity |]. unfold parseEvents. apply List.length_map.
Qed.


(** ** What the invocation asks of the server *)

(** Splits the membership of an event in the history of a run into the
    events of that history. *)
Ltac in_events Hin :=
  repeat match type of Hin with
         | In _ (_ ++ _) => apply in_app_or in Hin; destruct Hin as [Hin | Hin]
         | In _ (submission _ _ _ _ _ _ _ _ _ _ _ _) => unfold submission in Hin
         | In _ (_ :: _) => destruct Hin as [Hin | Hin]
         | In _ [] => contradiction
         | Remote _ _ _ = Remote _ _ _ =>
             first [discriminate Hin | inversion Hin; subst; clear Hin]
         end.

Ltac not_a_poll Hin txHash :=
  exfalso; revert Hin; apply (not_in_polls txHash); [assumption | discriminate].

(** X6. Whatever [sendTransaction] is given is the transaction that
    [prepareTransaction] returned, signed with the key of the caller's secret;
    and it is sent only after the account fetch, a simulation that did not
    report an error and the preparation of the one transaction that was built
    and simulated, in that order, at the head of the run. *)
Theorem invokeContract_sent_transaction
    fuel contractId method params options w c w' :
  invokeContract stellarConfig server fuel contractId method params options w = (c, w') ->
  exists new,
    history w' = history w ++ new
    /\ forall t4 tx o4,
         In (Remote t4 (SendTransaction tx) o4) new ->
         exists secret kp account operation simulation prepared t1 t2 t3 rest,
           truthy_string (sourceSecret options) = Some secret
           /\ Keypair_fromSecret secret = inr kp
           /\ buildContractOperation contractId method params = inr operation
           /\ (forall d, simulation <> SimulationError d)
           /\ tx = sign prepared kp
           /\ In (kp_publicKey kp) (tx_signatures tx)
           /\ new = Remote t1 (GetAccount (invocation_address options kp))
                      (Fulfilled (RAccount account))
                    :: Remote t2
                         (SimulateTransaction
                            (invocation_transaction stellarConfig account operation))
                         (Fulfilled (RSimulation simulation))
                    :: Remote t3
                         (PrepareTransaction
                            (invocation_transaction stellarConfig account operation))
                         (Fulfilled (RPrepared prepared))
                    :: Remote t4 (SendTransaction tx) o4
                    :: rest.
Proof.
  intros H. apply invokeContract_stages in H.
  destruct H as [(-> & _) | (secret & new & ct & Hs & Hh & Hrun & _)].
  { exists []. rewrite app_nil_r. split; [reflexivity | intros t tx o []]. }
  exists new. split; [assumption |].
  intros t4' tx o4' Hin.
  assert (Hsig : forall prepared kp, In (kp_publicKey kp) (tx_signatures (sign prepared kp))).
  { intros prepared kp. cbn. apply in_or_app. right. left. reflexivity. }
  destruct Hrun; in_events Hin; try (not_a_poll Hin txHash);
    exists secret, kp, account, operation, simulation, prepared, t1, t2, t3;
    eexists; repeat split; try eassumption; try apply Hsig; reflexivity.
Qed.


Lemma map_result_length {A B} (f : A -> Result B) xs : forall ys,
  map_result f xs = inr ys -> List.length ys = List.length xs.
Proof.
  induction xs as [| x xs IH]; intros ys H; cbn in H.
  - injection H as <-. reflexivity.
  - destruct (f x) as [e | y]; [discriminate H |].
    destruct (map_result f xs) as [e | ys']; [discriminate H |].
    injection H as <-. cbn. f_equal. apply IH. reflexivity.
Qed.

Lemma map_result_nth {A B} (f : A -> Result B) xs : forall ys i x,
  map_result f xs = inr ys ->
  nth_error xs i = Some x ->
  exists y, f x = inr y /\ nth_error ys i = Some y.
Proof.
  induction xs as [| x0 xs IH]; intros ys i x H Hi.
  - destruct i; discriminate Hi.
  - cbn in H. destruct (f x0) as [e | y0] eqn:E0; [discriminate H |].
    destruct (map_result f xs) as [e | ys'] eqn:Es; [discriminate H |].
    injection H as <-. destruct i as [| i]; cbn in Hi.
    + injection Hi as <-. exists y0. auto.
    + apply (IH ys' i x eq_refl Hi).
Qed.

Lemma map_result_failure {A B} (f : A -> Result B) xs : forall e,
  map_result f xs = inl e ->
  exists i x,
    nth_error xs i = Some x /\ f x = inl e
    /\ forall j xj, (j < i)%nat -> nth_error xs j = Some xj -> exists y, f xj = inr y.
Proof.
  induction xs as [| x0 xs IH]; intros e H; cbn in H; [discriminate H |].
  destruct (f x0) as [e0 | y0] eqn:E0.
  - injection H as <-. exists O, x0. repeat split; try assumption.
    intros j xj Hj. lia.
  - destruct (map_result f xs) as [e1 | ys'] eqn:Es; [| discriminate H].
    injection H as <-. destruct (IH e1 eq_refl) as (i & x & Hi & Hf & Hbefore).
    exists (S i), x. repeat split; try assumption.
    intros j xj Hj Hnth. destruct j as [| j]; cbn in Hnth.
    + injection Hnth as <-. eauto.
    + apply (Hbefore j xj); [lia | assumption].
Qed.

Lemma toScVal_failure param e :
  toScVal param = inl e ->
  exists msg, nativeToScVal param = inl msg /\ e = SorobanException msg None None None.
Proof.
  unfold toScVal. intros H.
  assert (Hn : match nativeToScVal param with
               | inr v => inr v
               | inl errorMessage =>
                   inl (SorobanException errorMessage None None None)
               end = @inl JsError ScVal e ->
               exists msg, nativeToScVal param = inl msg
                           /\ e = SorobanException msg None None None).
  { destruct (nativeToScVal param) as [msg | v]; intros Hm; [| discriminate Hm].
    injection Hm as <-. eauto. }
  destruct param; try discriminate H;
    match type of H with
    | match ?X with _ => _ end = _ => destruct X as [[] |]
    end; try discriminate H; apply Hn; exact H.
Qed.

(** X7. What [buildContractOperation] builds: the operation calls the given
    method on the given contract with one argument per parameter, in order;
    a parameter that is already an [xdr.ScVal], bare or wrapped as
    [{scVal: ...}], passes through unchanged.  It fails either because the
    contract id is refused, with the SDK's error, or at the first parameter
    that cannot be encoded, with a [SorobanException] of the encoder's message
    that carries neither contract id nor method. *)
Theorem buildContractOperation_args contractId method params :
  (forall operation,
      buildContractOperation contractId method params = inr operation ->
      Contract_new contractId = inr (op_contract operation)
      /\ op_method operation = method
      /\ List.length (op_args operation) = List.length params
      /\ forall i param,
           nth_error params i = Some param ->
           exists v,
             nth_error (op_args operation) i = Some v
             /\ toScVal param = inr v
             /\ (forall x, param = JScVal x -> v = x)
             /\ (forall props x,
                    param = JObject props ->
                    get_prop "scVal" props = Some (JScVal x) -> v = x))
  /\ (forall e,
        buildContractOperation contractId method params = inl e ->
        (exists msg, Contract_new contractId = inl msg /\ e = GenericError msg)
        \/ (exists i param msg,
              nth_error params i = Some param
              /\ nativeToScVal param = inl msg
              /\ e = SorobanException msg None None None
              /\ forall j pj, (j < i)%nat -> nth_error params j = Some pj ->
                              exists v, toScVal pj = inr v)).
Proof.
  unfold buildContractOperation, sdk. split.
  - intros operation H.
    destruct (Contract_new contractId) as [msg | contract]; [discriminate H |].
    destruct (map_result toScVal params) as [e | scVals] eqn:Emap; [discriminate H |].
    injection H as <-. cbn [op_contract op_method op_args].
    split; [reflexivity |]. split; [reflexivity |].
    split; [apply (map_result_length toScVal params scVals Emap) |].
    intros i param Hi.
    destruct (map_result_nth toScVal params scVals i param Emap Hi) as (v & Hv & Hnth).
    exists v. repeat split; try assumption.
    + intros x ->. cbn in Hv. injection Hv as <-. reflexivity.
    + intros props x -> Hprop. cbn in Hv. rewrite Hprop in Hv.
      injection Hv as <-. reflexivity.
  - intros e H.
    destruct (Contract_new contractId) as [msg | contract].
    { injection H as <-. left. eauto. }
    destruct (map_result toScVal params) as [e' | scVals] eqn:Emap; [| discriminate H].
    injection H as <-. right.
    destruct (map_result_failure toScVal params e' Emap) as (i & param & Hi & Hf & Hb).
    destruct (toScVal_failure param e' Hf) as (msg & Hmsg & ->).
    exists i, param, msg. repeat split; assumption.
Qed.

Lemma buildContractOperation_ok contractId method params operation :
  buildContractOperation contractId method params = inr operation ->
  op_method operation = method
  /\ List.length (op_args operation) = List.length params.
Proof.
  unfold buildContractOperation. intros H.
  destruct (sdk (Contract_new contractId)) as [e | contract]; [discriminate H |].
  destruct (map_result toScVal params) as [e | scVals] eqn:Emap; [discriminate H |].
  injection H as <-. split; [reflexivity |].
  apply (map_result_length toScVal params scVals Emap).
Qed.

(** X8. The transaction an invocation simulates is built on the account the
    fetch just returned, with the next sequence number, the base fee, the
    configured network passphrase, a 30 second time bound, no signature, and
    one operation: the call of the method with one argument per parameter.
    Simulation is the second call of the run, right after a successful
    account fetch. *)
Theorem invokeContract_simulated_transaction
    fuel contractId method params options w c w' :
  invokeContract stellarConfig server fuel contractId method params options w = (c, w') ->
  exists new,
    history w' = history w ++ new
    /\ forall t2 tx o2,
         In (Remote t2 (SimulateTransaction tx) o2) new ->
         exists address account operation t1 rest,
           new = Remote t1 (GetAccount address) (Fulfilled (RAccount account))
                 :: Remote t2 (SimulateTransaction tx) o2 :: rest
           /\ buildContractOperation contractId method params = inr operation
           /\ tx_source tx = mkAccount (accountId account) (sequence account + 1)
           /\ tx_fee tx = BASE_FEE
           /\ tx_networkPassphrase tx = networkPassphrase stellarConfig
           /\ tx_timeout tx = 30
           /\ tx_signatures tx = []
           /\ tx_operations tx = [operation]
           /\ op_method operation = method
           /\ List.length (op_args operation) = List.length params.
Proof.
  intros H. apply invokeContract_stages in H.
  destruct H as [(-> & _) | (secret & new & ct & Hs & Hh & Hrun & _)].
  { exists []. rewrite app_nil_r. split; [reflexivity | intros t tx o []]. }
  exists new. split; [assumption |].
  intros t2' tx o2' Hin.
  destruct Hrun; in_events Hin; try (not_a_poll Hin txHash);
    match goal with
    | Hop : buildContractOperation _ _ _ = inr ?op |- _ =>
        destruct (buildContractOperation_ok _ _ _ _ Hop) as [Hm Hl];
        exists (invocation_address options kp), account, op, t1
    end;
    eexists; repeat split; try eassumption; reflexivity.
Qed.

(** X9. The account an invocation fetches is [options.sourceAccount] when
    that is given and not empty, and otherwise the public key of the keypair
    made from the secret; the fetch is the first call of the run. *)
Theorem invokeContract_source_account fuel contractId method params options w c w' :
  invokeContract stellarConfig server fuel contractId method params options w = (c, w') ->
  exists new,
    history w' = history w ++ new
    /\ forall t address o,
         In (Remote t (GetAccount address) o) new ->
         exists secret kp rest,
           truthy_string (sourceSecret options) = Some secret
           /\ Keypair_fromSecret secret = inr kp
           /\ new = Remote t (GetAccount address) o :: rest
           /\ (forall override,
                  sourceAccount options = Some override -> override <> ""%string ->
                  address = override)
           /\ (sourceAccount options = None \/ sourceAccount options = Some ""%string ->
               address = kp_publicKey kp).
Proof.
  intros H. apply invokeContract_stages in H.
  destruct H as [(-> & _) | (secret & new & ct & Hs & Hh & Hrun & _)].
  { exists []. rewrite app_nil_r. split; [reflexivity | intros t a o []]. }
  exists new. split; [assumption |].
  intros t address o Hin.
  assert (Haddr : forall kp,
             (forall override,
                 sourceAccount options = Some override -> override <> ""%string ->
                 invocation_address options kp = override)
             /\ (sourceAccount options = None \/ sourceAccount options = Some ""%string ->
                 invocation_address options kp = kp_publicKey kp)).
  { intros kp. unfold invocation_address. split.
    - intros override -> Hne. cbn.
      destruct (String.eqb_spec override ""); [contradiction | reflexivity].
    - intros [-> | ->]; reflexivity. }
  destruct Hrun; in_events Hin; try (not_a_poll Hin txHash);
    exists secret, kp; eexists;
    (split; [exact Hs |]); (split; [eassumption |]); (split; [reflexivity |]);
    apply Haddr.
Qed.


(** ** Failures before simulation *)

(** X10. A secret that [Keypair.fromSecret] refuses fails the invocation
    before any remote call: the world is left as it was, and the SDK's error
    surfaces wrapped with the contract id, the method and itself as the
    cause. *)
Theorem invokeContract_bad_secret
    fuel contractId method params options secret msg w :
  contractId <> ""%string -> method <> ""%string ->
  sourceSecret options = Some secret -> secret <> ""%string ->
  Keypair_fromSecret secret = inl msg ->
  invokeContract stellarConfig server fuel contractId method params options w
  = (Threw (SorobanException msg (Some contractId) (Some method)
              (Some (DetailsCause (GenericError msg)))), w).
Proof.
  intros Hc Hm Hs Hne Hkp. unfold invokeContract.
  destruct (String.eqb_spec contractId ""); [contradiction |].
  destruct (String.eqb_spec method ""); [contradiction |].
  cbn [orb]. rewrite Hs. cbn [truthy_string].
  destruct (String.eqb_spec secret ""); [contradiction |].
  unfold try_catch, invokeContract_try. unfold bind at 1.
  rewrite Hkp. reflexivity.
Qed.


Lemma world_eta (w : World) : w = {| now := now w; history := history w |}.
Proof. destruct w; reflexivity. Qed.

Lemma withTimeout_race {A} call (view : A -> Response) capability label timeoutMs
    w c w' :
  withTimeout stellarConfig (remote call view capability) label timeoutMs w = (c, w') ->
  history w' = history w
               ++ [Remote (now w) call
                     (race view (capability w)
                        (effective_timeout stellarConfig timeoutMs))].
Proof.
  unfold withTimeout, remote, logged, race; cbn [request reply].
  destruct (Z.of_N (latency (capability w))
            <? timer_delay (effective_timeout stellarConfig timeoutMs));
    intros H; inversion H; subst; reflexivity.
Qed.

Lemma simulateTransaction_race tx w c w' :
  simulateTransaction stellarConfig server tx w = (c, w') ->
  history w' = history w
               ++ [Remote (now w) (SimulateTransaction tx)
                     (race RSimulation (srv_simulateTransaction server tx w)
                        (apiTimeout stellarConfig))].
Proof.
  unfold simulateTransaction. intros H.
  bind_stages H s w1 Hc Hk e; apply withTimeout_race in Hc.
  - destruct s; inversion Hk; subst; exact Hc.
  - exact Hc.
  - exact Hc.
Qed.

(** The race each call of the [try] block runs. *)
Lemma invokeContract_try_races fuel contractId method params options secret w c w' :
  invokeContract_try stellarConfig server fuel contractId method params options secret w
  = (c, w') ->
  exists new,
    history w' = history w ++ new
    /\ forall n t call o,
         nth_error new n = Some (Remote t call o) ->
         match call with
         | GetAccount address =>
             o = race RAccount (getAccount server address (world_at w new n t))
                   (effective_timeout stellarConfig (timeoutMs options))
         | SimulateTransaction tx =>
             o = race RSimulation
                   (srv_simulateTransaction server tx (world_at w new n t))
                   (apiTimeout stellarConfig)
         | PrepareTransaction tx =>
             o = race RPrepared (prepareTransaction server tx (world_at w new n t))
                   (effective_timeout stellarConfig (timeoutMs options))
         | SendTransaction tx =>
             o = race RSent (sendTransaction server tx (world_at w new n t))
                   (effective_timeout stellarConfig (timeoutMs options))
         | GetTransaction _ | GetFeeStats => True
         end.
Proof.
  intros H. unfold invokeContract_try in H.
  bind_stages H kp w0 Hc Hk e; apply lift_inv in Hc; destruct Hc as [-> _].
  2, 3: exists []; rewrite app_nil_r; split; [reflexivity |];
        intros [| n] t call o Hnth; discriminate Hnth.
  (* getAccount *)
  assert (E0 : w = world_at w [] 0 (now w)).
  { unfold world_at. cbn [firstn]. rewrite app_nil_r. apply world_eta. }
  bind_stages Hk account w1 Hc Hk1 e; apply withTimeout_race in Hc.
  2, 3: eexists; split; [exact Hc |];
        intros [| [| n]] t call o Hnth; try discriminate Hnth;
        injection Hnth as <- <- <-; unfold world_at; cbn [firstn];
        rewrite app_nil_r, <- world_eta; reflexivity.
  pose proof (world_eta w1) as E1. rewrite Hc in E1.
  (* buildContractOperation *)
  bind_stages Hk1 operation w1' Hb Hk2 e; apply lift_inv in Hb; destruct Hb as [-> _].
  2, 3: eexists; split; [exact Hc |];
        intros [| [| n]] t call o Hnth; try discriminate Hnth;
        injection Hnth as <- <- <-; unfold world_at; cbn [firstn];
        rewrite app_nil_r, <- world_eta; reflexivity.
  (* simulateTransaction *)
  bind_stages Hk2 simulation w2 Hs Hk3 e; apply simulateTransaction_race in Hs;
    rewrite Hc, <- app_assoc in Hs; cbn [app] in Hs.
  2, 3: eexists; split; [exact Hs |];
        intros [| [| [| n]]] t call o Hnth; try discriminate Hnth;
        injection Hnth as <- <- <-; unfold world_at; cbn [firstn app];
        [rewrite app_nil_r, <- world_eta | rewrite <- E1]; reflexivity.
  pose proof (world_eta w2) as E2. rewrite Hs in E2.
  (* prepareTransaction *)
  bind_stages Hk3 prepared w3 Hp Hk4 e; apply withTimeout_race in Hp;
    rewrite Hs, <- app_assoc in Hp; cbn [app] in Hp.
  2, 3: eexists; split; [exact Hp |];
        intros [| [| [| [| n]]]] t call o Hnth; try discriminate Hnth;
        injection Hnth as <- <- <-; unfold world_at; cbn [firstn app];
        [rewrite app_nil_r, <- world_eta | rewrite <- E1 | rewrite <- E2];
        reflexivity.
  pose proof (world_eta w3) as E3. rewrite Hp in E3.
  (* sendTransaction *)
  assert (Hsent : forall w4 rest,
             history w4
             = history w3
               ++ [Remote (now w3) (SendTransaction (sign prepared kp))
                     (race RSent (sendTransaction server (sign prepared kp) w3)
                        (effective_timeout stellarConfig (timeoutMs options)))] ->
             history w' = history w4 ++ rest ->
             (forall t call o, In (Remote t call o) rest ->
                               exists h, call = GetTransaction h) ->
             exists new,
               history w' = history w ++ new
               /\ forall n t call o,
                    nth_error new n = Some (Remote t call o) ->
                    match call with
                    | GetAccount address =>
                        o = race RAccount
                              (getAccount server address (world_at w new n t))
                              (effective_timeout stellarConfig (timeoutMs options))
                    | SimulateTransaction tx =>
                        o = race RSimulation
                              (srv_simulateTransaction server tx (world_at w new n t))
                              (apiTimeout stellarConfig)
                    | PrepareTransaction tx =>
                        o = race RPrepared
                              (prepareTransaction server tx (world_at w new n t))
                              (effective_timeout stellarConfig (timeoutMs options))
                    | SendTransaction tx =>
                        o = race RSent
                              (sendTransaction server tx (world_at w new n t))
                              (effective_timeout stellarConfig (timeoutMs options))
                    | GetTransaction _ | GetFeeStats => True
                    end).
  { intros w4 rest H4 Hrest Hpolls.
    rewrite Hp, <- app_assoc in H4. cbn [app] in H4.
    rewrite H4, <- app_assoc in Hrest. cbn [app] in Hrest.
    eexists. split; [exact Hrest |].
    intros [| [| [| [| n]]]] t call o Hnth; cbn [nth_error app] in Hnth;
      try (injection Hnth as <- <- <-; unfold world_at; cbn [firstn app]);
      [ rewrite app_nil_r, <- world_eta; reflexivity
      | rewrite <- E1; reflexivity
      | rewrite <- E2; reflexivity
      | rewrite <- E3; reflexivity
      | ].
    apply nth_error_In in Hnth. destruct (Hpolls t call o Hnth) as (h & ->).
    exact I. }
  bind_stages Hk4 sendResponse w4 Hq Hk5 e; apply withTimeout_race in Hq.
  2, 3: apply (Hsent w' [] Hq); [rewrite app_nil_r; reflexivity | intros ? ? ? []].
  destruct (send_status sendResponse =? "ERROR")%string.
  { inversion Hk5; subst.
    apply (Hsent w' [] Hq); [rewrite app_nil_r; reflexivity | intros ? ? ? []]. }
  destruct (truthy_string (send_hash sendResponse)) as [txHash |].
  2: { inversion Hk5; subst.
       apply (Hsent w' [] Hq); [rewrite app_nil_r; reflexivity | intros ? ? ? []]. }
  (* waitForTransaction, getContractEvents *)
  bind_stages Hk5 confirmed w5 Hw Hk6 e;
    apply waitForTransaction_run in Hw; destruct Hw as (polls & Hh5 & Hpolls).
  2, 3: apply (Hsent w4 polls Hq Hh5); intros t call o Hin; exists txHash;
        apply (Hpolls t call o Hin).
  bind_stages Hk6 evs w6 He Hk7 e;
    apply getContractEvents_run in He; destruct He as (last & Hh6 & Hlast).
  1: inversion Hk7; subst w6.
  all: apply (Hsent w4 (polls ++ last) Hq);
    [rewrite Hh6, Hh5, <- app_assoc; reflexivity |];
    intros t call o Hin; exists txHash; apply in_app_or in Hin;
    destruct Hin as [Hin | Hin]; [apply (Hpolls t call o Hin) | apply (Hlast t call o Hin)].
Qed.

(** X12. Each of the four calls before polling races a timer of its own
    budget: the caller's [timeoutMs] (the configured [apiTimeout] when there
    is none, or when it is 0) for [getAccount], [prepareTransaction] and
    [sendTransaction], but always the configured [apiTimeout] for
    [simulateTransaction].  The outcome of each such call is what the
    server's reply, in the world of the call, makes of that race: passed on
    when the reply settles before the timer fires, timed out otherwise.
    When one of them times out, the invocation throws the timeout exception
    naming that call and that budget, as raised: without contract id or
    method. *)
Theorem invokeContract_step_timeout fuel contractId method params options w c w' :
  invokeContract stellarConfig server fuel contractId method params options w = (c, w') ->
  exists new,
    history w' = history w ++ new
    /\ (forall n t call o,
          nth_error new n = Some (Remote t call o) ->
          match call with
          | GetAccount address =>
              o = race RAccount (getAccount server address (world_at w new n t))
                    (effective_timeout stellarConfig (timeoutMs options))
          | SimulateTransaction tx =>
              o = race RSimulation
                    (srv_simulateTransaction server tx (world_at w new n t))
                    (apiTimeout stellarConfig)
          | PrepareTransaction tx =>
              o = race RPrepared (prepareTransaction server tx (world_at w new n t))
                    (effective_timeout stellarConfig (timeoutMs options))
          | SendTransaction tx =>
              o = race RSent (sendTransaction server tx (world_at w new n t))
                    (effective_timeout stellarConfig (timeoutMs options))
          | GetTransaction _ | GetFeeStats => True
          end)
    /\ (forall t address,
          In (Remote t (GetAccount address) TimedOut) new ->
          c = Threw (timeout_exception "getAccount"
                       (effective_timeout stellarConfig (timeoutMs options))))
    /\ (forall t tx,
          In (Remote t (SimulateTransaction tx) TimedOut) new ->
          c = Threw (timeout_exception "simulateTransaction" (apiTimeout stellarConfig)))
    /\ (forall t tx,
          In (Remote t (PrepareTransaction tx) TimedOut) new ->
          c = Threw (timeout_exception "prepareTransaction"
                       (effective_timeout stellarConfig (timeoutMs options))))
    /\ (forall t tx,
          In (Remote t (SendTransaction tx) TimedOut) new ->
          c = Threw (timeout_exception "sendTransaction"
                       (effective_timeout stellarConfig (timeoutMs options)))).
Proof.
  intros H.
  assert (Hraces : exists new,
             history w' = history w ++ new
             /\ forall n t call o,
                  nth_error new n = Some (Remote t call o) ->
                  match call with
                  | GetAccount address =>
                      o = race RAccount (getAccount server address (world_at w new n t))
                            (effective_timeout stellarConfig (timeoutMs options))
                  | SimulateTransaction tx =>
                      o = race RSimulation
                            (srv_simulateTransaction server tx (world_at w new n t))
                            (apiTimeout stellarConfig)
                  | PrepareTransaction tx =>
                      o = race RPrepared
                            (prepareTransaction server tx (world_at w new n t))
                            (effective_timeout stellarConfig (timeoutMs options))
                  | SendTransaction tx =>
                      o = race RSent (sendTransaction server tx (world_at w new n t))
                            (effective_timeout stellarConfig (timeoutMs options))
                  | GetTransaction _ | GetFeeStats => True
                  end).
  { pose proof H as Hrun. apply invokeContract_run in Hrun.
    destruct Hrun as [(-> & _) | (secret & ct & _ & Htry & _)].
    - exists []. rewrite app_nil_r. split; [reflexivity |].
      intros [| n] t call o Hnth; discriminate Hnth.
    - apply invokeContract_try_races in Htry. exact Htry. }
  destruct Hraces as (new' & Hh' & Hraces).
  apply invokeContract_stages in H.
  destruct H as [(-> & _) | (secret & new & ct & _ & Hh & Hrun & ->)].
  { exists []. rewrite app_nil_r. split; [reflexivity |].
    split; [intros [| n] t call o Hnth; discriminate Hnth |].
    repeat split; intros ? ? []. }
  assert (new' = new) as -> by (apply (app_inv_head (history w)); congruence).
  exists new. split; [assumption |]. split; [exact Hraces |].
  repeat split; intros t x Hin; destruct Hrun; in_events Hin;
    try (not_a_poll Hin txHash);
    match goal with
    | Hr : raced_as _ _ _ (Threw _) TimedOut |- _ =>
        cbn in Hr; destruct Hr as [Hr | [_ ->]]; [discriminate Hr | reflexivity]
    | Hr : sim_refused _ TimedOut _ |- _ =>
        destruct Hr as [(d & Hr & _) | [Hr | [_ ->]]];
        [discriminate Hr | discriminate Hr | reflexivity]
    end.
Qed.

(** ** The caller *)

(** X13. [TradeExecutorContract.invoke] called without options, or with
    options that hold no (non-empty) secret, never reaches the server: for a
    bound contract id and a method that are not empty it throws the missing
    secret exception, attributed to the contract and the method, and leaves
    the world as it was, whatever the parameters. *)
Theorem TradeExecutorContract_invoke_without_secret
    fuel contractId method params options w :
  contractId <> ""%string -> method <> ""%string ->
  options = None
  \/ (exists o, options = Some o
                /\ (sourceSecret o = None \/ sourceSecret o = Some ""%string)) ->
  TradeExecutorContract_invoke stellarConfig server fuel contractId method params
    options w
  = (Threw (SorobanException "Missing source secret for contract invocation"
              (Some contractId) (Some method) None), w).
Proof.
  intros Hc Hm Hopt. unfold TradeExecutorContract_invoke, invokeContract.
  destruct (String.eqb_spec contractId ""); [contradiction |].
  destruct (String.eqb_spec method ""); [contradiction |].
  cbn [orb].
  destruct Hopt as [-> | (o & -> & [Hs | Hs])]; cbn [or_else no_options sourceSecret];
    try rewrite Hs; reflexivity.
Qed.

(** X14. An invocation ends: given fuel for one loop turn per millisecond of
    the wait's timeout, [invokeContract] returns a result or throws, the
    polling loop never being cut short. *)
Theorem invokeContract_terminates fuel contractId method params options w c w' :
  (Z.to_nat (effective_timeout stellarConfig (timeoutMs options)) <= fuel)%nat ->
  invokeContract stellarConfig server fuel contractId method params options w = (c, w') ->
  (exists cr, c = Returned cr) \/ (exists e, c = Threw e).
Proof.
  intros Hfuel H.
  pose proof (invokeContract_completes stellarConfig server fuel contractId method
                params options w c w' Hfuel H) as Hdone.
  destruct c; [left; eauto | right; eauto | contradiction].
Qed.


(** ** Time *)

Lemma elapses_ret {A} (a : A) : elapses (ret a) 0.
Proof. intros w r w' H. inversion H; subst. lia. Qed.

Lemma elapses_throw {A} e : elapses (@throw A e) 0.
Proof. intros w r w' H. inversion H; subst. lia. Qed.

Lemma elapses_lift {A} (r : Result A) : elapses (lift r) 0.
Proof. destruct r; [apply elapses_throw | apply elapses_ret]. Qed.

Lemma elapses_weaken {A} (c : Async A) a b : a <= b -> elapses c a -> elapses c b.
Proof. intros Hab Hc w r w' H. apply Hc in H. lia. Qed.

Lemma elapses_bind {A B} (c : Async A) (k : A -> Async B) a b :
  0 <= b -> elapses c a -> (forall x, elapses (k x) b) -> elapses (bind c k) (a + b).
Proof.
  intros Hb Hc Hk w r w' H. unfold bind in H.
  destruct (c w) as [[x | e |] w1] eqn:Ec; apply Hc in Ec.
  - apply Hk in H. lia.
  - inversion H; subst. lia.
  - inversion H; subst. lia.
Qed.

Lemma elapses_try_catch {A} (c : Async A) (handler : JsError -> Async A) a :
  elapses c a -> (forall e, elapses (handler e) 0) -> elapses (try_catch c handler) a.
Proof.
  intros Hc Hh w r w' H. unfold try_catch in H.
  destruct (c w) as [[x | e |] w1] eqn:Ec; apply Hc in Ec.
  - inversion H; subst. lia.
  - apply Hh in H. lia.
  - inversion H; subst. lia.
Qed.

Lemma withTimeout_elapses {A} (promise : World -> Promise A) label timeoutMs :
  elapses (withTimeout stellarConfig promise label timeoutMs)
    (timer_delay (effective_timeout stellarConfig timeoutMs)).
Proof.
  intros w r w' H. unfold withTimeout in H.
  pose proof (timer_delay_pos (effective_timeout stellarConfig timeoutMs)) as Hpos.
  destruct (Z.ltb_spec (Z.of_N (latency (reply (promise w))))
              (timer_delay (effective_timeout stellarConfig timeoutMs)));
    inversion H; subst; cbn [now]; lia.
Qed.

Lemma delayMs_timer attempt : 1 <= timer_delay (delayMs attempt) <= 8000.
Proof.
  pose proof (timer_delay_pos (delayMs attempt)) as Hpos.
  split; [assumption |]. unfold timer_delay, delayMs in *.
  destruct ((Z.min (2000 * (attempt + 1)) 8000 <? 1)
            || (2147483647 <? Z.min (2000 * (attempt + 1)) 8000)); lia.
Qed.

Lemma delayMs_ramp attempt : 0 <= attempt -> 2000 <= timer_delay (delayMs attempt).
Proof.
  intros Ha. unfold timer_delay, delayMs.
  destruct (Z.ltb_spec (Z.min (2000 * (attempt + 1)) 8000) 1); [lia |].
  destruct (Z.ltb_spec 2147483647 (Z.min (2000 * (attempt + 1)) 8000)); cbn [orb]; lia.
Qed.

Lemma poll_elapsed fuel : forall txHash timeoutMs deadline attempt w c w',
  poll stellarConfig server fuel txHash timeoutMs deadline attempt w = (c, w') ->
  now w <= now w'
  <= Z.max (now w)
       (deadline + timer_delay (effective_timeout stellarConfig timeoutMs) + 8000).
Proof.
  induction fuel as [| fuel IH]; intros txHash timeoutMs deadline attempt w c w' H;
    cbn [poll] in H; unfold bind at 1 in H; unfold Date_now in H;
    destruct (Z.ltb_spec (now w) deadline) as [Hlt | Hge];
    try (inversion H; subst; lia).
  pose proof (timer_delay_pos (effective_timeout stellarConfig timeoutMs)) as Hpos.
  bind_stages H response w1 Hq Hk e; apply withTimeout_elapses in Hq; try lia.
  destruct (settled response).
  - inversion Hk; subst. lia.
  - unfold bind at 1 in Hk. unfold sleep in Hk. apply IH in Hk. cbn [now] in Hk.
    pose proof (delayMs_timer attempt). lia.
Qed.

Lemma waitForTransaction_elapses fuel txHash timeoutMs :
  elapses (waitForTransaction stellarConfig server fuel txHash timeoutMs)
    (Z.max 0 (effective_timeout stellarConfig timeoutMs)
     + timer_delay (effective_timeout stellarConfig timeoutMs) + 8000).
Proof.
  intros w c w' H. rewrite waitForTransaction_poll in H. apply poll_elapsed in H.
  pose proof (timer_delay_pos (effective_timeout stellarConfig timeoutMs)).
  lia.
Qed.

Lemma simulateTransaction_elapses transaction :
  elapses (simulateTransaction stellarConfig server transaction)
    (timer_delay (apiTimeout stellarConfig)).
Proof.
  unfold simulateTransaction.
  apply (elapses_weaken _ (timer_delay (apiTimeout stellarConfig) + 0)); [lia |].
  apply elapses_bind; [lia | apply withTimeout_elapses |].
  intros []; [apply elapses_throw | apply elapses_ret].
Qed.

Lemma getContractEvents_elapses txHash :
  elapses (getContractEvents stellarConfig server txHash)
    (timer_delay (apiTimeout stellarConfig)).
Proof.
  pose proof (timer_delay_pos (apiTimeout stellarConfig)).
  unfold getContractEvents. destruct (txHash =? "")%string.
  - apply (elapses_weaken _ 0); [lia | apply elapses_ret].
  - apply (elapses_weaken _ (timer_delay (apiTimeout stellarConfig) + 0)); [lia |].
    apply elapses_bind; [lia | apply withTimeout_elapses |].
    intros r. destruct (negb (status_is r "SUCCESS")); apply elapses_ret.
Qed.

(** X15. The confirmation wait is bounded in time: it ends (returning,
    throwing, or cut short) no later than its timeout plus the budget of one
    query plus the longest sleep, 8000 ms, after it began, and the clock
    never goes back. *)
Theorem waitForTransaction_elapsed fuel txHash timeoutMs w c w' :
  waitForTransaction stellarConfig server fuel txHash timeoutMs w = (c, w') ->
  now w <= now w'
  <= now w + Z.max 0 (effective_timeout stellarConfig timeoutMs)
     + timer_delay (effective_timeout stellarConfig timeoutMs) + 8000.
Proof.
  intros H. apply waitForTransaction_elapses in H. lia.
Qed.

(** X16. A whole invocation is bounded in time: with [T] the timer of the
    caller's timeout and [D] the timer of the configured [apiTimeout], it
    ends within [4 * T + 2 * D + max 0 timeout + 8000] milliseconds: three
    calls and one query under [T], the simulation and the events query under
    [D], and the wait's timeout and last sleep. *)
Theorem invokeContract_elapsed fuel contractId method params options w c w' :
  invokeContract stellarConfig server fuel contractId method params options w = (c, w') ->
  now w <= now w'
  <= now w
     + 4 * timer_delay (effective_timeout stellarConfig (timeoutMs options))
     + 2 * timer_delay (apiTimeout stellarConfig)
     + Z.max 0 (effective_timeout stellarConfig (timeoutMs options))
     + 8000.
Proof.
  pose proof (timer_delay_pos (effective_timeout stellarConfig (timeoutMs options))) as HT.
  pose proof (timer_delay_pos (apiTimeout stellarConfig)) as HD.
  set (T := timer_delay (effective_timeout stellarConfig (timeoutMs options))) in *.
  set (D := timer_delay (apiTimeout stellarConfig)) in *.
  set (E := Z.max 0 (effective_timeout stellarConfig (timeoutMs options))).
  assert (Hall : elapses (invokeContract stellarConfig server fuel contractId method
                            params options)
                   (4 * T + 2 * D + E + 8000)).
  { unfold invokeContract.
    destruct ((contractId =? "")%string || (method =? "")%string);
      [apply (elapses_weaken _ 0); [lia | apply elapses_throw] |].
    destruct (truthy_string (sourceSecret options)) as [secret |];
      [| apply (elapses_weaken _ 0); [lia | apply elapses_throw]].
    apply elapses_try_catch.
    2: { intros e. unfold invokeContract_catch.
         destruct (is_SorobanException e); apply elapses_throw. }
    unfold invokeContract_try.
    apply (elapses_weaken _ (0 + (T + (0 + (D + (T + (T + ((E + T + 8000) + (D + 0))))))))).
    { lia. }
    apply elapses_bind; [lia | apply elapses_lift |]. intros kp.
    apply elapses_bind; [lia | apply withTimeout_elapses |]. intros account.
    apply elapses_bind; [lia | apply elapses_lift |]. intros operation.
    apply elapses_bind; [lia | apply simulateTransaction_elapses |]. intros simulation.
    apply elapses_bind; [lia | apply withTimeout_elapses |]. intros prepared.
    apply elapses_bind; [lia | apply withTimeout_elapses |]. intros sendResponse.
    destruct (send_status sendResponse =? "ERROR")%string;
      [apply (elapses_weaken _ 0); [lia | apply elapses_throw] |].
    destruct (truthy_string (send_hash sendResponse)) as [txHash |];
      [| apply (elapses_weaken _ 0); [lia | apply elapses_throw]].
    apply elapses_bind; [lia | apply waitForTransaction_elapses |]. intros confirmed.
    apply elapses_bind; [lia | apply getContractEvents_elapses |]. intros evs.
    apply elapses_ret. }
  intros H. apply Hall in H. lia.
Qed.

(** Queries are at least 2000 ms apart and all before the deadline. *)
Lemma poll_queries fuel : forall txHash timeoutMs deadline attempt w c w',
  0 <= attempt ->
  poll stellarConfig server fuel txHash timeoutMs deadline attempt w = (c, w') ->
  exists new,
    history w' = history w ++ new
    /\ (calls_to CapGetTransaction new = O
        \/ now w + 2000 * (Z.of_nat (calls_to CapGetTransaction new) - 1) < deadline).
Proof.
  induction fuel as [| fuel IH]; intros txHash timeoutMs deadline attempt w c w' Ha H;
    apply poll_step in H;
    destruct H as [(_ & _ & ->) | [(_ & _ & _ & ->)
                                  | (Hlt & f & o & w1 & Hf & Hh & Hn & Hcase)]];
    try (exists []; rewrite app_nil_r; split; [reflexivity | left; reflexivity]);
    try discriminate Hf.
  injection Hf as <-.
  destruct Hcase as [(e & _ & -> & _) | [(r & _ & _ & _ & ->) | (r & _ & _ & Hrest)]].
  - eexists. split; [exact Hh |]. right. cbn. lia.
  - eexists. split; [exact Hh |]. right. cbn. lia.
  - apply IH in Hrest; [| lia]. destruct Hrest as (new & Hh' & Hcount).
    unfold after_sleep in Hh', Hcount. cbn [history now] in Hh', Hcount.
    exists (Remote (now w) (GetTransaction txHash) o
              :: Sleep (now w1) (delayMs attempt) :: new).
    split; [rewrite Hh', Hh, <- !app_assoc; reflexivity |].
    right.
    change (calls_to CapGetTransaction
              (Remote (now w) (GetTransaction txHash) o
                 :: Sleep (now w1) (delayMs attempt) :: new))
      with (S (calls_to CapGetTransaction new)).
    pose proof (delayMs_ramp attempt Ha).
    destruct Hcount as [-> | Hcount]; lia.
Qed.

(** X17. The wait cannot query often: sleeps last 2000 ms or more and no
    query is issued at or after the deadline, so a wait that made [n]
    queries (n > 0) has [2000 * (n - 1)] below its timeout. *)
Theorem waitForTransaction_query_bound fuel txHash timeoutMs w c w' :
  waitForTransaction stellarConfig server fuel txHash timeoutMs w = (c, w') ->
  exists new,
    history w' = history w ++ new
    /\ (calls_to CapGetTransaction new = O
        \/ 2000 * (Z.of_nat (calls_to CapGetTransaction new) - 1)
           < effective_timeout stellarConfig timeoutMs).
Proof.
  rewrite waitForTransaction_poll. intros H. apply poll_queries in H; [| lia].
  destruct H as (new & Hh & Hcount). exists new. split; [assumption |].
  destruct Hcount as [Hz | Hlt]; [left; assumption | right; lia].
Qed.



(** ** How the wait ends *)

Lemma poll_outcome fuel : forall txHash timeoutMs deadline attempt w c w',
  poll stellarConfig server fuel txHash timeoutMs deadline attempt w = (c, w') ->
  exists new,
    history w' = history w ++ new
    /\ match c with
       | Returned response =>
           exists pre tq,
             new = pre ++ [Remote tq (GetTransaction txHash)
                             (Fulfilled (RTransaction response))]
             /\ unsettled_polls txHash pre
             /\ settled response = true
       | Threw e =>
           (e = confirmation_timeout /\ unsettled_polls txHash new)
           \/ exists pre tq o,
                new = pre ++ [Remote tq (GetTransaction txHash) o]
                /\ unsettled_polls txHash pre
                /\ (o = Rejected e
                    \/ (o = TimedOut
                        /\ e = timeout_exception "getTransaction"
                                 (effective_timeout stellarConfig timeoutMs)))
       | OutOfFuel => unsettled_polls txHash new
       end.
Proof.
  assert (Hnil : forall txHash, unsettled_polls txHash []) by (intros ? ? ? ? []).
  induction fuel as [| fuel IH]; intros txHash timeoutMs deadline attempt w c w' H;
    apply poll_step in H;
    destruct H as [(_ & -> & ->) | [(_ & _ & -> & ->)
                                   | (Hlt & f & o & w1 & Hf & Hh & Hn & Hcase)]];
    try (exists []; rewrite app_nil_r; split; [reflexivity | auto]);
    try discriminate Hf.
  injection Hf as <-.
  destruct Hcase as [(e & -> & -> & Ho) | [(r & -> & Hs & -> & ->) | (r & -> & Hs & Hrest)]].
  - eexists. split; [exact Hh |]. right. exists [], (now w), o.
    split; [reflexivity |]. split; [apply Hnil | exact Ho].
  - eexists. split; [exact Hh |]. exists [], (now w). auto.
  - apply IH in Hrest. destruct Hrest as (new & Hh' & Hc).
    unfold after_sleep in Hh'. cbn [history] in Hh'.
    apply settled_false in Hs.
    assert (Hcons : forall h, unsettled_polls txHash h ->
                              unsettled_polls txHash
                                (Remote (now w) (GetTransaction txHash)
                                   (Fulfilled (RTransaction r))
                                   :: Sleep (now w1) (delayMs attempt) :: h)).
    { intros h Hu t call o [Hi | [Hi | Hi]].
      - inversion Hi; subst. split; [reflexivity | eauto].
      - discriminate Hi.
      - apply (Hu t call o Hi). }
    exists (Remote (now w) (GetTransaction txHash) (Fulfilled (RTransaction r))
              :: Sleep (now w1) (delayMs attempt) :: new).
    split; [rewrite Hh', Hh, <- !app_assoc; reflexivity |].
    destruct c as [response | e |].
    + destruct Hc as (pre & tq & -> & Hpre & Hset).
      exists (Remote (now w) (GetTransaction txHash) (Fulfilled (RTransaction r))
                :: Sleep (now w1) (delayMs attempt) :: pre), tq.
      split; [reflexivity |]. split; [apply Hcons; assumption | assumption].
    + destruct Hc as [(-> & Hu) | (pre & tq & o & -> & Hpre & Ho)].
      * left. split; [reflexivity | apply Hcons; assumption].
      * right.
        exists (Remote (now w) (GetTransaction txHash) (Fulfilled (RTransaction r))
                  :: Sleep (now w1) (delayMs attempt) :: pre), tq, o.
        split; [reflexivity |]. split; [apply Hcons; assumption | assumption].
    + apply Hcons; assumption.
Qed.

(** X18. How the confirmation wait ends.  A returned response is the answer
    to its last query and carries a status that is neither empty nor
    PENDING; a thrown error is the confirmation timeout, or the rejection or
    timeout of the last query, which is not retried.  In every case all
    earlier queries were answered with a status that is absent, empty or
    PENDING. *)
Theorem waitForTransaction_outcome fuel txHash timeoutMs w c w' :
  waitForTransaction stellarConfig server fuel txHash timeoutMs w = (c, w') ->
  exists new,
    history w' = history w ++ new
    /\ match c with
       | Returned response =>
           exists pre tq,
             new = pre ++ [Remote tq (GetTransaction txHash)
                             (Fulfilled (RTransaction response))]
             /\ unsettled_polls txHash pre
             /\ exists s, resp_status response = Some s
                          /\ s <> ""%string /\ s <> "PENDING"%string
       | Threw e =>
           (e = confirmation_timeout /\ unsettled_polls txHash new)
           \/ exists pre tq o,
                new = pre ++ [Remote tq (GetTransaction txHash) o]
                /\ unsettled_polls txHash pre
                /\ (o = Rejected e
                    \/ (o = TimedOut
                        /\ e = timeout_exception "getTransaction"
                                 (effective_timeout stellarConfig timeoutMs)))
       | OutOfFuel => unsettled_polls txHash new
       end.
Proof.
  rewrite waitForTransaction_poll. intros H. apply poll_outcome in H.
  destruct H as (new & Hh & Hc). exists new. split; [assumption |].
  destruct c as [response | e |]; try assumption.
  destruct Hc as (pre & tq & Hnew & Hpre & Hset). exists pre, tq.
  split; [assumption |]. split; [assumption |].
  apply settled_status. assumption.
Qed.


(** ** No time to wait *)

Lemma waitForTransaction_past fuel txHash timeoutMs w :
  effective_timeout stellarConfig timeoutMs <= 0 ->
  waitForTransaction stellarConfig server fuel txHash timeoutMs w
  = (Threw confirmation_timeout, w).
Proof.
  intros Hno. rewrite waitForTransaction_poll.
  destruct fuel; cbn [poll]; unfold bind, Date_now;
    destruct (Z.ltb_spec (now w) (now w + effective_timeout stellarConfig timeoutMs));
    try lia; reflexivity.
Qed.

Ltac stops_here Hin :=
  do 2 eexists; split; [eassumption |]; split; [reflexivity |];
  split; [reflexivity |]; intros ? ? ? Hin ? ?; in_events Hin.

Lemma invokeContract_try_no_time fuel contractId method params options secret w c w' :
  effective_timeout stellarConfig (timeoutMs options) <= 0 ->
  invokeContract_try stellarConfig server fuel contractId method params options secret w
  = (c, w') ->
  exists new e,
    history w' = history w ++ new
    /\ c = Threw e
    /\ calls_to CapGetTransaction new = O
    /\ forall t tx sendResponse,
         In (Remote t (SendTransaction tx) (Fulfilled (RSent sendResponse))) new ->
         send_status sendResponse <> "ERROR"%string ->
         truthy_string (send_hash sendResponse) <> None ->
         e = confirmation_timeout.
Proof.
  intros Hno H. unfold invokeContract_try in H.
  bind_stages H kp w0 Hc Hk e; apply lift_inv in Hc; destruct Hc as [-> Hc];
    destruct (Keypair_fromSecret secret) as [msg | kp'] eqn:Ekp; cbn in Hc;
    try discriminate Hc.
  2: { exists [], e. rewrite app_nil_r. repeat split. intros ? ? ? []. }
  clear Hc.
  bind_stages Hk account w1 Hc Hk1 e;
    apply withTimeout_remote in Hc; destruct Hc as (o1 & Hh1 & _ & Ho1);
    [ | stops_here Hin | contradiction].
  bind_stages Hk1 operation w1' Hc Hk2 e; apply lift_inv in Hc; destruct Hc as [-> Hc];
    [ | stops_here Hin | destruct (buildContractOperation contractId method params);
                         discriminate Hc].
  clear Hc.
  bind_stages Hk2 simulation w2 Hc Hk3 e;
    apply simulateTransaction_run in Hc; destruct Hc as (o2 & Hh2 & Ho2);
    [ | rewrite Hh1, <- app_assoc in Hh2; stops_here Hin | contradiction].
  bind_stages Hk3 prepared w3 Hc Hk4 e;
    apply withTimeout_remote in Hc; destruct Hc as (o3 & Hh3 & _ & Ho3);
    [ | rewrite Hh2, Hh1, <- !app_assoc in Hh3; stops_here Hin | contradiction].
  bind_stages Hk4 sendResponse w4 Hc Hk5 e;
    apply withTimeout_remote in Hc; destruct Hc as (o4 & Hh4 & _ & Ho4);
    rewrite Hh3, Hh2, Hh1, <- !app_assoc in Hh4.
  3: contradiction.
  2: { stops_here Hin. cbn in Ho4. destruct Ho4 as [Ho4 | [Ho4 _]]; discriminate Ho4. }
  cbn in Ho4. subst o4.
  destruct (String.eqb_spec (send_status sendResponse) "ERROR") as [Herr | Herr].
  { inversion Hk5; subst c w'. stops_here Hin. contradiction. }
  destruct (truthy_string (send_hash sendResponse)) as [txHash |] eqn:Ehash.
  2: { inversion Hk5; subst c w'. stops_here Hin. congruence. }
  unfold bind at 1 in Hk5. rewrite (waitForTransaction_past _ _ _ _ Hno) in Hk5.
  inversion Hk5; subst c w'. stops_here Hin. reflexivity.
Qed.

(** X19. With no time to wait (a negative [timeoutMs], or none and a
    configured [apiTimeout] that is not positive) an invocation cannot
    succeed: it always throws, and it never asks for the status of the
    transaction.  If the transaction was accepted by [sendTransaction], the
    invocation still throws, the confirmation timeout, with the transaction
    sent. *)
Theorem invokeContract_no_time fuel contractId method params options w c w' :
  effective_timeout stellarConfig (timeoutMs options) <= 0 ->
  invokeContract stellarConfig server fuel contractId method params options w = (c, w') ->
  exists new,
    history w' = history w ++ new
    /\ (exists e, c = Threw e)
    /\ calls_to CapGetTransaction new = O
    /\ forall t tx sendResponse,
         In (Remote t (SendTransaction tx) (Fulfilled (RSent sendResponse))) new ->
         send_status sendResponse <> "ERROR"%string ->
         truthy_string (send_hash sendResponse) <> None ->
         c = Threw confirmation_timeout.
Proof.
  intros Hno H. apply invokeContract_run in H.
  destruct H as [(-> & message & ->) | (secret & ct & _ & Htry & ->)].
  { exists []. rewrite app_nil_r. split; [reflexivity |]. split; [eauto |].
    split; [reflexivity | intros ? ? ? []]. }
  apply (invokeContract_try_no_time _ _ _ _ _ _ _ _ _ Hno) in Htry.
  destruct Htry as (new & e & Hh & -> & Hcalls & Hsent).
  exists new. split; [assumption |]. split; [eauto |]. split; [assumption |].
  intros t tx sendResponse Hin Herr Hhash.
  rewrite (Hsent t tx sendResponse Hin Herr Hhash). reflexivity.
Qed.


(** ** Reading the events *)


(** ** Fee estimation *)

Lemma estimateFees_stages operation w c w' :
  estimateFees stellarConfig server operation w = (c, w') ->
  exists new,
    history w' = history w ++ new
    /\ EstimateRun stellarConfig server operation new c.
Proof.
  unfold estimateFees. intros H.
  fold (estimate_transaction stellarConfig operation) in H.
  bind_stages H s w1 Hc Hk e;
    apply simulateTransaction_run in Hc; destruct Hc as (o & Hh1 & Ho);
    [ | eexists; split; [eassumption |]; apply Estimate_no_simulation; assumption
      | contradiction].
  destruct Ho as [-> Hsuccess].
  fold (resource_fee_text s) in Hk.
  bind_stages Hk r w1' Hc Hk2 e; apply lift_inv in Hc; destruct Hc as [-> Hr];
    destruct (toBigInt (JString (resource_fee_text s))) as [err | r'] eqn:Er;
    try discriminate Hr.
  2: { injection Hr as ->. eexists. split; [eassumption |].
       apply Estimate_no_resource_fee; assumption. }
  injection Hr as <-.
  assert (Hprice : forall stats w2,
             (inclusionFee <- lift (resolveInclusionFee stats) ;;
              ret {| inclusionFee := Z_to_string inclusionFee;
                     resourceFee := Z_to_string r;
                     totalFee := Z_to_string (inclusionFee + r) |}) w2 = (c, w') ->
             w' = w2 /\ c = priced r stats).
  { intros stats w2 Hp. unfold bind, priced in *.
    destruct (resolveInclusionFee stats); cbn in Hp; inversion Hp; auto. }
  destruct (getFeeStats server) as [capability |] eqn:Ecap.
  - bind_stages Hk2 fs w2 Hc Hk3 e;
      apply withTimeout_remote in Hc; destruct Hc as (o2 & Hh2 & _ & Ho2);
      rewrite Hh1, <- app_assoc in Hh2.
    + cbn in Ho2. subst o2. apply Hprice in Hk3. destruct Hk3 as [-> ->].
      eexists. split; [exact Hh2 |].
      apply Estimate_fetched; try assumption. rewrite Ecap. discriminate.
    + eexists. split; [exact Hh2 |].
      eapply Estimate_no_stats; try eassumption. rewrite Ecap. discriminate.
    + contradiction.
  - unfold bind at 1 in Hk2. rewrite withTimeout_resolved in Hk2.
    apply Hprice in Hk2. destruct Hk2 as [-> ->]. cbn [history or_else].
    eexists. split; [rewrite app_nil_r; exact Hh1 |].
    apply Estimate_default; assumption.
Qed.

Lemma toBigInt_failure v e :
  toBigInt v = inl e ->
  e = GenericError ("Cannot convert " ++ js_String v ++ " to a BigInt").
Proof.
  unfold toBigInt.
  destruct v; try discriminate;
    match goal with
    | |- context [StringToBigInt ?s] => destruct (StringToBigInt s)
    end; try discriminate; intros H; injection H as <-; reflexivity.
Qed.

Lemma resolveInclusionFee_failure stats e :
  resolveInclusionFee stats = inl e ->
  exists figure,
    e = GenericError ("Cannot convert " ++ js_String figure ++ " to a BigInt").
Proof.
  unfold resolveInclusionFee.
  destruct (feeCandidate _); intros H; apply toBigInt_failure in H; eauto.
Qed.

Lemma priced_completes r stats : priced r stats <> OutOfFuel.
Proof. unfold priced. destruct (resolveInclusionFee stats); discriminate. Qed.

(** X21. [estimateFees] only reads: it simulates once, the transaction built
    on the placeholder account, and then asks for the fee statistics at most
    once, and only when the client offers [getFeeStats].  It never fetches
    an account, prepares, sends or polls, and it always completes. *)
Theorem estimateFees_calls operation w c w' :
  estimateFees stellarConfig server operation w = (c, w') ->
  exists new,
    history w' = history w ++ new
    /\ (capabilities new = [CapSimulateTransaction]
        \/ (capabilities new = [CapSimulateTransaction; CapGetFeeStats]
            /\ getFeeStats server <> None))
    /\ (forall t tx o,
          In (Remote t (SimulateTransaction tx) o) new ->
          tx = estimate_transaction stellarConfig operation
          /\ accountId (tx_source tx)
             = "GAAAAAAAAAAAAAAAAAAAAAAAAAAAAAAAAAAAAAAAAAAAAAAAAAAAAWHF"%string
          /\ tx_operations tx = [operation])
    /\ c <> OutOfFuel.
Proof.
  intros H. apply estimateFees_stages in H. destruct H as (new & Hh & Hrun).
  exists new. split; [assumption |].
  destruct Hrun;
    (split; [first [left; reflexivity | right; split; [reflexivity | assumption]] |]);
    (split; [intros tq tx oq Hin; in_events Hin; repeat split
            | try discriminate; try apply priced_completes]).
Qed.

(** X22. The failures of [estimateFees].  It throws what the simulation
    step throws (nothing else was called); or, the simulation having
    succeeded, the [BigInt] conversion error of a resource fee that is not an
    integer literal, before any fee statistics are asked for; or the
    rejection or timeout of [getFeeStats]; or, both calls having succeeded
    (the second only if the client offers it), the conversion error of the
    inclusion fee figure, that is of the figure chosen from the statistics
    just fetched, or of the base fee when they offer none, which then is no
    integer literal.  A conversion error is a plain error, not a
    [SorobanException]. *)
Theorem estimateFees_failure operation w e w' :
  estimateFees stellarConfig server operation w = (Threw e, w') ->
  exists new,
    history w' = history w ++ new
    /\ ((exists t o,
           new = [Remote t (SimulateTransaction
                              (estimate_transaction stellarConfig operation)) o]
           /\ sim_refused stellarConfig o e)
        \/ (exists t s,
              new = [Remote t (SimulateTransaction
                                 (estimate_transaction stellarConfig operation))
                       (Fulfilled (RSimulation s))]
              /\ StringToBigInt (resource_fee_text s) = None
              /\ e = GenericError ("Cannot convert " ++ resource_fee_text s
                                   ++ " to a BigInt"))
        \/ (exists t s t' o,
              new = [Remote t (SimulateTransaction
                                 (estimate_transaction stellarConfig operation))
                       (Fulfilled (RSimulation s));
                     Remote t' GetFeeStats o]
              /\ (o = Rejected e
                  \/ (o = TimedOut
                      /\ e = timeout_exception "getFeeStats"
                               (apiTimeout stellarConfig))))
        \/ (exists t s r stats,
              toBigInt (JString (resource_fee_text s)) = inr r
              /\ ((getFeeStats server = None
                   /\ stats = empty_stats
                   /\ new = [Remote t (SimulateTransaction
                                         (estimate_transaction stellarConfig operation))
                               (Fulfilled (RSimulation s))])
                  \/ (exists t' fs,
                        getFeeStats server <> None
                        /\ stats = or_else fs empty_stats
                        /\ new = [Remote t (SimulateTransaction
                                              (estimate_transaction stellarConfig
                                                 operation))
                                    (Fulfilled (RSimulation s));
                                  Remote t' GetFeeStats (Fulfilled (RFeeStats fs))]))
              /\ (forall z, fee_figure stats <> JBigInt z)
              /\ StringToBigInt (js_String (fee_figure stats)) = None
              /\ e = GenericError ("Cannot convert " ++ js_String (fee_figure stats)
                                   ++ " to a BigInt")
              /\ is_SorobanException e = false)).
Proof.
  intros H. apply estimateFees_stages in H. destruct H as (new & Hh & Hrun).
  exists new. split; [assumption |].
  remember (Threw e) as c eqn:Hc.
  assert (Hread : forall s r, toBigInt (JString (resource_fee_text s)) = inr r ->
                              StringToBigInt (resource_fee_text s) <> None).
  { intros s r Hr. unfold toBigInt in Hr. cbn [js_String] in Hr.
    destruct (StringToBigInt (resource_fee_text s)); discriminate. }
  assert (Hpriced : forall r stats,
             priced r stats = Threw e ->
             (forall z, fee_figure stats <> JBigInt z)
             /\ StringToBigInt (js_String (fee_figure stats)) = None
             /\ e = GenericError ("Cannot convert " ++ js_String (fee_figure stats)
                                  ++ " to a BigInt")
             /\ is_SorobanException e = false).
  { intros r stats Hp. unfold priced in Hp.
    destruct (resolveInclusionFee stats) as [err |] eqn:Ef; [| discriminate Hp].
    injection Hp as ->.
    assert (Hfig : toBigInt (fee_figure stats) = inl e).
    { rewrite <- Ef. unfold resolveInclusionFee, fee_figure.
      destruct (feeCandidate _); reflexivity. }
    pose proof (toBigInt_failure _ _ Hfig) as He.
    split.
    { intros z Hz. rewrite Hz in Hfig. discriminate Hfig. }
    split.
    { unfold toBigInt in Hfig.
      destruct (fee_figure stats); try discriminate Hfig;
        match type of Hfig with
        | context [StringToBigInt ?x] => destruct (StringToBigInt x)
        end; try discriminate Hfig; reflexivity. }
    split; [exact He | rewrite He; reflexivity]. }
  destruct Hrun.
  - injection Hc as ->. left. eauto.
  - injection Hc as ->. right; left. exists t, s. split; [reflexivity |].
    match goal with Hf : toBigInt _ = inl _ |- _ =>
      pose proof (toBigInt_failure _ _ Hf) as He; cbn [js_String] in He;
      unfold toBigInt in Hf; cbn [js_String] in Hf;
      destruct (StringToBigInt (resource_fee_text s)); [discriminate Hf |]
    end.
    split; [reflexivity | exact He].
  - injection Hc as ->. right; right; left. exists t, s, t', o.
    split; [reflexivity |].
    match goal with Hr : raced_as _ _ _ _ _ |- _ => exact Hr end.
  - right; right; right. apply Hpriced in Hc.
    exists t, s, r, (or_else fs empty_stats).
    split; [assumption |]. split; [right; exists t', fs; auto | exact Hc].
  - right; right; right. apply Hpriced in Hc.
    exists t, s, r, empty_stats.
    split; [assumption |]. split; [left; auto | exact Hc].
Qed.

(** ** Reading a bigint back *)

Lemma trim_start_plain a r :
  (N_of_ascii a <? 128)%N = true -> white_space_1 a = false ->
  trim_start (String a r) = String a r.
Proof.
  intros Hlow Hplain. apply N.ltb_lt in Hlow.
  assert (H2 : forall b, white_space_2 a b = false).
  { intros b. unfold white_space_2.
    destruct (N.eqb_spec (N_of_ascii a) 194); [lia | reflexivity]. }
  assert (H3 : forall b c, white_space_3 a b c = false).
  { intros b c. unfold white_space_3. cbv zeta.
    destruct (N.eqb_spec (N_of_ascii a) 225); [lia |].
    destruct (N.eqb_spec (N_of_ascii a) 226); [lia |].
    destruct (N.eqb_spec (N_of_ascii a) 227); [lia |].
    destruct (N.eqb_spec (N_of_ascii a) 239); [lia |].
    reflexivity. }
  cbn [trim_start]. rewrite Hplain.
  destruct r as [| b [| c r]]; try reflexivity.
  - rewrite H2. reflexivity.
  - rewrite H2, H3. reflexivity.
Qed.

Lemma trim_end_plain a r :
  (N_of_ascii a <? 128)%N = true -> white_space_1 a = false ->
  trim_end (String a r) = String a (trim_end r).
Proof.
  intros Hlow Hplain. cbn [trim_end]. unfold blank.
  rewrite (trim_start_plain a r Hlow Hplain). reflexivity.
Qed.

Lemma trim_end_digits d :
  trim_end (NilEmpty.string_of_uint d) = NilEmpty.string_of_uint d.
Proof.
  induction d; cbn [NilEmpty.string_of_uint]; [reflexivity | ..];
    rewrite trim_end_plain by reflexivity; rewrite IHd; reflexivity.
Qed.

Lemma trim_digits d : trim (NilEmpty.string_of_uint d) = NilEmpty.string_of_uint d.
Proof.
  unfold trim.
  replace (trim_start (NilEmpty.string_of_uint d)) with (NilEmpty.string_of_uint d)
    by (destruct d; [reflexivity | symmetry; apply trim_start_plain; reflexivity ..]).
  apply trim_end_digits.
Qed.

Lemma trim_minus_digits d :
  trim (String "-" (NilEmpty.string_of_uint d)) = String "-" (NilEmpty.string_of_uint d).
Proof.
  unfold trim. rewrite trim_start_plain by reflexivity.
  rewrite trim_end_plain by reflexivity. rewrite trim_end_digits. reflexivity.
Qed.

Lemma parse_digits_acc d : forall p,
  parse_digits 10 (Zpos p) (NilEmpty.string_of_uint d)
  = Some (Zpos (Pos.of_uint_acc d p)).
Proof.
  induction d; intros p; cbn [NilEmpty.string_of_uint Pos.of_uint_acc];
    [reflexivity | ..];
    match goal with
    | |- parse_digits 10 ?a (String ?c ?rest) = _ =>
        change (parse_digits 10 a (String c rest))
          with (match digit_value c with
                | Some d => if d <? 10 then parse_digits 10 (10 * a + d) rest else None
                | None => None
                end)
    end;
    match goal with
    | |- context [digit_value ?c] =>
        let v := eval vm_compute in (digit_value c) in
        change (digit_value c) with v
    end; cbv iota beta;
    match goal with
    | |- context [?x <? 10] =>
        let v := eval vm_compute in (x <? 10) in change (x <? 10) with v
    end; cbv iota; rewrite <- IHd; f_equal; lia.
Qed.

Lemma parse_digits_uint d :
  parse_digits 10 0 (NilEmpty.string_of_uint d) = Some (Z.of_N (Pos.of_uint d)).
Proof.
  induction d; cbn [NilEmpty.string_of_uint Pos.of_uint]; [reflexivity | ..];
    match goal with
    | |- parse_digits 10 ?a (String ?c ?rest) = _ =>
        change (parse_digits 10 a (String c rest))
          with (match digit_value c with
                | Some d => if d <? 10 then parse_digits 10 (10 * a + d) rest else None
                | None => None
                end)
    end;
    match goal with
    | |- context [digit_value ?c] =>
        let v := eval vm_compute in (digit_value c) in
        change (digit_value c) with v
    end; cbv iota beta;
    match goal with
    | |- context [?x <? 10] =>
        let v := eval vm_compute in (x <? 10) in change (x <? 10) with v
    end; cbv iota;
    [exact IHd | apply parse_digits_acc ..].
Qed.

Lemma StringToBigInt_digits d :
  d <> Decimal.Nil ->
  StringToBigInt (NilEmpty.string_of_uint d) = Some (Z.of_N (Pos.of_uint d))
  /\ StringToBigInt (String "-" (NilEmpty.string_of_uint d))
     = Some (- Z.of_N (Pos.of_uint d)).
Proof.
  intros Hd. unfold StringToBigInt. rewrite trim_digits, trim_minus_digits.
  pose proof (parse_digits_uint d) as Hp.
  assert (Hnat : parse_nat 10 (NilEmpty.string_of_uint d)
                 = Some (Z.of_N (Pos.of_uint d))).
  { rewrite <- Hp. destruct d; [contradiction | reflexivity ..]. }
  split.
  - rewrite <- Hnat.
    destruct d as [| d | d | d | d | d | d | d | d | d | d];
      [contradiction | | reflexivity ..].
    destruct d; reflexivity.
  - change ((("-" =? "-")%char)) with true. cbv iota. rewrite Hnat. reflexivity.
Qed.

(** X23. [toBigInt] reads back what [toString] printed: for every bigint
    [z], positive, zero or negative, the decimal text of [z] converts to
    [z], and so does [z] given as a bigint. *)
Theorem toBigInt_round_trip z :
  toBigInt (JString (Z_to_string z)) = inr z
  /\ toBigInt (JString (js_String (JBigInt z))) = inr z
  /\ toBigInt (JBigInt z) = inr z.
Proof.
  assert (H : toBigInt (JString (Z_to_string z)) = inr z).
  { unfold toBigInt. cbn [js_String]. unfold Z_to_string.
    assert (Hs : StringToBigInt (NilZero.string_of_int (Z.to_int z)) = Some z).
    { destruct z as [| p | p]; cbn [Z.to_int NilZero.string_of_int].
      - reflexivity.
      - pose proof (DecimalPos.Unsigned.to_uint_nonnil p) as Hn.
        replace (NilZero.string_of_uint (Pos.to_uint p))
          with (NilEmpty.string_of_uint (Pos.to_uint p))
          by (destruct (Pos.to_uint p); [contradiction | reflexivity ..]).
        destruct (StringToBigInt_digits _ Hn) as [-> _].
        rewrite DecimalPos.Unsigned.of_to. reflexivity.
      - pose proof (DecimalPos.Unsigned.to_uint_nonnil p) as Hn.
        replace (NilZero.string_of_uint (Pos.to_uint p))
          with (NilEmpty.string_of_uint (Pos.to_uint p))
          by (destruct (Pos.to_uint p); [contradiction | reflexivity ..]).
        destruct (StringToBigInt_digits _ Hn) as [_ ->].
        rewrite DecimalPos.Unsigned.of_to. reflexivity. }
    rewrite Hs. reflexivity. }
  repeat split; [exact H | exact H].
Qed.


(** ** Field aliases of raw events *)

(** X24. Each raw event is decoded on its own, with aliases tried in a fixed
    order: the contract id is [contractId] when truthy and [contract_id]
    otherwise; the data is decoded from [data] when truthy and from [value]
    otherwise; a truthy [topic] shadows [topics], so that a [topic] that is
    not an array leaves the event without topics whatever [topics] holds,
    while a falsy [topic] lets an array in [topics] through, decoded entry
    by entry. *)
Theorem parseEvents_aliases (raw : list RawEvent) i event :
  nth_error raw i = Some event ->
  exists decoded,
    nth_error (parseEvents raw) i = Some decoded
    /\ (truthy (ev_contractId event) = true -> contractId decoded = ev_contractId event)
    /\ (truthy (ev_contractId event) = false ->
        contractId decoded = ev_contract_id event)
    /\ (truthy (ev_data event) = true -> data decoded = parseScVal (ev_data event))
    /\ (truthy (ev_data event) = false -> data decoded = parseScVal (ev_value event))
    /\ (truthy (ev_topic event) = true -> as_array (ev_topic event) = None ->
        topics decoded = None)
    /\ (truthy (ev_topic event) = false ->
        forall items, ev_topics event = JArray items ->
                      topics decoded = Some (map parseScVal items)).
Proof.
  intros H. unfold parseEvents. eexists.
  split; [apply map_nth_error; exact H |].
  cbn [contractId data topics]. unfold js_or.
  repeat split.
  - intros ->. reflexivity.
  - intros ->. reflexivity.
  - intros ->. reflexivity.
  - intros ->. reflexivity.
  - intros -> ->. reflexivity.
  - intros -> items ->. reflexivity.
Qed.

End Coverage.
(** * Concrete runs *)

Local Open Scope list_scope.
#[local] Existing Instance Fake.host.

(** The end-to-end scenario: a swap simulated to return 42, pending twice,
    then confirmed with a fee of 100. *)
Example confirmed_invocation_result :
  fst Fake.confirmed_invocation
  = Returned {| success := true;
                hash := Some "abc"%string;
                status := Some "SUCCESS"%string;
                result := JBigInt 42;
                events := [{| type := "unknown";
                              contractId := JString "C1";
                              topics := None;
                              data := JUndefined |}];
                feeCharged := Some "100"%string;
                error := None |}.
Proof. vm_compute. reflexivity. Qed.

Example wait_sleeps :
  map (fun e => match e with Sleep _ ms => Some ms | Remote _ _ _ => None end)
      (history (snd Fake.wait))
  = [None; Some 2000; None; Some 4000; None].
Proof. vm_compute. reflexivity. Qed.

Lemma invokeContract_simulation_error_witness :
  exists new t tx,
    history (snd Fake.failed_invocation) = history Fake.start ++ new
    /\ In (Remote t (SimulateTransaction tx)
             (Fulfilled (RSimulation (SimulationError "host trap")))) new
    /\ fst Fake.failed_invocation
       = Threw (SorobanException "Simulation failed: host trap" None None None)
    /\ calls_to CapSendTransaction new = O.
Proof.
  destruct (invokeContract_simulation_error Fake.config
              (Fake.endpoint 0 (SimulationError "host trap") None)
              10 "C1" "swap" [JBigInt 100; JString "USDC"] Fake.options Fake.start
              (fst Fake.failed_invocation) (snd Fake.failed_invocation)
              (surjective_pairing Fake.failed_invocation))
    as (new & Hh & Hall).
  assert (Hin : In (Remote 1000005
                      (SimulateTransaction
                         (TransactionBuilder_build (mkAccount "GSECRET" 7) "100"
                            "Test Network"
                            (mkOperation "C1" "swap"
                               [mkScVal [Byte.x2a]; Fake.bytes_of "USDC"]) 30))
                      (Fulfilled (RSimulation (SimulationError "host trap")))) new).
  { vm_compute in Hh. rewrite <- Hh. right; left. reflexivity. }
  destruct (Hall _ _ _ Hin) as (Hc & _ & Hsend & _).
  exists new. do 2 eexists.
  split; [exact Hh | split; [exact Hin | split; [exact Hc | exact Hsend]]].
Defined.

Lemma invokeContract_invalid_request_witness :
  sourceSecret Fake.no_secret = None
  /\ exists message,
       invokeContract Fake.config (Fake.endpoint 0 Fake.returns_42 None)
         10 "C1" "swap" [] Fake.no_secret Fake.start
       = (Threw (SorobanException message (Some "C1"%string) (Some "swap"%string) None),
          Fake.start).
Proof.
  split; [reflexivity |].
  apply invokeContract_invalid_request. right; right; left. reflexivity.
Defined.

Lemma waitForTransaction_backoff_witness :
  exists new,
    history (snd Fake.wait) = history Fake.start ++ new
    /\ nth_error new 1 = Some (Sleep 1000001 2000)
    /\ nth_error new 3 = Some (Sleep 1002002 4000)
    /\ nth_error new 5 = None.
Proof.
  destruct (waitForTransaction_backoff Fake.config
              (Fake.endpoint 2 Fake.returns_42 None) 10 "abc" (Some 20000) Fake.start
              (fst Fake.wait) (snd Fake.wait) (surjective_pairing Fake.wait))
    as (new & Hh & _).
  exists new. split; [exact Hh |].
  vm_compute in Hh. rewrite <- Hh. repeat split.
Defined.

Lemma waitForTransaction_deadline_witness :
  exists deadline new,
    history (snd Fake.expired_wait) = history Fake.start ++ new
    /\ deadline = 1020000
    /\ (forall t call o, In (Remote t call o) new -> t < deadline)
    /\ nth_error new 0 = Some (Remote 1000000 (GetTransaction "abc")
                                (Fulfilled (RTransaction Fake.pending)))
    /\ nth_error new 7 = Some (Sleep 1012004 8000)
    /\ nth_error new 8 = None
    /\ fst Fake.expired_wait = Threw confirmation_timeout
    /\ now (snd Fake.expired_wait) = 1020004.
Proof.
  destruct (waitForTransaction_deadline Fake.config
              (Fake.endpoint 100 Fake.returns_42 None) 10 "abc" (Some 20000)
              Fake.start (fst Fake.expired_wait) (snd Fake.expired_wait)
              (surjective_pairing Fake.expired_wait))
    as (deadline & new & Hh & Hsome & _ & Hin & _ & _ & _ & _ & Hsleeps).
  assert (Hd : deadline = 1020000)
    by (apply (Hsome 20000); [reflexivity | discriminate]).
  pose proof Hh as Hlist. vm_compute in Hlist.
  assert (H7 : nth_error new 7 = Some (Sleep 1012004 8000))
    by (rewrite <- Hlist; reflexivity).
  destruct (Hsleeps 7%nat _ _ H7) as [_ Hexpired].
  destruct Hexpired as (Hend & Hc & Hnow);
    [rewrite Hd; vm_compute; discriminate |].
  exists deadline, new. split; [exact Hh |]. split; [exact Hd |].
  split; [intros t call o H; apply (Hin t call o H) |].
  split; [rewrite <- Hlist; reflexivity |].
  split; [exact H7 |]. split; [exact Hend |]. split; [exact Hc | exact Hnow].
Defined.

Lemma resolveInclusionFee_priority_witness :
  @resolveInclusionFee Fake.host Fake.generic_stats = inr 250.
Proof.
  destruct (resolveInclusionFee_priority Fake.config (Fake.endpoint 0 Fake.returns_42 None))
    as (_ & Hgeneric & _ & Hstat & _).
  unfold Fake.generic_stats. rewrite Hgeneric.
  destruct (Hstat (mkFeeDistribution (JString "250") (JString "900") (JString "100")
                     (JString "100"))) as (Hp95 & _).
  rewrite Hp95; reflexivity.
Defined.

(** Statistics that hold no usable figure do not always give the base fee
    (here 100): a bucket of nulls makes the estimate fail, and a bucket of
    empty texts gives an inclusion fee of 0. *)
Lemma resolveInclusionFee_fallback_counterexample :
  @resolveInclusionFee Fake.host Fake.null_stats
  = inl (GenericError "Cannot convert null to a BigInt")
  /\ fst Fake.null_estimate = Threw (GenericError "Cannot convert null to a BigInt")
  /\ @resolveInclusionFee Fake.host Fake.blank_stats = inr 0
  /\ @toBigInt Fake.host (JString (@BASE_FEE Fake.host)) = inr 100.
Proof. repeat split; vm_compute; reflexivity. Qed.

Lemma estimateFees_total_witness :
  exists i r,
    fst Fake.estimate
    = Returned {| inclusionFee := Z_to_string i;
                  resourceFee := Z_to_string r;
                  totalFee := Z_to_string (i + r) |}
    /\ @toBigInt Fake.host (JString "250") = inr i
    /\ @toBigInt Fake.host (JString "1000") = inr r
    /\ Z_of_string "1250" = Some (i + r).
Proof.
  assert (Hrun : estimateFees Fake.config
                   (Fake.endpoint 0 Fake.returns_42 (Some Fake.generic_stats))
                   Fake.swap Fake.start
                 = (Returned (mkFeeEstimate "250" "1000" "1250"), snd Fake.estimate)).
  { vm_compute. reflexivity. }
  destruct (estimateFees_total Fake.config _ _ _ _ _ Hrun)
    as (new & s & stats & i & r & Hh & Hsim & Hstats & Hr & Hi & Hest & _ & _ & Ht & _).
  vm_compute in Hh. rewrite <- Hh in Hsim, Hstats.
  vm_compute in Hsim. injection Hsim as <-.
  cbn [getFeeStats Fake.endpoint] in Hstats. destruct Hstats as (fs & Hfs & ->).
  vm_compute in Hfs. injection Hfs as <-.
  exists i, r. split; [rewrite <- Hest; reflexivity |].
  split; [exact Hi |]. split; [exact Hr | exact Ht].
Defined.

(** [BigInt] trims every kind of white space: a no-break space in front
    and a line separator behind do not hinder the conversion. *)
Example toBigInt_white_space :
  @toBigInt Fake.host (JString (Fake.nbsp ++ "-5" ++ Fake.line_separator)) = inr (-5).
Proof. vm_compute. reflexivity. Qed.

(** A fee statistics endpoint cannot keep the estimate non-negative: a
    simulation that quotes "-5" yields a negative resource fee. *)
Lemma estimateFees_negative_counterexample :
  fst Fake.negative_estimate
  = Returned {| inclusionFee := "100"; resourceFee := "-5"; totalFee := "95" |}.
Proof. vm_compute. reflexivity. Qed.

Lemma parseScVal_string_witness :
  "hello"%string <> ""%string
  /\ @ScVal_fromXDR_base64 Fake.host "hello" = None
  /\ @parseScVal Fake.host (JString "hello") = JString "hello".
Proof.
  assert (Hne : "hello"%string <> ""%string) by discriminate.
  split; [exact Hne |]. split; [reflexivity |].
  apply (proj1 (@parseScVal_string Fake.host "hello" Hne)). reflexivity.
Defined.

(** The empty string cannot be decoded, and is not returned unchanged. *)
Lemma parseScVal_empty_string_counterexample :
  @ScVal_fromXDR_base64 Fake.host "" = None
  /\ @parseScVal Fake.host (JString "") = JUndefined
  /\ @parseScVal Fake.host (JString "") <> JString "".
Proof. repeat split. discriminate. Qed.

Lemma parseEvents_defaults_witness :
  exists untyped typed,
    @parseEvents Fake.host [Fake.raw_event; Fake.typed_event] = [untyped; typed]
    /\ type untyped = "unknown"%string
    /\ topics untyped = None
    /\ type typed = "contract"%string
    /\ topics typed = Some [JString "transfer"; JUndefined].
Proof.
  destruct (@parseEvents_defaults Fake.host [Fake.raw_event; Fake.typed_event])
    as [_ Hall].
  destruct (Hall 0%nat Fake.raw_event eq_refl)
    as (untyped & Hnth0 & Habsent & _ & _ & _ & Hnone & _).
  destruct (Hall 1%nat Fake.typed_event eq_refl)
    as (typed & Hnth1 & _ & _ & _ & Hkept & _ & Hitems).
  exists untyped, typed.
  split; [injection Hnth0 as <-; injection Hnth1 as <-; reflexivity |].
  split; [apply Habsent; reflexivity |].
  split; [apply Hnone; reflexivity |].
  split; [apply (Hkept "contract"%string); [reflexivity | discriminate] |].
  rewrite (Hitems [JString "transfer"; JString ""] eq_refl). reflexivity.
Defined.

Lemma invokeContract_error_attribution_witness :
  fst Fake.failed_invocation = Threw (simulation_failed "host trap")
  /\ is_SorobanException (simulation_failed "host trap") = true
  /\ ((exists message,
         simulation_failed "host trap"
         = SorobanException message (Some "C1"%string) (Some "swap"%string) None)
      \/ (exists secret cause message,
            truthy_string (sourceSecret Fake.options) = Some secret
            /\ invokeContract_try Fake.config
                 (Fake.endpoint 0 (SimulationError "host trap") None)
                 10 "C1" "swap" [JBigInt 100; JString "USDC"] Fake.options secret
                 Fake.start = (Threw cause, snd Fake.failed_invocation)
            /\ is_SorobanException cause = false
            /\ simulation_failed "host trap"
               = SorobanException message (Some "C1"%string) (Some "swap"%string)
                   (Some (DetailsCause cause)))
      \/ (exists secret,
            truthy_string (sourceSecret Fake.options) = Some secret
            /\ invokeContract_try Fake.config
                 (Fake.endpoint 0 (SimulationError "host trap") None)
                 10 "C1" "swap" [JBigInt 100; JString "USDC"] Fake.options secret
                 Fake.start
               = (Threw (simulation_failed "host trap"), snd Fake.failed_invocation))).
Proof.
  assert (Hfst : fst Fake.failed_invocation = Threw (simulation_failed "host trap")).
  { vm_compute. reflexivity. }
  split; [exact Hfst |].
  apply (invokeContract_error_attribution Fake.config
           (Fake.endpoint 0 (SimulationError "host trap") None)
           10 "C1" "swap" [JBigInt 100; JString "USDC"] Fake.options Fake.start).
  rewrite <- Hfst. apply surjective_pairing.
Defined.

(** A failed simulation surfaces an exception with neither contract id nor
    method. *)
Lemma invokeContract_unattributed_counterexample :
  fst Fake.failed_invocation
  = Threw (SorobanException "Simulation failed: host trap" None None None).
Proof. vm_compute. reflexivity. Qed.

Lemma parseScVal_falsy_witness :
  exists cr,
    fst Fake.zero_invocation = Returned cr
    /\ truthy (sim_retval (Fake.simulated (JNumber 0%float) "1000")) = false
    /\ result cr = JUndefined.
Proof.
  eexists. split; [vm_compute; reflexivity |]. split; [reflexivity |].
  destruct (parseScVal_falsy Fake.config
              (Fake.endpoint 0 (Fake.simulated (JNumber 0%float) "1000") None))
    as (_ & _ & _ & _ & _ & _ & Hinvoke & _).
  eapply (Hinvoke 10%nat "C1"%string "swap"%string [] Fake.options Fake.start _
            (snd Fake.zero_invocation) (history (snd Fake.zero_invocation))
            1000005 _ (Fake.simulated (JNumber 0%float) "1000")).
  - vm_compute. reflexivity.
  - reflexivity.
  - vm_compute. right; left. reflexivity.
  - reflexivity.
Defined.

(** ** Runs for the further properties *)

Lemma invokeContract_call_order_witness :
  exists new,
    history (snd Fake.confirmed_invocation) = history Fake.start ++ new
    /\ capabilities new
       = [CapGetAccount; CapSimulateTransaction; CapPrepareTransaction;
          CapSendTransaction] ++ repeat CapGetTransaction 4.
Proof.
  destruct (invokeContract_call_order Fake.config (Fake.endpoint 2 Fake.returns_42 None)
              10 "C1" "swap" [JBigInt 100; JString "USDC"] Fake.options Fake.start
              (fst Fake.confirmed_invocation) (snd Fake.confirmed_invocation)
              (surjective_pairing Fake.confirmed_invocation))
    as (new & k & j & Hh & _).
  exists new. split; [exact Hh |].
  vm_compute in Hh. rewrite <- Hh. reflexivity.
Defined.

Lemma invokeContract_submission_rejected_witness :
  exists message,
    fst Fake.rejected_invocation
    = Threw (SorobanException message (Some "C1"%string) (Some "swap"%string)
               (Some (DetailsResponse (mkSendResponse "ERROR" None)))).
Proof.
  destruct (invokeContract_submission_rejected Fake.config Fake.rejecting
              10 "C1" "swap" [] Fake.options Fake.start
              (fst Fake.rejected_invocation) (snd Fake.rejected_invocation)
              (surjective_pairing Fake.rejected_invocation))
    as (new & Hh & Hall).
  edestruct Hall as [Hmsg _];
    [ vm_compute in Hh; rewrite <- Hh; do 3 right; left; reflexivity
    | left; reflexivity
    | exact Hmsg ].
Defined.

Lemma confirmed_invocation_run :
  invokeContract Fake.config (Fake.endpoint 2 Fake.returns_42 None)
    10 "C1" "swap" [JBigInt 100; JString "USDC"] Fake.options Fake.start
  = (Returned Fake.confirmed_result, snd Fake.confirmed_invocation).
Proof. vm_compute. reflexivity. Qed.

Lemma invokeContract_result_status_witness :
  exists txHash s,
    hash Fake.confirmed_result = Some txHash
    /\ status Fake.confirmed_result = Some s
    /\ (success Fake.confirmed_result = true <-> s = "SUCCESS"%string).
Proof.
  destruct (invokeContract_result_status Fake.config _ _ _ _ _ _ _ _ _
              confirmed_invocation_run)
    as (txHash & s & Hhash & _ & Hstatus & _ & _ & Hiff & _).
  exists txHash, s. auto.
Defined.

Lemma invokeContract_result_source_witness :
  exists confirmed,
    status Fake.confirmed_result = resp_status confirmed
    /\ feeCharged Fake.confirmed_result = opt_toString (resp_feeCharged confirmed).
Proof.
  destruct (invokeContract_result_source Fake.config _ _ _ _ _ _ _ _ _
              confirmed_invocation_run)
    as (pre & txHash & confirmed & tq & last & _ & Hstatus & Hfee & _).
  exists confirmed. auto.
Defined.

Lemma invokeContract_result_events_witness :
  exists earlier txHash transaction te,
    history (snd Fake.confirmed_invocation)
    = history Fake.start
      ++ earlier
      ++ [Remote te (GetTransaction txHash) (Fulfilled (RTransaction transaction))]
    /\ hash Fake.confirmed_result = Some txHash.
Proof.
  destruct (invokeContract_result_events Fake.config _ _ _ _ _ _ _ _ _
              confirmed_invocation_run)
    as (earlier & txHash & transaction & te & Hh & Hhash & _).
  exists earlier, txHash, transaction, te. auto.
Defined.

Lemma invokeContract_sent_transaction_witness :
  exists new,
    history (snd Fake.confirmed_invocation) = history Fake.start ++ new
    /\ forall t4 tx o4,
         In (Remote t4 (SendTransaction tx) o4) new ->
         exists prepared kp, tx = sign prepared kp.
Proof.
  destruct (invokeContract_sent_transaction Fake.config
              (Fake.endpoint 2 Fake.returns_42 None)
              10 "C1" "swap" [JBigInt 100; JString "USDC"] Fake.options Fake.start
              (fst Fake.confirmed_invocation) (snd Fake.confirmed_invocation)
              (surjective_pairing Fake.confirmed_invocation))
    as (new & Hh & Hall).
  exists new. split; [exact Hh |].
  intros t4 tx o4 Hin.
  destruct (Hall t4 tx o4 Hin)
    as (secret & kp & account & operation & simulation & prepared & t1 & t2 & t3
        & rest & _ & _ & _ & _ & Htx & _).
  exists prepared, kp. exact Htx.
Defined.

Lemma invokeContract_simulated_transaction_witness :
  exists new,
    history (snd Fake.confirmed_invocation) = history Fake.start ++ new
    /\ forall t2 tx o2,
         In (Remote t2 (SimulateTransaction tx) o2) new ->
         tx_fee tx = "100"%string /\ tx_timeout tx = 30 /\ tx_signatures tx = [].
Proof.
  destruct (invokeContract_simulated_transaction Fake.config
              (Fake.endpoint 2 Fake.returns_42 None)
              10 "C1" "swap" [JBigInt 100; JString "USDC"] Fake.options Fake.start
              (fst Fake.confirmed_invocation) (snd Fake.confirmed_invocation)
              (surjective_pairing Fake.confirmed_invocation))
    as (new & Hh & Hall).
  exists new. split; [exact Hh |].
  intros t2 tx o2 Hin.
  destruct (Hall t2 tx o2 Hin)
    as (address & account & operation & t1 & rest & _ & _ & _ & Hfee & _ & Htime
        & Hsig & _).
  auto.
Defined.

Lemma invokeContract_source_account_witness :
  exists new,
    history (snd Fake.hurried_invocation) = history Fake.start ++ new
    /\ forall t address o,
         In (Remote t (GetAccount address) o) new -> address = "GOTHER"%string.
Proof.
  destruct (invokeContract_source_account Fake.config Fake.instant
              10 "C1" "swap" [] Fake.hurried Fake.start
              (fst Fake.hurried_invocation) (snd Fake.hurried_invocation)
              (surjective_pairing Fake.hurried_invocation))
    as (new & Hh & Hall).
  exists new. split; [exact Hh |].
  intros t address o Hin.
  destruct (Hall t address o Hin) as (secret & kp & rest & _ & _ & _ & Hgiven & _).
  apply Hgiven; [reflexivity | discriminate].
Defined.

Lemma invokeContract_bad_secret_witness :
  invokeContract Fake.config Fake.instant 10 "C1" "swap" [] Fake.bad_secret Fake.start
  = (Threw (SorobanException "invalid encoded string" (Some "C1"%string)
              (Some "swap"%string)
              (Some (DetailsCause (GenericError "invalid encoded string")))),
     Fake.start).
Proof.
  apply (invokeContract_bad_secret Fake.config Fake.instant 10 "C1" "swap" []
           Fake.bad_secret "BAD");
    [discriminate | discriminate | reflexivity | discriminate | reflexivity].
Defined.


Lemma invokeContract_step_timeout_witness :
  exists new,
    history (snd Fake.slow_invocation) = history Fake.start ++ new
    /\ (exists t tx,
          nth_error new 1
          = Some (Remote t (SimulateTransaction tx)
                    (Fulfilled (RSimulation Fake.returns_42)))
          /\ Fulfilled (RSimulation Fake.returns_42)
             = race RSimulation
                 (srv_simulateTransaction Fake.slow tx (world_at Fake.start new 1 t))
                 30000)
    /\ (exists t tx,
          nth_error new 2 = Some (Remote t (PrepareTransaction tx) TimedOut)
          /\ TimedOut
             = race RPrepared
                 (prepareTransaction Fake.slow tx (world_at Fake.start new 2 t))
                 20000)
    /\ fst Fake.slow_invocation
       = Threw (SorobanException "Soroban prepareTransaction timed out after 20000ms"
                  None None None).
Proof.
  destruct (invokeContract_step_timeout Fake.config Fake.slow
              10 "C1" "swap" [] Fake.options Fake.start
              (fst Fake.slow_invocation) (snd Fake.slow_invocation)
              (surjective_pairing Fake.slow_invocation))
    as (new & Hh & Hraces & _ & _ & Hprepare & _).
  pose proof Hh as Hlist. vm_compute in Hlist.
  exists new. split; [exact Hh |].
  rewrite <- Hlist in Hraces, Hprepare |- *.
  split; [| split].
  - do 2 eexists. split; [reflexivity |].
    exact (Hraces 1%nat _ _ _ eq_refl).
  - do 2 eexists. split; [reflexivity |].
    exact (Hraces 2%nat _ _ _ eq_refl).
  - erewrite Hprepare; [reflexivity |]. do 2 right; left. reflexivity.
Defined.

Lemma TradeExecutorContract_invoke_without_secret_witness :
  TradeExecutorContract_invoke Fake.config Fake.instant 10 "C1" "swap" None None
    Fake.start
  = (Threw (SorobanException "Missing source secret for contract invocation"
              (Some "C1"%string) (Some "swap"%string) None),
     Fake.start).
Proof.
  apply TradeExecutorContract_invoke_without_secret;
    [discriminate | discriminate | left; reflexivity].
Defined.

Lemma invokeContract_terminates_witness :
  (exists cr, fst Fake.brisk_invocation = Returned cr)
  \/ (exists e, fst Fake.brisk_invocation = Threw e).
Proof.
  apply (invokeContract_terminates Fake.config Fake.instant 10 "C1" "swap" []
           Fake.brisk Fake.start (fst Fake.brisk_invocation)
           (snd Fake.brisk_invocation));
    [vm_compute; repeat constructor | apply surjective_pairing].
Defined.

Lemma waitForTransaction_elapsed_witness :
  1000000 <= now (snd Fake.wait) <= 1048000.
Proof.
  exact (waitForTransaction_elapsed Fake.config (Fake.endpoint 2 Fake.returns_42 None)
           10 "abc" (Some 20000) Fake.start (fst Fake.wait) (snd Fake.wait)
           (surjective_pairing Fake.wait)).
Defined.

Lemma invokeContract_elapsed_witness :
  1000000 <= now (snd Fake.confirmed_invocation) <= 1168000.
Proof.
  exact (invokeContract_elapsed Fake.config (Fake.endpoint 2 Fake.returns_42 None)
           10 "C1" "swap" [JBigInt 100; JString "USDC"] Fake.options Fake.start
           (fst Fake.confirmed_invocation) (snd Fake.confirmed_invocation)
           (surjective_pairing Fake.confirmed_invocation)).
Defined.

Lemma waitForTransaction_query_bound_witness :
  exists new,
    history (snd Fake.wait) = history Fake.start ++ new
    /\ 2000 * (Z.of_nat (calls_to CapGetTransaction new) - 1) < 20000.
Proof.
  destruct (waitForTransaction_query_bound Fake.config
              (Fake.endpoint 2 Fake.returns_42 None) 10 "abc" (Some 20000) Fake.start
              (fst Fake.wait) (snd Fake.wait) (surjective_pairing Fake.wait))
    as (new & Hh & [Hnone | Hsome]).
  - exists new. split; [exact Hh |]. rewrite Hnone. reflexivity.
  - exists new. split; [exact Hh | exact Hsome].
Defined.

Lemma waitForTransaction_outcome_witness :
  exists new pre tq,
    history (snd Fake.wait) = history Fake.start ++ new
    /\ new = pre ++ [Remote tq (GetTransaction "abc")
                       (Fulfilled (RTransaction Fake.confirmed_ok))]
    /\ unsettled_polls "abc" pre.
Proof.
  destruct (waitForTransaction_outcome Fake.config
              (Fake.endpoint 2 Fake.returns_42 None) 10 "abc" (Some 20000) Fake.start
              (Returned Fake.confirmed_ok) (snd Fake.wait))
    as (new & Hh & pre & tq & Hnew & Hpre & _).
  { vm_compute. reflexivity. }
  exists new, pre, tq. auto.
Defined.

Lemma invokeContract_no_time_witness :
  fst Fake.hurried_invocation = Threw confirmation_timeout
  /\ exists new,
       history (snd Fake.hurried_invocation) = history Fake.start ++ new
       /\ calls_to CapSendTransaction new = 1%nat
       /\ calls_to CapGetTransaction new = 0%nat.
Proof.
  assert (Hno : effective_timeout Fake.config (timeoutMs Fake.hurried) <= 0)
    by (vm_compute; discriminate).
  destruct (invokeContract_no_time Fake.config Fake.instant
              10 "C1" "swap" [] Fake.hurried Fake.start
              (fst Fake.hurried_invocation) (snd Fake.hurried_invocation)
              Hno (surjective_pairing Fake.hurried_invocation))
    as (new & Hh & _ & Hcalls & Hsent).
  split.
  - eapply (Hsent _ _ (mkSendResponse "PENDING" (Some "abc"%string)));
      [ vm_compute in Hh; rewrite <- Hh; do 3 right; left; reflexivity
      | discriminate | discriminate ].
  - exists new. split; [exact Hh |]. split; [| exact Hcalls].
    vm_compute in Hh. rewrite <- Hh. reflexivity.
Defined.


Lemma estimateFees_calls_witness :
  exists new,
    history (snd Fake.estimate) = history Fake.start ++ new
    /\ capabilities new = [CapSimulateTransaction; CapGetFeeStats]
    /\ fst Fake.estimate <> OutOfFuel.
Proof.
  destruct (estimateFees_calls Fake.config
              (Fake.endpoint 0 Fake.returns_42 (Some Fake.generic_stats))
              Fake.swap Fake.start (fst Fake.estimate) (snd Fake.estimate)
              (surjective_pairing Fake.estimate))
    as (new & Hh & _ & _ & Hdone).
  exists new. split; [exact Hh |]. split; [| exact Hdone].
  vm_compute in Hh. rewrite <- Hh. reflexivity.
Defined.

Lemma estimateFees_failure_witness :
  exists new stats,
    history (snd Fake.null_estimate) = history Fake.start ++ new
    /\ calls_to CapGetFeeStats new = 1%nat
    /\ stats = Fake.null_stats
    /\ fee_figure stats = JNull
    /\ StringToBigInt (js_String (fee_figure stats)) = None.
Proof.
  assert (Hrun : estimateFees Fake.config
                   (Fake.endpoint 0 Fake.returns_42 (Some Fake.null_stats))
                   Fake.swap Fake.start
                 = (Threw (GenericError "Cannot convert null to a BigInt"),
                    snd Fake.null_estimate)).
  { vm_compute. reflexivity. }
  destruct (estimateFees_failure Fake.config _ _ _ _ _ Hrun) as (new & Hh & Hcases).
  pose proof Hh as Hlist. vm_compute in Hlist.
  destruct Hcases
    as [(t & o & Hnew & _)
       | [(t & s & Hnew & _)
         | [(t & s & t' & o & Hnew & Ho)
           | (t & s & r & stats & _ & Hwhere & _ & Hnone & _)]]].
  - rewrite Hnew in Hlist. discriminate Hlist.
  - rewrite Hnew in Hlist. discriminate Hlist.
  - rewrite Hnew in Hlist. exfalso. inversion Hlist; subst.
    destruct Ho as [Ho | [Ho _]]; discriminate Ho.
  - destruct Hwhere as [(Hno & _) | (t' & fs & _ & Hstats & Hnew)];
      [discriminate Hno |].
    exists new, stats. split; [exact Hh |].
    rewrite Hnew in Hlist. inversion Hlist; subst.
    split; [reflexivity |]. split; [reflexivity |].
    split; [reflexivity | exact Hnone].
Defined.

Lemma parseEvents_aliases_witness :
  exists decoded,
    nth_error (parseEvents [Fake.raw_event]) 0 = Some decoded
    /\ contractId decoded = JString "C1"
    /\ topics decoded = None.
Proof.
  destruct (parseEvents_aliases [Fake.raw_event] 0 Fake.raw_event eq_refl)
    as (decoded & Hnth & Hid & _ & _ & _ & Htopic & _).
  exists decoded. split; [exact Hnth |]. split.
  - apply Hid. reflexivity.
  - apply Htopic; reflexivity.
Defined.
